(** * The local data-management layer of the point-of-sale application

    A shallow embedding of [lib/storage.ts] (the key-value substrate, the
    Users, Products and Sales repositories, the Settings store and the
    Data Manager) and of [generateReport] from the reports page, followed
    by the properties the specification states about them.

    Conventions of the embedding.
    - localStorage is a record with one optional field per storage key; a
      field holds the value [JSON.parse] yields for the stored text, and
      [None] stands for a key that is missing (or whose text does not
      parse: [storage.get] returns [null] for both).  Writes are assumed to
      succeed; the text encoding itself is not modelled.
    - Every operation takes the store and returns its result together with
      the store it leaves behind.
    - [generateId()] and [new Date().toISOString()] read the environment;
      their results are arguments of the operations that call them.
    - A JavaScript [number] is an element of a type [num] with the
      operations of the class [Number].  [float_Number] is the language's
      own arithmetic (IEEE 754 binary64); [Z_Number] is exact integer
      arithmetic.  Array lengths and counters that only ever count are
      kept in [nat]. *)

From Stdlib Require Import ZArith Uint63 Floats.PrimFloat Ascii String.
From stdpp Require Import base decidable option list strings sorting.

(* Decimal literals denote the nearest binary64 value, as in the source. *)
#[local] Set Warnings "-inexact-float".

(** ** Numbers *)

Class Number (num : Type) : Type := {
  num_zero : num;
  num_add : num → num → num;
  num_sub : num → num → num;
  num_div : num → num → num;
  num_ltb : num → num → bool;
  num_of_nat : nat → num;
}.

Declare Scope num_scope.
Delimit Scope num_scope with num.
Notation "x + y" := (num_add x y) : num_scope.
Notation "x - y" := (num_sub x y) : num_scope.
Notation "x / y" := (num_div x y) : num_scope.
Notation "x <? y" := (num_ltb x y) : num_scope.

(** The arithmetic of the language: binary64 with round-to-nearest-even. *)
#[export] Instance float_Number : Number float := {|
  num_zero := 0%float;
  num_add := PrimFloat.add;
  num_sub := PrimFloat.sub;
  num_div := PrimFloat.div;
  num_ltb := PrimFloat.ltb;
  num_of_nat n := PrimFloat.of_uint63 (Uint63.of_Z (Z.of_nat n));
|}.

(** Exact integers: what the arithmetic above computes as long as every
    amount is a whole number below 2^53. *)
#[export] Instance Z_Number : Number Z := {|
  num_zero := 0%Z;
  num_add := Z.add;
  num_sub := Z.sub;
  num_div := Z.div;
  num_ltb := Z.ltb;
  num_of_nat := Z.of_nat;
|}.

(** The laws of exact arithmetic that the reconciliation of a report
    relies on.  [Z_Number] has them; [float_Number] does not (addition
    rounds, so it is not associative). *)
Class ExactAdd (num : Type) `{Number num} : Prop := {
  num_add_assoc x y z : (x + (y + z) = (x + y) + z)%num;
  num_add_comm x y : (x + y = y + x)%num;
  num_add_0_l x : (num_zero + x = x)%num;
}.

(** ** JSON values (the type [any] of the settings document) *)

#[local] Unset Elimination Schemes.
Inductive JValue : Type :=
  | JNull
  | JBool (b : bool)
  | JNum (x : float)
  | JStr (s : string)
  | JArr (xs : list JValue)
  | JObj (fields : list (string * JValue)).
#[local] Set Elimination Schemes.

(** Truthiness, as [||] and [if] test it. *)
Definition truthy (v : JValue) : bool :=
  match v with
  | JNull => false
  | JBool b => b
  | JNum x => negb (PrimFloat.eqb x 0%float) && PrimFloat.eqb x x
  | JStr s => negb (String.eqb s "")
  | JArr _ => true
  | JObj _ => true
  end.

(** [o.key] on a value: the field of an object, [undefined] otherwise. *)
Definition field (key : string) (v : JValue) : option JValue :=
  match v with
  | JObj fields => snd <$> List.find (λ kv, String.eqb (fst kv) key) fields
  | _ => None
  end.

(** [Object.keys(v)]. *)
Definition keys (v : JValue) : list string :=
  match v with
  | JObj fields => fst <$> fields
  | _ => []
  end.

(** ** The data model *)

Inductive Role : Type := admin | cashier.
Inductive PaymentMethod : Type := cash | card | other.
Inductive Operation : Type := op_add | op_subtract.

Record User : Type := mkUser {
  u_id : string;
  u_username : string;
  u_password : string;
  u_role : Role;
  u_createdAt : string;
  u_isActive : bool;
}.

(** [Omit<User, 'id' | 'createdAt'>] *)
Record NewUser : Type := mkNewUser {
  nu_username : string;
  nu_password : string;
  nu_role : Role;
  nu_isActive : bool;
}.

(** [Partial<User>]: a field is absent ([None]) or carries a value. *)
Record UserPatch : Type := mkUserPatch {
  up_id : option string;
  up_username : option string;
  up_password : option string;
  up_role : option Role;
  up_createdAt : option string;
  up_isActive : option bool;
}.

Section DataModel.
Context {num : Type}.

Record ProductVariant : Type := mkProductVariant {
  v_id : string;
  v_name : string;
  v_price : num;
  v_stock : num;
}.

Record Product : Type := mkProduct {
  p_id : string;
  p_name : string;
  p_code : string;
  p_category : string;
  p_price : num;
  p_stock : num;
  p_minStock : num;
  p_variants : option (list ProductVariant);
  p_isActive : bool;
  p_createdAt : string;
  p_updatedAt : string;
}.

(** [Omit<Product, 'id' | 'createdAt' | 'updatedAt'>] *)
Record NewProduct : Type := mkNewProduct {
  np_name : string;
  np_code : string;
  np_category : string;
  np_price : num;
  np_stock : num;
  np_minStock : num;
  np_variants : option (list ProductVariant);
  np_isActive : bool;
}.

(** [Partial<Product>] *)
Record ProductPatch : Type := mkProductPatch {
  pp_id : option string;
  pp_name : option string;
  pp_code : option string;
  pp_category : option string;
  pp_price : option num;
  pp_stock : option num;
  pp_minStock : option num;
  pp_variants : option (list ProductVariant);
  pp_isActive : option bool;
  pp_createdAt : option string;
  pp_updatedAt : option string;
}.

Record CartItem : Type := mkCartItem {
  ci_productId : string;
  ci_variantId : option string;
  ci_name : string;
  ci_price : num;
  ci_quantity : num;
  ci_total : num;
}.

Record Sale : Type := mkSale {
  s_id : string;
  s_items : list CartItem;
  s_subtotal : num;
  s_tax : num;
  s_discount : num;
  s_total : num;
  s_paymentMethod : PaymentMethod;
  s_amountPaid : num;
  s_change : num;
  s_cashierId : string;
  s_cashierName : string;
  s_receiptPrinted : bool;
  s_timestamp : string;
  s_date : string;
}.

(** [Omit<Sale, 'id' | 'timestamp' | 'date'>] *)
Record NewSale : Type := mkNewSale {
  ns_items : list CartItem;
  ns_subtotal : num;
  ns_tax : num;
  ns_discount : num;
  ns_total : num;
  ns_paymentMethod : PaymentMethod;
  ns_amountPaid : num;
  ns_change : num;
  ns_cashierId : string;
  ns_cashierName : string;
  ns_receiptPrinted : bool;
}.

(** localStorage, one field per entry of [STORAGE_KEYS]. *)
Record Store : Type := mkStore {
  pos_users : option (list User);
  pos_products : option (list Product);
  pos_sales : option (list Sale);
  pos_settings : option JValue;
  pos_current_user : option User;
}.

(** The backup document [importData] reads and [exportData] writes.  A
    key that is absent from the document is [None]. *)
Record Backup : Type := mkBackup {
  b_users : option (list User);
  b_products : option (list Product);
  b_sales : option (list Sale);
  b_settings : option JValue;
  b_exportDate : option string;
}.
End DataModel.

Arguments ProductVariant : clear implicits.
Arguments Product : clear implicits.
Arguments NewProduct : clear implicits.
Arguments ProductPatch : clear implicits.
Arguments CartItem : clear implicits.
Arguments Sale : clear implicits.
Arguments NewSale : clear implicits.
Arguments Store : clear implicits.
Arguments Backup : clear implicits.

(** ** Writing one key of the store ([storage.set]) *)

Section Substrate.
Context {num : Type}.
Implicit Type st : Store num.

Definition set_users (v : list User) st : Store num :=
  mkStore (Some v) (pos_products st) (pos_sales st) (pos_settings st) (pos_current_user st).
Definition set_products (v : list (Product num)) st : Store num :=
  mkStore (pos_users st) (Some v) (pos_sales st) (pos_settings st) (pos_current_user st).
Definition set_sales (v : list (Sale num)) st : Store num :=
  mkStore (pos_users st) (pos_products st) (Some v) (pos_settings st) (pos_current_user st).
Definition set_settings (v : JValue) st : Store num :=
  mkStore (pos_users st) (pos_products st) (pos_sales st) (Some v) (pos_current_user st).

(** A store with no key set. *)
Definition empty_store : Store num := mkStore None None None None None.
End Substrate.

(** [now.toISOString().split('T')[0]]: the text before the first ['T']. *)
Fixpoint split_T_0 (s : string) : string :=
  match s with
  | EmptyString => EmptyString
  | String c rest => if Ascii.eqb c "T"%char then EmptyString else String c (split_T_0 rest)
  end.

(** ** User management *)

Module userStorage.
Section ops.
Context {num : Type}.
Implicit Type st : Store num.

Definition getAll st : list User := default [] (pos_users st).

Definition save (users : list User) st : Store num := set_users users st.

Definition add (newId now : string) (user : NewUser) st : User * Store num :=
  let users := getAll st in
  let newUser :=
    mkUser newId (nu_username user) (nu_password user) (nu_role user) now (nu_isActive user) in
  (newUser, save (users ++ [newUser]) st).

(** [{ ...u, ...updates }] *)
Definition merge (u : User) (updates : UserPatch) : User :=
  mkUser (default (u_id u) (up_id updates))
         (default (u_username u) (up_username updates))
         (default (u_password u) (up_password updates))
         (default (u_role u) (up_role updates))
         (default (u_createdAt u) (up_createdAt updates))
         (default (u_isActive u) (up_isActive updates)).

Definition update (id : string) (updates : UserPatch) st : bool * Store num :=
  let users := getAll st in
  match list_find (λ u, u_id u = id) users with
  | None => (false, st)
  | Some (index, u) => (true, save (<[index := merge u updates]> users) st)
  end.

Definition delete (id : string) st : bool * Store num :=
  let users := getAll st in
  let filtered := filter (λ u, u_id u ≠ id) users in
  if decide (length filtered = length users) then (false, st)
  else (true, save filtered st).

(** [None] is the [null] of the source. *)
Definition findByCredentials (username password : string) st : option User :=
  let users := getAll st in
  snd <$> list_find
    (λ u, u_username u = username ∧ u_password u = password ∧ u_isActive u) users.
End ops.
End userStorage.

(** ** Product management *)

Module productStorage.
Section ops.
Context `{Number num}.
Implicit Type st : Store num.

Definition getAll st : list (Product num) := default [] (pos_products st).

Definition save (products : list (Product num)) st : Store num := set_products products st.

Definition add (newId now : string) (product : NewProduct num) st : Product num * Store num :=
  let products := getAll st in
  let newProduct :=
    mkProduct newId (np_name product) (np_code product) (np_category product)
              (np_price product) (np_stock product) (np_minStock product)
              (np_variants product) (np_isActive product) now now in
  (newProduct, save (products ++ [newProduct]) st).

(** [{ ...p, ...updates, updatedAt: now }] *)
Definition merge (p : Product num) (updates : ProductPatch num) (now : string) : Product num :=
  mkProduct (default (p_id p) (pp_id updates))
            (default (p_name p) (pp_name updates))
            (default (p_code p) (pp_code updates))
            (default (p_category p) (pp_category updates))
            (default (p_price p) (pp_price updates))
            (default (p_stock p) (pp_stock updates))
            (default (p_minStock p) (pp_minStock updates))
            (match pp_variants updates with Some vs => Some vs | None => p_variants p end)
            (default (p_isActive p) (pp_isActive updates))
            (default (p_createdAt p) (pp_createdAt updates))
            now.

Definition update (id : string) (updates : ProductPatch num) (now : string) st
  : bool * Store num :=
  let products := getAll st in
  match list_find (λ p, p_id p = id) products with
  | None => (false, st)
  | Some (index, p) => (true, save (<[index := merge p updates now]> products) st)
  end.

Definition delete (id : string) st : bool * Store num :=
  let products := getAll st in
  let filtered := filter (λ p, p_id p ≠ id) products in
  if decide (length filtered = length products) then (false, st)
  else (true, save filtered st).

(** [p.stock = newStock; p.updatedAt = now] *)
Definition restock (p : Product num) (newStock : num) (now : string) : Product num :=
  mkProduct (p_id p) (p_name p) (p_code p) (p_category p) (p_price p) newStock
            (p_minStock p) (p_variants p) (p_isActive p) (p_createdAt p) now.

Definition updateStock (id : string) (quantity : num) (operation : Operation)
    (now : string) st : bool * Store num :=
  let products := getAll st in
  match list_find (λ p, p_id p = id) products with
  | None => (false, st)
  | Some (index, p) =>
      let currentStock := p_stock p in
      let newStock :=
        match operation with
        | op_add => (currentStock + quantity)%num
        | op_subtract => (currentStock - quantity)%num
        end in
      if (newStock <? num_zero)%num then (false, st)
      else (true, save (<[index := restock p newStock now]> products) st)
  end.
End ops.
End productStorage.

(** ** Sales management *)

Record DailySummary {num : Type} : Type := mkDailySummary {
  ds_totalSales : num;
  ds_totalTransactions : nat;
  ds_totalItems : num;
  ds_averageTransaction : num;
}.
Arguments DailySummary : clear implicits.

Module salesStorage.
Section ops.
Context `{Number num}.
Implicit Type st : Store num.

Definition getAll st : list (Sale num) := default [] (pos_sales st).

Definition save (sales : list (Sale num)) st : Store num := set_sales sales st.

(** [sale.items.forEach(item => productStorage.updateStock(item.productId,
    item.quantity))]: the result of each call is dropped.  [stamps k] is
    the time read by the call for the item at index [k]. *)
Fixpoint updateStocks (stamps : nat → string) (k : nat) (items : list (CartItem num)) st
  : Store num :=
  match items with
  | [] => st
  | item :: rest =>
      updateStocks stamps (S k) rest
        (productStorage.updateStock (ci_productId item) (ci_quantity item)
           op_subtract (stamps k) st).2
  end.

Definition add (newId now : string) (stamps : nat → string) (sale : NewSale num) st
  : Sale num * Store num :=
  let sales := getAll st in
  let newSale :=
    mkSale newId (ns_items sale) (ns_subtotal sale) (ns_tax sale) (ns_discount sale)
           (ns_total sale) (ns_paymentMethod sale) (ns_amountPaid sale) (ns_change sale)
           (ns_cashierId sale) (ns_cashierName sale) (ns_receiptPrinted sale)
           now (split_T_0 now) in
  let st' := updateStocks stamps 0 (ns_items sale) st in
  (newSale, save (sales ++ [newSale]) st').

Definition getByDateRange (startDate endDate : string) st : list (Sale num) :=
  let sales := getAll st in
  filter (λ s, String.leb startDate (s_date s) && String.leb (s_date s) endDate) sales.

Definition getDailySummary (date : string) st : DailySummary num :=
  let sales := filter (λ s, s_date s = date) (getAll st) in
  {| ds_totalSales := foldl (λ sum s, sum + s_total s)%num num_zero sales;
     ds_totalTransactions := length sales;
     ds_totalItems :=
       foldl (λ sum s,
                sum + foldl (λ itemSum item, itemSum + ci_quantity item)%num
                            num_zero (s_items s))%num
             num_zero sales;
     ds_averageTransaction :=
       if decide (0 < length sales)
       then (foldl (λ sum s, sum + s_total s)%num num_zero sales
             / num_of_nat (length sales))%num
       else num_zero |}.
End ops.
End salesStorage.

(** ** System settings *)

(** [a || b] where [a] is a stored value or [null]. *)
Definition or_else (a : option JValue) (b : JValue) : JValue :=
  match a with
  | Some v => if truthy v then v else b
  | None => b
  end.

Module settingsStorage.
Section ops.
Context {num : Type}.
Implicit Type st : Store num.

Definition defaults : JValue :=
  JObj [ ("storeName", JStr "Sari-sari Store");
         ("storeAddress", JStr "123 Main Street");
         ("storePhone", JStr "+63 123 456 7890");
         ("taxRate", JNum 0.12%float);
         ("currency", JStr "PHP") ].

Definition get st : JValue := or_else (pos_settings st) defaults.

Definition save (settings : JValue) st : Store num := set_settings settings st.
End ops.
End settingsStorage.

(** ** Data export/import *)

Module dataManager.
Section ops.
Context `{Number num}.
Implicit Type st : Store num.

(** The document that [exportData] serialises into the downloaded file. *)
Definition exportData (exportDate : string) st : Backup num :=
  {| b_users := Some (userStorage.getAll st);
     b_products := Some (productStorage.getAll st);
     b_sales := Some (salesStorage.getAll st);
     b_settings := Some (settingsStorage.get st);
     b_exportDate := Some exportDate |}.

(** [data] is what [JSON.parse] makes of the file: [None] when it throws.
    The result is the value the promise resolves to. *)
Definition importData (data : option (Backup num)) st : bool * Store num :=
  match data with
  | None => (false, st)
  | Some data =>
      let st1 := match b_users data with
                 | Some users => userStorage.save users st
                 | None => st
                 end in
      let st2 := match b_products data with
                 | Some products => productStorage.save products st1
                 | None => st1
                 end in
      let st3 := match b_sales data with
                 | Some sales => salesStorage.save sales st2
                 | None => st2
                 end in
      let st4 := match b_settings data with
                 | Some settings =>
                     if truthy settings then settingsStorage.save settings st3 else st3
                 | None => st3
                 end in
      (true, st4)
  end.
End ops.
End dataManager.

(** ** Arrays and Maps of the language *)

Section Containers.
Context {A K V : Type} `{EqDecision K}.

(** [Array.prototype.sort(compareFn)].  The sort is stable, and for a
    comparator that orders consistently every stable sort returns the same
    array; it is modelled by the insertion sort that places each element
    in front of the first already placed element [y] for which
    [compareFn(y, x) > 0].  [after y x] is that test. *)
Fixpoint sort_insert (after : A → A → bool) (x : A) (l : list A) : list A :=
  match l with
  | [] => [x]
  | y :: l' => if after y x then x :: y :: l' else y :: sort_insert after x l'
  end.

Definition Array_sort (after : A → A → bool) (l : list A) : list A :=
  foldl (λ sorted x, sort_insert after x sorted) [] l.

(** A [Map] is its list of entries in insertion order.  [Map_get] gives
    the position of the entry along with its value. *)
Definition Map_get (k : K) (m : list (K * V)) : option (nat * (K * V)) :=
  list_find (λ kv, kv.1 = k) m.

(** [m.set(k, v)] for a key that [m] does not hold yet. *)
Definition Map_set_new (k : K) (v : V) (m : list (K * V)) : list (K * V) :=
  m ++ [(k, v)].
End Containers.

(** [a?.name || b]: the first string unless it is missing or empty. *)
Definition or_string (a : option string) (b : string) : string :=
  match a with
  | Some s => if String.eqb s "" then b else s
  | None => b
  end.

(** ** The sales report *)

Section ReportData.
Context {num : Type}.

Record TopProduct : Type := mkTopProduct {
  tp_productId : string;
  tp_productName : string;
  tp_quantity : num;
  tp_revenue : num;
}.

Record DailyRow : Type := mkDailyRow {
  dr_date : string;
  dr_sales : num;
  dr_transactions : nat;
  dr_items : num;
}.

Record PaymentRow : Type := mkPaymentRow {
  pr_method : PaymentMethod;
  pr_count : nat;
  pr_total : num;
}.

Record ReportData : Type := mkReportData {
  r_totalSales : num;
  r_totalTransactions : nat;
  r_totalItems : num;
  r_averageTransaction : num;
  r_topProducts : list TopProduct;
  r_dailyBreakdown : list DailyRow;
  r_paymentMethods : list PaymentRow;
}.

(** The values held by the three Maps of [generateReport]. *)
Record ProductAcc : Type := mkProductAcc {
  pa_name : string;
  pa_quantity : num;
  pa_revenue : num;
}.

Record DailyAcc : Type := mkDailyAcc {
  da_sales : num;
  da_transactions : nat;
  da_items : num;
}.

Record PaymentAcc : Type := mkPaymentAcc {
  pm_count : nat;
  pm_total : num;
}.
End ReportData.

Arguments TopProduct : clear implicits.
Arguments DailyRow : clear implicits.
Arguments PaymentRow : clear implicits.
Arguments ReportData : clear implicits.
Arguments ProductAcc : clear implicits.
Arguments DailyAcc : clear implicits.
Arguments PaymentAcc : clear implicits.

#[export] Instance PaymentMethod_eq_dec : EqDecision PaymentMethod.
Proof. solve_decision. Defined.

Module Reports.
Section ops.
Context `{Number num}.
Implicit Type st : Store num.

(** [localeCompare] is the host's collation. *)
Variable localeCompare : string → string → comparison.

Definition itemCount (sale : Sale num) : num :=
  foldl (λ sum item, sum + ci_quantity item)%num num_zero (s_items sale).

(** The body of the two nested [forEach] loops that fill [productSales]. *)
Definition productSales_item (products : list (Product num))
    (productSales : list (string * ProductAcc num)) (item : CartItem num)
  : list (string * ProductAcc num) :=
  let existing := Map_get (ci_productId item) productSales in
  let product := list_find (λ p, p_id p = ci_productId item) products in
  match existing with
  | Some (i, (k, e)) =>
      <[i := (k, mkProductAcc (pa_name e)
                              (pa_quantity e + ci_quantity item)%num
                              (pa_revenue e + ci_total item)%num)]> productSales
  | None =>
      Map_set_new (ci_productId item)
        (mkProductAcc (or_string (p_name <$> (snd <$> product)) (ci_name item))
                      (ci_quantity item) (ci_total item))
        productSales
  end.

Definition productSales_of (products : list (Product num)) (sales : list (Sale num))
  : list (string * ProductAcc num) :=
  foldl (λ m sale, foldl (productSales_item products) m (s_items sale)) [] sales.

Definition topProducts_of (products : list (Product num)) (sales : list (Sale num))
  : list (TopProduct num) :=
  take 10
    (Array_sort (λ a b, num_zero <? tp_revenue b - tp_revenue a)%num
       ((λ '(productId, data),
           mkTopProduct productId (pa_name data) (pa_quantity data) (pa_revenue data))
          <$> productSales_of products sales)).

Definition dailyData_sale (dailyData : list (string * DailyAcc num)) (sale : Sale num)
  : list (string * DailyAcc num) :=
  let existing := Map_get (s_date sale) dailyData in
  let itemCount := itemCount sale in
  match existing with
  | Some (i, (k, e)) =>
      <[i := (k, mkDailyAcc (da_sales e + s_total sale)%num
                            (da_transactions e + 1)
                            (da_items e + itemCount)%num)]> dailyData
  | None =>
      Map_set_new (s_date sale) (mkDailyAcc (s_total sale) 1 itemCount) dailyData
  end.

Definition dailyBreakdown_of (sales : list (Sale num)) : list (DailyRow num) :=
  Array_sort
    (λ a b, match localeCompare (dr_date a) (dr_date b) with Gt => true | _ => false end)
    ((λ '(date, data),
        mkDailyRow date (da_sales data) (da_transactions data) (da_items data))
       <$> foldl dailyData_sale [] sales).

Definition paymentData_sale (paymentData : list (PaymentMethod * PaymentAcc num))
    (sale : Sale num) : list (PaymentMethod * PaymentAcc num) :=
  let existing := Map_get (s_paymentMethod sale) paymentData in
  match existing with
  | Some (i, (k, e)) =>
      <[i := (k, mkPaymentAcc (pm_count e + 1) (pm_total e + s_total sale)%num)]> paymentData
  | None =>
      Map_set_new (s_paymentMethod sale) (mkPaymentAcc 1 (s_total sale)) paymentData
  end.

Definition paymentMethods_of (sales : list (Sale num)) : list (PaymentRow num) :=
  (λ '(method, data), mkPaymentRow method (pm_count data) (pm_total data))
    <$> foldl paymentData_sale [] sales.

(** [custom] says whether the period is ['custom']; [start] and [end_]
    are the range [getDateRange()] returns.  [None]: the function returns
    early and leaves the displayed report as it was. *)
Definition generateReport (custom : bool) (start end_ : string) st
  : option (ReportData num) :=
  if custom && (String.eqb start "" || String.eqb end_ "") then None
  else
    let sales := salesStorage.getByDateRange start end_ st in
    let products := productStorage.getAll st in
    let totalSales := foldl (λ sum sale, sum + s_total sale)%num num_zero sales in
    let totalTransactions := length sales in
    let totalItems := foldl (λ sum sale, sum + itemCount sale)%num num_zero sales in
    let averageTransaction :=
      if decide (0 < totalTransactions)
      then (totalSales / num_of_nat totalTransactions)%num
      else num_zero in
    Some {| r_totalSales := totalSales;
            r_totalTransactions := totalTransactions;
            r_totalItems := totalItems;
            r_averageTransaction := averageTransaction;
            r_topProducts := topProducts_of products sales;
            r_dailyBreakdown := dailyBreakdown_of sales;
            r_paymentMethods := paymentMethods_of sales |}.
End ops.
End Reports.

(** ** The settings page's reading of the settings document *)

Module SettingsPage.
Section ops.
Context {num : Type}.
Implicit Type st : Store num.

(** The object that [loadSettings] hands to [setSettings]. *)
Definition loadSettings st : JValue :=
  let currentSettings := settingsStorage.get st in
  JObj [ ("storeName", or_else (field "storeName" currentSettings) (JStr "Sari-sari Store"));
         ("storeAddress", or_else (field "storeAddress" currentSettings) (JStr "123 Main Street"));
         ("storePhone", or_else (field "storePhone" currentSettings) (JStr "+63 123 456 7890"));
         ("storeEmail", or_else (field "storeEmail" currentSettings) (JStr ""));
         ("taxRate", or_else (field "taxRate" currentSettings) (JNum 0.12%float));
         ("currency", or_else (field "currency" currentSettings) (JStr "PHP"));
         ("receiptFooter",
           or_else (field "receiptFooter" currentSettings) (JStr "Thank you for your purchase!")) ].
End ops.
End SettingsPage.

(** ** What the specification says, in its own words *)

Module Spec.
Section spec.
Context `{Number num}.

(** The sum of a list of numbers, added from the left starting at 0. *)
Definition num_sum (l : list num) : num := foldl num_add num_zero l.

(** The sum of a non-empty list, added from the left. *)
Definition num_sum1 (l : list num) : num :=
  match l with
  | [] => num_zero
  | x :: l' => foldl num_add x l'
  end.

(** Stock that is below zero. *)
Definition negative_stock (p : Product num) : Prop := (p_stock p <? num_zero)%num = true.

(** The stock that a request to [updateStock] asks for. *)
Definition newStock_of (p : Product num) (quantity : num) (operation : Operation) : num :=
  match operation with
  | op_add => (p_stock p + quantity)%num
  | op_subtract => (p_stock p - quantity)%num
  end.

(** The seven fields the data model gives the settings document. *)
Definition settings_fields : list string :=
  ["storeName"; "storeAddress"; "storePhone"; "storeEmail"; "taxRate"; "currency";
   "receiptFooter"].

(** The sales of one calendar day. *)
Definition sales_on (date : string) (sales : list (Sale num)) : list (Sale num) :=
  filter (λ s, s_date s = date) sales.

(** The distinct elements of a list, in the order of their first
    occurrence. *)
Fixpoint distinct (l : list string) : list string :=
  match l with
  | [] => []
  | x :: l' => x :: filter (λ y, y ≠ x) (distinct l')
  end.

(** All line items of a list of sales. *)
Definition lineItems (sales : list (Sale num)) : list (CartItem num) :=
  concat (s_items <$> sales).

(** The display name as the specification words it: the current
    product's name when the product still exists, the line item's stored
    name otherwise. *)
Definition name_claimed (products : list (Product num)) (item : CartItem num) : string :=
  match list_find (λ p, p_id p = ci_productId item) products with
  | Some (_, p) => p_name p
  | None => ci_name item
  end.

(** The display name with the one change the code forces: a product whose
    name is empty counts as having none. *)
Definition name_amended (products : list (Product num)) (item : CartItem num) : string :=
  match list_find (λ p, p_id p = ci_productId item) products with
  | Some (_, p) => if decide (p_name p = "") then ci_name item else p_name p
  | None => ci_name item
  end.

(** The report line of one product: its line items, their quantities and
    totals summed, and the display name resolved at its first line item. *)
Definition group_of (name_of : CartItem num → string) (items : list (CartItem num))
    (productId : string) : TopProduct num :=
  let group := filter (λ item, ci_productId item = productId) items in
  mkTopProduct productId
               (from_option name_of "" (head group))
               (num_sum1 (ci_quantity <$> group))
               (num_sum1 (ci_total <$> group)).

(** Grouping by [productId], groups in the order in which they were
    first met. *)
Definition grouped (name_of : CartItem num → string) (items : list (CartItem num))
  : list (TopProduct num) :=
  group_of name_of items <$> distinct (ci_productId <$> items).

(** [a]'s revenue is below [b]'s. *)
Definition below (a b : TopProduct num) : bool := (tp_revenue a <? tp_revenue b)%num.

(** [e] ties with [a]: neither revenue is below the other. *)
Definition tie (a e : TopProduct num) : Prop := below e a = false ∧ below a e = false.

#[export] Instance tie_dec a e : Decision (tie a e).
Proof. unfold tie. apply _. Defined.

(** [sorted] is [l] sorted descending by revenue, ties kept in the order
    they have in [l]. *)
Definition sorted_desc_stable (l sorted : list (TopProduct num)) : Prop :=
  sorted ≡ₚ l
  ∧ StronglySorted (λ a b, below a b = false) sorted
  ∧ ∀ a, a ∈ l → filter (tie a) sorted = filter (tie a) l.

(** The comparator [(a, b) => b.revenue - a.revenue] orders the entries of
    [l] consistently: it is positive exactly when [a]'s revenue is below
    [b]'s, and being below is a strict order whose ties are transitive.
    Finite numbers are ordered so; a revenue that is not a number is not. *)
Definition consistent (l : list (TopProduct num)) : Prop :=
  ∀ a b c, a ∈ l → b ∈ l → c ∈ l →
    (num_zero <? tp_revenue b - tp_revenue a)%num = below a b
    ∧ below a a = false
    ∧ (below a b = true → below b c = true → below a c = true)
    ∧ (below a b = false → below b c = false → below a c = false).

(** [result] is the list of top products the specification describes,
    for a given rule [name_of] for the display name. *)
Definition topProducts_as_specified
    (name_of : list (Product num) → CartItem num → string)
    (products : list (Product num)) (sales : list (Sale num))
    (result : list (TopProduct num)) : Prop :=
  ∃ sorted,
    sorted_desc_stable (grouped (name_of products) (lineItems sales)) sorted
    ∧ result = take 10 sorted.
End spec.
End Spec.

(** ** Concrete stores, in the arithmetic of the language *)

Module Scenario.
Definition opened : string := "2024-01-01T08:00:00.000Z".

Definition product (id name code category : string) (price stock minStock : float)
  : Product float :=
  mkProduct id name code category price stock minStock None true opened opened.

(** Three of the sample products of [initializeDefaultData]; [cola] and
    [noodles] with the stock of the specification's scenario, 5 and 0. *)
Definition cola : Product float :=
  product "p1" "Coca Cola 500ml" "COKE500" "Beverages" 25 5 10.
Definition noodles : Product float :=
  product "p2" "Lucky Me Pancit Canton" "LM-PC" "Instant Noodles" 15 0 20.
Definition crackers : Product float :=
  product "p3" "Skyflakes Crackers" "SF-CRACK" "Snacks" 12 30 5.

Definition shelf : Store float := set_products [cola; noodles] empty_store.

(** A cart line as [addToCart] and [updateCartQuantity] build it. *)
Definition line (p : Product float) (quantity : float) : CartItem float :=
  mkCartItem (p_id p) None (p_name p) (p_price p) quantity (p_price p * quantity)%float.

(** The draft that [processSale] passes to [salesStorage.add] for a cart
    paid in cash with the exact amount, at the default tax rate. *)
Definition checkout (cart : list (CartItem float)) : NewSale float :=
  let subtotal := foldl (λ sum item, sum + ci_total item)%float 0%float cart in
  let tax := (subtotal * 0.12)%float in
  let total := (subtotal + tax)%float in
  mkNewSale cart subtotal tax 0%float total cash total 0%float "u2" "cashier" false.

Definition stamps (k : nat) : string := "2024-01-01T09:00:00.001Z".

(** The specification's scenario: three units of the product with stock
    5 and one unit of the product with stock 0. *)
Definition oversold : NewSale float := checkout [line cola 3; line noodles 1].

(** A ledger of three sales on two days, recorded through
    [salesStorage.add] in the order of their timestamps. *)
Definition stocked : Store float :=
  set_products [product "p2" "Lucky Me Pancit Canton" "LM-PC" "Instant Noodles" 15 100 20;
                crackers] empty_store.
Definition day1 : Store float :=
  (salesStorage.add "s1" "2024-01-01T09:00:00.000Z" stamps
     (checkout [line crackers 1]) stocked).2.
Definition day2a : Store float :=
  (salesStorage.add "s2" "2024-01-02T09:00:00.000Z" stamps
     (checkout [line noodles 1]) day1).2.
Definition ledger : Store float :=
  (salesStorage.add "s3" "2024-01-02T10:00:00.000Z" stamps
     (checkout [line noodles 1]) day2a).2.

(** The patch [{ stock: -5 }]. *)
Definition stock_minus_5 : ProductPatch float :=
  mkProductPatch None None None None None (Some (-5)%float) None None None None None.

(** The patch [{ updatedAt: "1999-12-31T00:00:00.000Z" }]. *)
Definition backdated : ProductPatch float :=
  mkProductPatch None None None None None None None None None None
                 (Some "1999-12-31T00:00:00.000Z").

(** A product whose name was blanked after it had been sold. *)
Definition renamed : Store float :=
  (productStorage.update "p3"
     (mkProductPatch None (Some "") None None None None None None None None None)
     "2024-01-03T08:00:00.000Z" day1).2.

(** The two users of [initializeDefaultData]. *)
Definition staff : Store float :=
  (userStorage.add "u2" opened (mkNewUser "cashier" "cashier123" cashier true)
     (userStorage.add "u1" opened (mkNewUser "admin" "admin123" admin true)
        empty_store).2).2.

(** The patch [{ id: "root" }]. *)
Definition renumbered : UserPatch :=
  mkUserPatch (Some "root") None None None None None.

(** The same ledger in exact integer arithmetic (amounts in centavos). *)
Definition sale_Z (id date : string) (productId name : string) (quantity total : Z)
  : Sale Z :=
  mkSale id [mkCartItem productId None name total quantity total]
         total 0%Z 0%Z total cash total 0%Z "u2" "cashier" false
         (date +:+ "T09:00:00.000Z") date.
Definition ledger_Z : Store Z :=
  set_sales [sale_Z "s1" "2024-01-01" "p3" "Skyflakes Crackers" 1 1344;
             sale_Z "s2" "2024-01-02" "p2" "Lucky Me Pancit Canton" 1 1680;
             sale_Z "s3" "2024-01-02" "p2" "Lucky Me Pancit Canton" 1 1680]
    empty_store.
End Scenario.

(** * Further operations of the storage layer and of its callers *)

(** ** The other arithmetic of the language *)

(** [1], [*], [<=] and [===] on numbers, which the operations below use
    beside those of [Number]. *)
Class NumberOps (num : Type) `{Number num} : Type := {
  num_one : num;
  num_mul : num → num → num;
  num_leb : num → num → bool;
  num_eqb : num → num → bool;
}.

Notation "x * y" := (num_mul x y) : num_scope.
Notation "x <=? y" := (num_leb x y) : num_scope.
Notation "x =? y" := (num_eqb x y) : num_scope.

#[export] Instance float_NumberOps : NumberOps float := {|
  num_one := 1%float;
  num_mul := PrimFloat.mul;
  num_leb := PrimFloat.leb;
  num_eqb := PrimFloat.eqb;
|}.

#[export] Instance Z_NumberOps : NumberOps Z := {|
  num_one := 1%Z;
  num_mul := Z.mul;
  num_leb := Z.leb;
  num_eqb := Z.eqb;
|}.

(** ** The key-value substrate, continued *)

Section SubstrateMore.
Context {num : Type}.
Implicit Type st : Store num.

Definition set_current_user (v : User) st : Store num :=
  mkStore (pos_users st) (pos_products st) (pos_sales st) (pos_settings st) (Some v).

(** [storage.remove(STORAGE_KEYS.CURRENT_USER)] *)
Definition remove_current_user st : Store num :=
  mkStore (pos_users st) (pos_products st) (pos_sales st) (pos_settings st) None.

(** [localStorage.clear()] *)
Definition clear st : Store num := empty_store.
End SubstrateMore.

(** ** Authentication *)

Module authStorage.
Section ops.
Context {num : Type}.
Implicit Type st : Store num.

Definition getCurrentUser st : option User := pos_current_user st.

Definition setCurrentUser (user : User) st : Store num := set_current_user user st.

Definition logout st : Store num := remove_current_user st.

Definition isLoggedIn st : bool :=
  match getCurrentUser st with
  | Some _ => true
  | None => false
  end.
End ops.
End authStorage.

(** ** Low-stock alerts *)

Inductive Severity : Type := low | critical.

Section AlertData.
Context {num : Type}.

Record InventoryAlert : Type := mkInventoryAlert {
  al_productId : string;
  al_productName : string;
  al_currentStock : num;
  al_minStock : num;
  al_severity : Severity;
}.
End AlertData.
Arguments InventoryAlert : clear implicits.

Module productAlerts.
Section ops.
Context `{NumberOps num}.
Implicit Type st : Store num.

(** The object that [getLowStockAlerts] maps a product to. *)
Definition alert_of (p : Product num) : InventoryAlert num :=
  mkInventoryAlert (p_id p) (p_name p) (p_stock p) (p_minStock p)
                   (if (p_stock p =? num_zero)%num then critical else low).

(** [productStorage.getLowStockAlerts] *)
Definition getLowStockAlerts st : list (InventoryAlert num) :=
  let products := productStorage.getAll st in
  alert_of <$> filter (λ p, p_isActive p && (p_stock p <=? p_minStock p)%num) products.
End ops.
End productAlerts.

(** ** Product search *)

(** [s.includes(sub)] *)
Fixpoint includes (s sub : string) : bool :=
  String.prefix sub s
  || match s with
     | EmptyString => false
     | String _ s' => includes s' sub
     end.

Module productSearch.
Section ops.
Context `{Number num}.
Implicit Type st : Store num.

(** [toLowerCase] is the host's case mapping. *)
Variable toLowerCase : string → string.

(** [productStorage.search] *)
Definition search (query : string) st : list (Product num) :=
  let products := productStorage.getAll st in
  let lowercaseQuery := toLowerCase query in
  filter (λ p,
            p_isActive p
            && (includes (toLowerCase (p_name p)) lowercaseQuery
                || includes (toLowerCase (p_code p)) lowercaseQuery
                || includes (toLowerCase (p_category p)) lowercaseQuery))
         products.
End ops.
End productSearch.

(** ** Default data *)

Module defaults.
Section ops.
Context `{Number num}.
Implicit Type st : Store num.

(** [sampleProducts] *)
Definition sample (name code category : string) (price stock minStock : nat)
  : NewProduct num :=
  mkNewProduct name code category (num_of_nat price) (num_of_nat stock)
               (num_of_nat minStock) None true.

Definition sampleProducts : list (NewProduct num) :=
  [ sample "Coca Cola 500ml" "COKE500" "Beverages" 25 50 10;
    sample "Lucky Me Pancit Canton" "LM-PC" "Instant Noodles" 15 100 20;
    sample "Skyflakes Crackers" "SF-CRACK" "Snacks" 12 30 5;
    sample "Safeguard Bar Soap" "SG-SOAP" "Personal Care" 45 25 5;
    sample "C2 Green Tea 500ml" "C2-GT" "Beverages" 20 40 10 ].

(** [sampleProducts.forEach(product => productStorage.add(product))]; the
    call for the product at position [j] is the [k + j]-th call of
    [generateId()] and of [new Date()]. *)
Fixpoint addProducts (ids times : nat → string) (k : nat)
    (products : list (NewProduct num)) st : Store num :=
  match products with
  | [] => st
  | product :: rest =>
      addProducts ids times (S k) rest (productStorage.add (ids k) (times k) product st).2
  end.

(** [initializeDefaultData]: [ids k] and [times k] are what the [k]-th call
    of [generateId()], respectively of [new Date().toISOString()],
    returns. *)
Definition initializeDefaultData (ids times : nat → string) st : Store num :=
  let users := userStorage.getAll st in
  let '(st1, k) :=
    if decide (length users = 0)
    then ((userStorage.add (ids 1) (times 1) (mkNewUser "cashier" "cashier123" cashier true)
             (userStorage.add (ids 0) (times 0) (mkNewUser "admin" "admin123" admin true)
                st).2).2, 2)
    else (st, 0) in
  let products := productStorage.getAll st1 in
  if decide (length products = 0)
  then addProducts ids times k sampleProducts st1
  else st1.
End ops.
End defaults.

(** ** The authentication context *)

Module AuthContext.
Section ops.
Context `{Number num}.

(** The provider's [user] state together with localStorage. *)
Record Session : Type := mkSession {
  state_user : option User;
  storage : Store num;
}.

(** The effect that runs when the provider mounts. *)
Definition mount (ids times : nat → string) (s : Session) : Session :=
  let st := defaults.initializeDefaultData ids times (storage s) in
  match authStorage.getCurrentUser st with
  | Some currentUser => mkSession (Some currentUser) st
  | None => mkSession (state_user s) st
  end.

Definition login (username password : string) (s : Session) : bool * Session :=
  match userStorage.findByCredentials username password (storage s) with
  | Some foundUser =>
      (true, mkSession (Some foundUser) (authStorage.setCurrentUser foundUser (storage s)))
  | None => (false, s)
  end.

Definition logout (s : Session) : Session :=
  mkSession None (authStorage.logout (storage s)).

Definition isAdmin (s : Session) : bool :=
  match state_user s with
  | Some u => match u_role u with admin => true | cashier => false end
  | None => false
  end.

Definition isLoggedIn (s : Session) : bool :=
  match state_user s with
  | Some _ => true
  | None => false
  end.
End ops.
End AuthContext.

(** ** The point-of-sale page: the cart *)

Module POS.
Section ops.
Context `{NumberOps num}.
Implicit Type cart : list (CartItem num).

Definition removeFromCart (productId : string) (variantId : option string) cart
  : list (CartItem num) :=
  filter (λ item, ¬ (ci_productId item = productId ∧ ci_variantId item = variantId)) cart.

Definition updateCartQuantity (productId : string) (quantity : num)
    (variantId : option string) cart : list (CartItem num) :=
  if (quantity <=? num_zero)%num then removeFromCart productId variantId cart
  else
    (λ item,
       if decide (ci_productId item = productId ∧ ci_variantId item = variantId)
       then mkCartItem (ci_productId item) (ci_variantId item) (ci_name item)
                       (ci_price item) quantity (ci_price item * quantity)%num
       else item) <$> cart.

Definition addToCart (product : Product num) (variantId : option string) cart
  : list (CartItem num) :=
  let existingItem :=
    list_find (λ item, ci_productId item = p_id product ∧ ci_variantId item = variantId)
              cart in
  match existingItem with
  | Some (_, existingItem) =>
      updateCartQuantity (ci_productId existingItem)
                         (ci_quantity existingItem + num_one)%num variantId cart
  | None =>
      let variant :=
        match p_variants product with
        | Some variants => snd <$> list_find (λ v, Some (v_id v) = variantId) variants
        | None => None
        end in
      let price := match variant with Some v => v_price v | None => p_price product end in
      let name :=
        match variant with
        | Some v => p_name product +:+ " - " +:+ v_name v
        | None => p_name product
        end in
      cart ++ [mkCartItem (p_id product) variantId name price num_one price]
  end.

Definition clearCart cart : list (CartItem num) := [].

Definition calculateSubtotal cart : num :=
  foldl (λ sum item, sum + ci_total item)%num num_zero cart.

(** What [handlePrintReceipt] writes: the sales with the id of the last
    sale get [receiptPrinted: true]. *)
Definition handlePrintReceipt (lastSale : option (Sale num)) (st : Store num) : Store num :=
  match lastSale with
  | Some lastSale =>
      let sales := salesStorage.getAll st in
      let updatedSales :=
        (λ s, if decide (s_id s = s_id lastSale)
              then mkSale (s_id s) (s_items s) (s_subtotal s) (s_tax s) (s_discount s)
                          (s_total s) (s_paymentMethod s) (s_amountPaid s) (s_change s)
                          (s_cashierId s) (s_cashierName s) true (s_timestamp s) (s_date s)
              else s) <$> sales in
      salesStorage.save updatedSales st
  | None => st
  end.
End ops.
End POS.

(** ** The users page *)

Record UserForm : Type := mkUserForm {
  f_username : string;
  f_password : string;
  f_confirmPassword : string;
  f_role : Role;
  f_isActive : bool;
}.

Module UsersPage.
Section ops.
Context {num : Type}.
Implicit Type st : Store num.

(** [confirmed] is the answer to [window.confirm]. *)
Definition handleDeleteUser (currentUser : option User) (confirmed : bool) (user : User) st
  : Store num :=
  if decide (Some (u_id user) = u_id <$> currentUser) then st
  else if confirmed then (userStorage.delete (u_id user) st).2
  else st.

Definition toggleUserStatus (currentUser : option User) (user : User) st : Store num :=
  if decide (Some (u_id user) = u_id <$> currentUser) then st
  else
    (userStorage.update (u_id user)
       (mkUserPatch None None None None None (Some (negb (u_isActive user)))) st).2.

(** [users] is the page's copy of the user list, [editingUser] the user
    whose form is open (none when a user is being created). *)
Definition handleSubmit (newId now : string) (formData : UserForm)
    (editingUser : option User) (users : list User) st : Store num :=
  if decide (f_username formData = "") then st
  else if decide (editingUser = None ∧ f_password formData = "") then st
  else if decide (f_password formData ≠ ""
                  ∧ f_password formData ≠ f_confirmPassword formData) then st
  else
    let userData :=
      mkUserPatch None (Some (f_username formData))
                  (if decide (f_password formData = "") then None
                   else Some (f_password formData))
                  (Some (f_role formData)) None (Some (f_isActive formData)) in
    match editingUser with
    | Some editingUser =>
        if decide (u_username editingUser ≠ f_username formData
                   ∧ is_Some (list_find (λ u, u_username u = f_username formData
                                              ∧ u_id u ≠ u_id editingUser) users))
        then st
        else (userStorage.update (u_id editingUser) userData st).2
    | None =>
        if decide (is_Some (list_find (λ u, u_username u = f_username formData) users))
        then st
        else
          (userStorage.add newId now
             (mkNewUser (f_username formData) (f_password formData) (f_role formData)
                        (f_isActive formData)) st).2
    end.
End ops.
End UsersPage.

(** ** The products page *)

Module ProductsPage.
Section ops.
Context `{Number num}.
Implicit Type st : Store num.

(** The page's own [updateStock], behind the [-] and [+] buttons. *)
Definition updateStock (productId : string) (newStock : num) (now : string) st : Store num :=
  if (newStock <? num_zero)%num then st
  else
    (productStorage.update productId
       (mkProductPatch None None None None None (Some newStock) None None None None None)
       now st).2.

Definition toggleProductStatus (product : Product num) (now : string) st : Store num :=
  (productStorage.update (p_id product)
     (mkProductPatch None None None None None None None None
                     (Some (negb (p_isActive product))) None None)
     now st).2.

Definition handleDeleteProduct (confirmed : bool) (product : Product num) st : Store num :=
  if confirmed then (productStorage.delete (p_id product) st).2 else st.
End ops.
End ProductsPage.

(** ** The dashboard *)

Section DashboardData.
Context {num : Type}.

Record DashboardStats : Type := mkDashboardStats {
  todaySales : num;
  todayTransactions : nat;
  todayItems : num;
  lowStockItems : list (InventoryAlert num);
  totalProducts : nat;
  activeProducts : nat;
}.
End DashboardData.
Arguments DashboardStats : clear implicits.

Module Dashboard.
Section ops.
Context `{NumberOps num}.

(** [today] is [new Date().toISOString().split('T')[0]]. *)
Definition loadDashboardData (today : string) (st : Store num) : DashboardStats num :=
  let todaySummary := salesStorage.getDailySummary today st in
  let lowStockAlerts := productAlerts.getLowStockAlerts st in
  let allProducts := productStorage.getAll st in
  {| todaySales := ds_totalSales todaySummary;
     todayTransactions := ds_totalTransactions todaySummary;
     todayItems := ds_totalItems todaySummary;
     lowStockItems := lowStockAlerts;
     totalProducts := length allProducts;
     activeProducts := length (filter (λ p, p_isActive p) allProducts) |}.
End ops.
End Dashboard.

(** ** What a Map filled by a loop holds *)

Section MapContents.
Context {K V X : Type} `{EqDecision K}.

(** The loops of [generateReport] fill a [Map] from a list [xs]: the entry
    of an element's key [key x] starts as [init x] and is replaced by
    [upd e x] at every later element of that key.  [Map_holds] says what
    such a Map holds after [xs]: one entry for each key that occurs,
    built from the elements of that key in their order. *)
Definition Map_holds (key : X → K) (init : X → V) (upd : V → X → V)
    (xs : list X) (m : list (K * V)) : Prop :=
  NoDup (fst <$> m)
  ∧ ∀ k e, (k, e) ∈ m
           ↔ ∃ x0 rest, filter (λ x, key x = k) xs = x0 :: rest
                        ∧ e = foldl upd (init x0) rest.
End MapContents.

(** ** What a sale may change of a product *)

Section SaleEffects.
Context {num : Type}.

(** [p'] is [p] up to its stock and the time of its last update. *)
Definition same_but_stock (p p' : Product num) : Prop :=
  p_id p' = p_id p ∧ p_name p' = p_name p ∧ p_code p' = p_code p
  ∧ p_category p' = p_category p ∧ p_price p' = p_price p
  ∧ p_minStock p' = p_minStock p ∧ p_variants p' = p_variants p
  ∧ p_isActive p' = p_isActive p ∧ p_createdAt p' = p_createdAt p.
End SaleEffects.

(** ** The point-of-sale page: checkout *)

Module Checkout.
Section ops.
Context `{NumberOps num}.

(** [Math.max(0, x)], the host's. *)
Variable max0 : num → num.

(** The state of the page that [processSale] reads and writes, with
    localStorage. *)
Record Till : Type := mkTill {
  cart : list (CartItem num);
  lastSale : option (Sale num);
  store : Store num;
}.

(** [taxRate] is the number that [settingsStorage.get().taxRate] is. *)
Definition calculateTax (taxRate subtotal : num) : num := (subtotal * taxRate)%num.

Definition calculateTotal (taxRate : num) (cart : list (CartItem num)) : num :=
  let subtotal := POS.calculateSubtotal cart in
  let tax := calculateTax taxRate subtotal in
  (subtotal + tax)%num.

(** [user] is the logged-in user, [paid] is [parseFloat(amountPaid) || 0];
    [newId], [now] and [stamps] are as for [salesStorage.add]. *)
Definition processSale (user : option User) (paymentMethod : PaymentMethod)
    (taxRate paid : num) (newId now : string) (stamps : nat → string) (t : Till) : Till :=
  match user with
  | None => t
  | Some user =>
      let subtotal := POS.calculateSubtotal (cart t) in
      let tax := calculateTax taxRate subtotal in
      let total := calculateTotal taxRate (cart t) in
      if bool_decide (paymentMethod = cash) && (paid <? total)%num then t
      else
        let '(sale, st) :=
          salesStorage.add newId now stamps
            (mkNewSale (cart t) subtotal tax num_zero total paymentMethod paid
                       (if bool_decide (paymentMethod = cash) then max0 (paid - total)%num
                        else num_zero)
                       (u_id user) (u_username user) false)
            (store t) in
        mkTill (POS.clearCart (cart t)) (Some sale) st
  end.
End ops.
End Checkout.

(** ** The products page: the product form *)

(** The text fields of the form that [handleSubmit] tests for emptiness. *)
Record ProductForm : Type := mkProductForm {
  pf_name : string;
  pf_code : string;
  pf_category : string;
  pf_price : string;
  pf_isActive : bool;
}.

Module ProductFormPage.
Section ops.
Context `{Number num}.
Implicit Type st : Store num.

(** [toUpperCase] is the host's case mapping. *)
Variable toUpperCase : string → string.

(** [price] is [parseFloat(formData.price)], [stock] and [minStock] are
    [parseInt(formData.stock) || 0] and [parseInt(formData.minStock) || 0];
    [products] is the page's copy of the product list, [editingProduct]
    the product whose form is open (none when a product is being
    created). *)
Definition handleSubmit (newId now : string) (formData : ProductForm)
    (price stock minStock : num) (editingProduct : option (Product num))
    (products : list (Product num)) st : Store num :=
  if decide (pf_name formData = "" ∨ pf_code formData = "" ∨ pf_category formData = ""
             ∨ pf_price formData = "") then st
  else
    let code := toUpperCase (pf_code formData) in
    match editingProduct with
    | Some editingProduct =>
        (productStorage.update (p_id editingProduct)
           (mkProductPatch None (Some (pf_name formData)) (Some code)
                           (Some (pf_category formData)) (Some price) (Some stock)
                           (Some minStock) None (Some (pf_isActive formData)) None None)
           now st).2
    | None =>
        if decide (is_Some (list_find (λ p, p_code p = code) products)) then st
        else
          (productStorage.add newId now
             (mkNewProduct (pf_name formData) code (pf_category formData) price stock
                           minStock None (pf_isActive formData)) st).2
    end.
End ops.
End ProductFormPage.

(** ** Routes and the login page *)

#[export] Instance Role_eq_dec : EqDecision Role.
Proof. solve_decision. Defined.

(** The routes of [AppRoutes], by the pattern that matches: [route_root]
    is [/] and [route_other] is [*]. *)
Inductive Route : Type :=
  | route_login | route_admin | route_admin_products | route_admin_users
  | route_admin_reports | route_admin_settings | route_cashier | route_root | route_other.

Inductive Page : Type :=
  | page_Login | page_Dashboard | page_Products | page_Users | page_Reports
  | page_Settings | page_POS | page_NotFound.

(** What a route's element evaluates to: [<Navigate to=... replace />] or
    the page it renders. *)
Inductive Element : Type :=
  | Navigate (to : Route)
  | Render (page : Page).

Module App.
Section ops.
Context {num : Type}.
Implicit Type s : AuthContext.Session (num := num).

(** [user?.role === 'admin' ? '/admin' : '/cashier'] *)
Definition home s : Route :=
  if decide (u_role <$> AuthContext.state_user s = Some admin) then route_admin
  else route_cashier.

Definition ProtectedRoute (requiredRole : option Role) (children : Page) s : Element :=
  if negb (AuthContext.isLoggedIn s) then Navigate route_login
  else
    match requiredRole with
    | Some role =>
        if decide (u_role <$> AuthContext.state_user s ≠ Some role) then Navigate (home s)
        else Render children
    | None => Render children
    end.

Definition PublicRoute (children : Page) s : Element :=
  if AuthContext.isLoggedIn s then Navigate (home s) else Render children.

Definition AppRoutes (route : Route) s : Element :=
  match route with
  | route_login => PublicRoute page_Login s
  | route_admin => ProtectedRoute (Some admin) page_Dashboard s
  | route_admin_products => ProtectedRoute (Some admin) page_Products s
  | route_admin_users => ProtectedRoute (Some admin) page_Users s
  | route_admin_reports => ProtectedRoute (Some admin) page_Reports s
  | route_admin_settings => ProtectedRoute (Some admin) page_Settings s
  | route_cashier => ProtectedRoute None page_POS s
  | route_root => Navigate route_login
  | route_other => Render page_NotFound
  end.

(** The page shown after following at most [fuel] redirects. *)
Fixpoint resolve (fuel : nat) (route : Route) s : option Page :=
  match AppRoutes route s with
  | Render page => Some page
  | Navigate to =>
      match fuel with
      | 0 => None
      | S fuel' => resolve fuel' to s
      end
  end.

(** The entries of the layout's navigation bar. *)
Definition navigation s : list Route :=
  (if AuthContext.isAdmin s
   then [route_admin; route_admin_products; route_admin_users; route_admin_reports;
         route_admin_settings]
   else [])
  ++ [route_cashier].
End ops.
End App.

Module LoginPage.
Section ops.
Context {num : Type}.
Implicit Type s : AuthContext.Session (num := num).

(** The error message set, if any, and the session afterwards. *)
Definition handleSubmit (username password : string) s
  : option string * AuthContext.Session (num := num) :=
  if decide (username = "" ∨ password = "")
  then (Some "Please enter both username and password", s)
  else
    let '(success, s') := AuthContext.login username password s in
    if success then (None, s') else (Some "Invalid username or password", s').

(** Where the page's effect navigates to. *)
Definition redirect s : option Route :=
  if AuthContext.isLoggedIn s
  then Some (if AuthContext.isAdmin s then route_admin else route_cashier)
  else None.

(** The credentials that the demo buttons fill in. *)
Definition handleDemoLogin (role : Role) : string * string :=
  match role with
  | admin => ("admin", "admin123")
  | cashier => ("cashier", "cashier123")
  end.
End ops.
End LoginPage.

(** ** A shop on its first day *)

Module Shop.
(** What the [k]-th call of [generateId()] and of
    [new Date().toISOString()] return on that day. *)
Definition ids (k : nat) : string := "id" +:+ String (ascii_of_nat (48 + k)) "".
Definition times (k : nat) : string :=
  "2024-01-01T08:00:0" +:+ String (ascii_of_nat (48 + k)) ".000Z".

(** [toLowerCase] on the letters A to Z. *)
Definition lower (c : ascii) : ascii :=
  let n := nat_of_ascii c in
  if Nat.leb 65 n && Nat.leb n 90 then ascii_of_nat (n + 32) else c.

Fixpoint toLowerCase (s : string) : string :=
  match s with
  | EmptyString => EmptyString
  | String c s' => String (lower c) (toLowerCase s')
  end.

(** [toUpperCase] on the letters a to z. *)
Definition upper (c : ascii) : ascii :=
  let n := nat_of_ascii c in
  if Nat.leb 97 n && Nat.leb n 122 then ascii_of_nat (n - 32) else c.

Fixpoint toUpperCase (s : string) : string :=
  match s with
  | EmptyString => EmptyString
  | String c s' => String (upper c) (toUpperCase s')
  end.

(** The store after the first page load. *)
Definition opened : Store float := defaults.initializeDefaultData ids times empty_store.

(** Two cart lines, two bottles and one pack. *)
Definition cart : list (CartItem float) :=
  [Scenario.line Scenario.cola 2; Scenario.line Scenario.noodles 1].

(** The form that renames the cashier, and the form of a new clerk. *)
Definition rename : UserForm := mkUserForm "till" "" "" cashier true.
Definition clerk : UserForm := mkUserForm "clerk" "clerk123" "clerk123" cashier true.

(** The records of the two default users in [Scenario.staff]. *)
Definition admin_user : User := mkUser "u1" "admin" "admin123" admin Scenario.opened true.
Definition cashier_user : User :=
  mkUser "u2" "cashier" "cashier123" cashier Scenario.opened true.

(** [Math.max(0, x)] *)
Definition max0 (x : float) : float :=
  if PrimFloat.is_nan x then x else if PrimFloat.ltb 0%float x then x else 0%float.

(** A backup document with all four keys. *)
Definition backup : Backup float :=
  mkBackup (Some [admin_user]) (Some [Scenario.cola]) (Some [])
           (Some (JObj [("taxRate", JNum 0.1%float)])) (Some "2024-01-05T08:00:00.000Z").
End Shop.

(** * Properties *)

(** ** Lists and stores *)

Section ListFacts.
Context {A : Type} (P : A → Prop) `{∀ x, Decision (P x)}.

Lemma list_find_found (l : list A) i x :
  list_find P l = Some (i, x) → l !! i = Some x ∧ P x ∧ i < length l.
Proof.
  intros (Hi & HP & _)%list_find_Some. split_and!; [done..|].
  by eapply lookup_lt_Some.
Qed.

Lemma list_find_is_Some (l : list A) :
  is_Some (list_find P l) ↔ ∃ x, x ∈ l ∧ P x.
Proof.
  split.
  - intros [[i x] (Hi & HP & _)%list_find_Some].
    exists x. split; [by eapply list_elem_of_lookup_2|done].
  - intros (x & Hx & HP). by eapply list_find_elem_of.
Qed.

Lemma elem_of_insert_inv (l : list A) i x y :
  y ∈ <[i := x]> l → y = x ∨ y ∈ l.
Proof.
  intros (j & Hj)%list_elem_of_lookup.
  destruct (decide (i = j)) as [->|Hne].
  - destruct (decide (j < length l)) as [Hlt|Hge].
    + rewrite list_lookup_insert_eq in Hj by done. left. congruence.
    + rewrite list_insert_ge in Hj by lia. right. by eapply list_elem_of_lookup_2.
  - rewrite list_lookup_insert_ne in Hj by done. right. by eapply list_elem_of_lookup_2.
Qed.
End ListFacts.

(** ** Users *)

(** C7. [findByCredentials] returns a user exactly when a stored user has
    this username, this password and is active; the user it returns is
    such a stored user; in every other case the result is the one value
    [None] (the source's [null]), whatever the reason for the failure. *)
Theorem C7_findByCredentials_exact {num : Type} (st : Store num) (username password : string) :
  let matching (u : User) :=
    u_username u = username ∧ u_password u = password ∧ u_isActive u = true in
  (∀ u, userStorage.findByCredentials username password st = Some u →
        u ∈ userStorage.getAll st ∧ matching u)
  ∧ ((∃ u, u ∈ userStorage.getAll st ∧ matching u)
     ↔ is_Some (userStorage.findByCredentials username password st))
  ∧ ((¬ ∃ u, u ∈ userStorage.getAll st ∧ matching u)
     → userStorage.findByCredentials username password st = None).
Proof.
  intros matching. unfold userStorage.findByCredentials.
  set (P := λ u : User, u_username u = username ∧ u_password u = password ∧ u_isActive u).
  assert (HPm : ∀ u, P u ↔ matching u).
  { intros u. unfold P, matching. by rewrite Is_true_true. }
  assert (Hiff : (∃ u, u ∈ userStorage.getAll st ∧ matching u)
                 ↔ is_Some (snd <$> list_find P (userStorage.getAll st))).
  { rewrite fmap_is_Some, list_find_is_Some. by setoid_rewrite HPm. }
  split_and!.
  - intros u Hu. apply fmap_Some in Hu as ([i u'] & Hfind & ->).
    apply list_find_found in Hfind as (Hi & HP & _). split.
    + by eapply list_elem_of_lookup_2.
    + by apply HPm.
  - exact Hiff.
  - intros Hnone. apply eq_None_not_Some. by rewrite <- Hiff.
Qed.

Lemma userStorage_update_found {num : Type} (st : Store num) id updates i u :
  list_find (λ u, u_id u = id) (userStorage.getAll st) = Some (i, u) →
  userStorage.update id updates st
  = (true, userStorage.save (<[i := userStorage.merge u updates]> (userStorage.getAll st)) st).
Proof. intros Hfind. unfold userStorage.update. by rewrite Hfind. Qed.

(** ** Products *)

Section Products.
Context `{Number num}.
Implicit Type st : Store num.

Lemma getAll_save products st :
  productStorage.getAll (productStorage.save products st) = products.
Proof. done. Qed.

Lemma productStorage_update_found st id updates now i p :
  list_find (λ p, p_id p = id) (productStorage.getAll st) = Some (i, p) →
  productStorage.update id updates now st
  = (true, productStorage.save
             (<[i := productStorage.merge p updates now]> (productStorage.getAll st)) st).
Proof. intros Hfind. unfold productStorage.update. by rewrite Hfind. Qed.

Lemma updateStock_rejected st id quantity operation now i p :
  list_find (λ p, p_id p = id) (productStorage.getAll st) = Some (i, p) →
  (Spec.newStock_of p quantity operation <? num_zero)%num = true →
  productStorage.updateStock id quantity operation now st = (false, st).
Proof.
  intros Hfind Hneg. unfold productStorage.updateStock. rewrite Hfind.
  unfold Spec.newStock_of in Hneg. by rewrite Hneg.
Qed.

Lemma updateStock_committed st id quantity operation now i p :
  list_find (λ p, p_id p = id) (productStorage.getAll st) = Some (i, p) →
  (Spec.newStock_of p quantity operation <? num_zero)%num = false →
  productStorage.updateStock id quantity operation now st
  = (true, productStorage.save
             (<[i := productStorage.restock p (Spec.newStock_of p quantity operation) now]>
                (productStorage.getAll st)) st).
Proof.
  intros Hfind Hneg. unfold productStorage.updateStock. rewrite Hfind.
  unfold Spec.newStock_of in *. by rewrite Hneg.
Qed.

Lemma updateStock_absent st id quantity operation now :
  list_find (λ p, p_id p = id) (productStorage.getAll st) = None →
  productStorage.updateStock id quantity operation now st = (false, st).
Proof. intros Hfind. unfold productStorage.updateStock. by rewrite Hfind. Qed.

(** Whatever [updateStock] does, a product whose stock is below zero
    afterwards was stored, as it is, before. *)
Lemma updateStock_no_new_negative st id quantity operation now q :
  q ∈ productStorage.getAll (productStorage.updateStock id quantity operation now st).2 →
  Spec.negative_stock q →
  q ∈ productStorage.getAll st.
Proof.
  intros Hq Hneg.
  destruct (list_find (λ p, p_id p = id) (productStorage.getAll st))
    as [[i p]|] eqn:Hfind.
  - destruct (Spec.newStock_of p quantity operation <? num_zero)%num eqn:Hnew.
    + by rewrite (updateStock_rejected _ _ _ _ _ _ _ Hfind Hnew) in Hq.
    + rewrite (updateStock_committed _ _ _ _ _ _ _ Hfind Hnew) in Hq.
      simpl in Hq. rewrite getAll_save in Hq.
      apply elem_of_insert_inv in Hq as [->|Hq]; [|done].
      unfold Spec.negative_stock in Hneg. simpl in Hneg. congruence.
  - by rewrite (updateStock_absent _ _ _ _ _ Hfind) in Hq.
Qed.

Lemma updateStock_preserves st id quantity operation now :
  Forall (λ p, ¬ Spec.negative_stock p) (productStorage.getAll st) →
  Forall (λ p, ¬ Spec.negative_stock p)
         (productStorage.getAll (productStorage.updateStock id quantity operation now st).2).
Proof.
  rewrite !Forall_forall. intros Hall q Hq Hneg.
  eapply Hall; [|done]. by eapply updateStock_no_new_negative.
Qed.

Lemma delete_preserves st id :
  Forall (λ p, ¬ Spec.negative_stock p) (productStorage.getAll st) →
  Forall (λ p, ¬ Spec.negative_stock p)
         (productStorage.getAll (productStorage.delete id st).2).
Proof.
  intros Hall. unfold productStorage.delete. case_decide; [done|].
  simpl. rewrite getAll_save. rewrite !Forall_forall in *.
  intros q [_ Hq]%list_elem_of_filter. by apply Hall.
Qed.
End Products.



(** ** Sales *)

Section Sales.
Context `{Number num}.
Implicit Type st : Store num.

(** [add] never rejects: the sale it returns is appended to the ledger. *)
Lemma add_appends newId now stamps sale st :
  salesStorage.getAll (salesStorage.add newId now stamps sale st).2
  = salesStorage.getAll st ++ [(salesStorage.add newId now stamps sale st).1].
Proof. done. Qed.

Lemma foldl_sum {B : Type} (f : B → num) (l : list B) (a : num) :
  foldl (λ sum x, sum + f x)%num a l = foldl num_add a (f <$> l).
Proof. by rewrite foldl_fmap. Qed.

Lemma foldl_sum_ext {B : Type} (f g : B → num) (l : list B) (a : num) :
  (∀ x, f x = g x) →
  foldl (λ sum x, sum + f x)%num a l = foldl (λ sum x, sum + g x)%num a l.
Proof.
  intros Hfg. revert a. induction l as [|x l IH]; intros a; simpl; [done|].
  by rewrite Hfg, IH.
Qed.
End Sales.

(** C1, evaluated at the specification's scenario: stock 5 and 0, a sale of
    3 units of the first product and 1 unit of the second.  The sale is
    not rejected: the first product's stock drops to 2, the second stays
    at 0, and the sale joins the ledger.  For every store and every draft
    the returned sale is appended to the ledger. *)
Theorem C1_oversold_sale_is_recorded :
  let result :=
    salesStorage.add "s9" "2024-01-01T09:00:00.000Z" Scenario.stamps
                     Scenario.oversold Scenario.shelf in
  (p_id <$> productStorage.getAll Scenario.shelf = ["p1"; "p2"]
   ∧ p_stock <$> productStorage.getAll Scenario.shelf = [5; 0]%float
   ∧ (λ item, (ci_productId item, ci_quantity item)) <$> ns_items Scenario.oversold
     = [("p1", 3%float); ("p2", 1%float)]
   ∧ salesStorage.getAll Scenario.shelf = [])
  ∧ (p_stock <$> productStorage.getAll result.2 = [2; 0]%float
     ∧ salesStorage.getAll result.2 = [result.1]
     ∧ s_items result.1 = ns_items Scenario.oversold)
  ∧ (∀ (num : Type) (N : Number num) newId now stamps (sale : NewSale num) (st : Store num),
       salesStorage.getAll (salesStorage.add newId now stamps sale st).2
       = salesStorage.getAll st ++ [(salesStorage.add newId now stamps sale st).1]).
Proof.
  intros result. split; [|split].
  - split_and!; vm_compute; reflexivity.
  - split_and!; vm_compute; reflexivity.
  - intros. apply add_appends.
Qed.




(** C10, as the code has it.  When a record with identifier [id] is stored
    ([u], respectively [p], being the first one, at index [i]), [update]
    returns [true] and replaces that record by one in which every field
    that the patch carries has the patch's value, the identifier and the
    creation timestamp included, and every other field keeps its value;
    with one exception in the Products repository, whose [updatedAt] is
    always the current time, whatever the patch says. *)
Theorem C10_update_merges_patch `{Number num} (st : Store num) (id now : string) :
  (∀ (updates : UserPatch) i u,
     list_find (λ u, u_id u = id) (userStorage.getAll st) = Some (i, u) →
     ∃ u', userStorage.update id updates st
           = (true, userStorage.save (<[i := u']> (userStorage.getAll st)) st)
       ∧ u_id u' = default (u_id u) (up_id updates)
       ∧ u_username u' = default (u_username u) (up_username updates)
       ∧ u_password u' = default (u_password u) (up_password updates)
       ∧ u_role u' = default (u_role u) (up_role updates)
       ∧ u_createdAt u' = default (u_createdAt u) (up_createdAt updates)
       ∧ u_isActive u' = default (u_isActive u) (up_isActive updates))
  ∧ (∀ (updates : ProductPatch num) i p,
       list_find (λ p, p_id p = id) (productStorage.getAll st) = Some (i, p) →
       ∃ p', productStorage.update id updates now st
             = (true, productStorage.save (<[i := p']> (productStorage.getAll st)) st)
         ∧ p_id p' = default (p_id p) (pp_id updates)
         ∧ p_name p' = default (p_name p) (pp_name updates)
         ∧ p_code p' = default (p_code p) (pp_code updates)
         ∧ p_category p' = default (p_category p) (pp_category updates)
         ∧ p_price p' = default (p_price p) (pp_price updates)
         ∧ p_stock p' = default (p_stock p) (pp_stock updates)
         ∧ p_minStock p' = default (p_minStock p) (pp_minStock updates)
         ∧ p_variants p' = match pp_variants updates with
                           | Some variants => Some variants
                           | None => p_variants p
                           end
         ∧ p_isActive p' = default (p_isActive p) (pp_isActive updates)
         ∧ p_createdAt p' = default (p_createdAt p) (pp_createdAt updates)
         ∧ p_updatedAt p' = now).
Proof.
  split.
  - intros updates i u Hfind. exists (userStorage.merge u updates).
    split; [by apply userStorage_update_found|]. by split_and!.
  - intros updates i p Hfind. exists (productStorage.merge p updates now).
    split; [by apply productStorage_update_found|]. by split_and!.
Qed.

(** C10 as stated fails for the Products repository: the [updatedAt] of
    the patch is not merged into the record. *)
Lemma C10_updatedAt_of_patch_dropped :
  pp_updatedAt Scenario.backdated = Some "1999-12-31T00:00:00.000Z"
  ∧ ∃ p', productStorage.getAll
            (productStorage.update "p1" Scenario.backdated "2024-01-01T09:00:00.000Z"
                                   Scenario.shelf).2 !! 0 = Some p'
          ∧ p_id p' = "p1"
          ∧ p_updatedAt p' = "2024-01-01T09:00:00.000Z"
          ∧ p_updatedAt p' ≠ "1999-12-31T00:00:00.000Z".
Proof.
  split; [reflexivity|]. eexists. split; [reflexivity|]. by split_and!.
Qed.

(** ** Settings *)

(** C9, as the code has it.  With no settings stored, [get] yields the
    default document: its [taxRate] is 0.12, its [currency] is ["PHP"], and
    it carries five fields, [storeEmail] and [receiptFooter] not among
    them.  The seven fields of the data model are those of the object the
    settings page builds from it, which fills the two missing ones in. *)
Theorem C9_default_settings {num : Type} (st : Store num) :
  pos_settings st = None →
  field "taxRate" (settingsStorage.get st) = Some (JNum 0.12%float)
  ∧ field "currency" (settingsStorage.get st) = Some (JStr "PHP")
  ∧ keys (settingsStorage.get st)
    = ["storeName"; "storeAddress"; "storePhone"; "taxRate"; "currency"]
  ∧ field "storeEmail" (settingsStorage.get st) = None
  ∧ field "receiptFooter" (settingsStorage.get st) = None
  ∧ keys (SettingsPage.loadSettings st) = Spec.settings_fields
  ∧ field "storeEmail" (SettingsPage.loadSettings st) = Some (JStr "")
  ∧ field "receiptFooter" (SettingsPage.loadSettings st)
    = Some (JStr "Thank you for your purchase!")
  ∧ field "taxRate" (SettingsPage.loadSettings st) = Some (JNum 0.12%float)
  ∧ field "currency" (SettingsPage.loadSettings st) = Some (JStr "PHP").
Proof.
  intros Hnone. unfold SettingsPage.loadSettings, settingsStorage.get.
  rewrite Hnone. by split_and!.
Qed.

Lemma C9_default_settings_witness :
  pos_settings (empty_store (num := float)) = None
  ∧ field "taxRate" (settingsStorage.get (empty_store (num := float)))
    = Some (JNum 0.12%float)
  ∧ field "currency" (settingsStorage.get (empty_store (num := float))) = Some (JStr "PHP").
Proof.
  split; [reflexivity|].
  pose proof (C9_default_settings (empty_store (num := float)) eq_refl) as (Htax & Hcur & _).
  by split.
Defined.

(** C9 as stated fails: the document synthesized for an empty store does
    not carry the seven fields of the data model. *)
Lemma C9_default_lacks_two_fields :
  ¬ Forall (λ key, is_Some (field key (settingsStorage.get (empty_store (num := float)))))
           Spec.settings_fields.
Proof.
  intros Hall. apply Forall_lookup with (i := 3) (x := "storeEmail") in Hall; [|done].
  by destruct Hall.
Qed.

Lemma get_truthy {num : Type} (st : Store num) : truthy (settingsStorage.get st) = true.
Proof.
  unfold settingsStorage.get, or_else.
  destruct (pos_settings st) as [v|]; [|done].
  by destruct (truthy v) eqn:Hv.
Qed.

(** ** Backup and restore *)


(** ** Sorting *)

Section Sorting.
Context {A : Type} (after : A → A → bool).

Lemma sort_insert_perm x l : sort_insert after x l ≡ₚ x :: l.
Proof.
  induction l as [|y l IH]; simpl; [done|].
  destruct (after y x); [done|]. by rewrite IH, Permutation_swap.
Qed.

Lemma Array_sort_snoc l x :
  Array_sort after (l ++ [x]) = sort_insert after x (Array_sort after l).
Proof. unfold Array_sort. by rewrite foldl_snoc. Qed.

Lemma Array_sort_perm l : Array_sort after l ≡ₚ l.
Proof.
  induction l as [|x l IH] using rev_ind; [done|].
  rewrite Array_sort_snoc, sort_insert_perm, IH. by rewrite Permutation_cons_append.
Qed.
End Sorting.

Lemma sort_insert_ext {A : Type} (f g : A → A → bool) (x : A) (l : list A) :
  (∀ a b, f a b = g a b) → sort_insert f x l = sort_insert g x l.
Proof. intros Hfg. induction l as [|y l IH]; simpl; [done|]. by rewrite Hfg, IH. Qed.

Lemma Array_sort_ext {A : Type} (f g : A → A → bool) (l : list A) :
  (∀ a b, f a b = g a b) → Array_sort f l = Array_sort g l.
Proof.
  intros Hfg. induction l as [|x l IH] using rev_ind; [done|].
  by rewrite !Array_sort_snoc, IH, (sort_insert_ext f g).
Qed.

(** ** Sums in exact arithmetic *)

Section ExactSums.
Context `{ExactAdd num}.

Lemma num_add_0_r (x : num) : (x + num_zero)%num = x.
Proof. by rewrite num_add_comm, num_add_0_l. Qed.

Lemma foldl_add_foldr (l : list num) (a : num) :
  foldl num_add a l = (a + foldr num_add num_zero l)%num.
Proof.
  revert a. induction l as [|x l IH]; intros a; simpl.
  - by rewrite num_add_0_r.
  - by rewrite IH, num_add_assoc.
Qed.

Lemma num_sum_foldr (l : list num) : Spec.num_sum l = foldr num_add num_zero l.
Proof. unfold Spec.num_sum. by rewrite foldl_add_foldr, num_add_0_l. Qed.

Lemma num_sum_perm (l1 l2 : list num) : l1 ≡ₚ l2 → Spec.num_sum l1 = Spec.num_sum l2.
Proof.
  intros Hperm. rewrite !num_sum_foldr.
  induction Hperm as [|x l1 l2 _ IH|x y l|l1 l2 l3 _ IH1 _ IH2]; simpl.
  - done.
  - by rewrite IH.
  - by rewrite !num_add_assoc, (num_add_comm y x).
  - by rewrite IH1.
Qed.

Lemma num_sum_snoc (l : list num) (x : num) :
  Spec.num_sum (l ++ [x]) = (Spec.num_sum l + x)%num.
Proof. unfold Spec.num_sum. by rewrite foldl_snoc. Qed.

(** Replacing an element by itself plus [t] adds [t] to the sum. *)
Lemma num_sum_insert {B : Type} (f : B → num) (l : list B) i x y (t : num) :
  l !! i = Some x → f y = (f x + t)%num →
  Spec.num_sum (f <$> <[i := y]> l) = (Spec.num_sum (f <$> l) + t)%num.
Proof.
  intros Hi Hy. rewrite !num_sum_foldr.
  revert i Hi. induction l as [|z l IH]; intros [|i] Hi; simplify_eq/=.
  - rewrite Hy. rewrite <- !num_add_assoc. f_equal. apply num_add_comm.
  - erewrite IH by done. by rewrite num_add_assoc.
Qed.
Lemma num_sum_app (l1 l2 : list num) :
  Spec.num_sum (l1 ++ l2) = (Spec.num_sum l1 + Spec.num_sum l2)%num.
Proof.
  rewrite !num_sum_foldr, foldr_app.
  induction l1 as [|x l1 IH]; simpl.
  - by rewrite num_add_0_l.
  - by rewrite IH, num_add_assoc.
Qed.

Lemma num_sum_cons (x : num) (l : list num) :
  Spec.num_sum (x :: l) = (x + Spec.num_sum l)%num.
Proof. by rewrite !num_sum_foldr. Qed.

(** The sum over all line items is the sum of the sums per sale. *)
Lemma num_sum_concat (sales : list (Sale num)) :
  Spec.num_sum (ci_quantity <$> Spec.lineItems sales)
  = Spec.num_sum ((λ s, Spec.num_sum (ci_quantity <$> s_items s)) <$> sales).
Proof.
  unfold Spec.lineItems. induction sales as [|s sales IH]; [done|].
  rewrite !fmap_cons, num_sum_cons, <- IH, <- num_sum_app, <- fmap_app. done.
Qed.
End ExactSums.

(** C8. [getDailySummary] aggregates exactly the stored sales whose date is
    the given day: the sum of their totals, their number, the sum of their
    item quantities (added sale by sale; in exact arithmetic this is the
    sum over all their line items), and the average, which is 0 when there
    is no such sale and the total divided by the number of sales
    otherwise. *)
Theorem C8_getDailySummary_aggregates `{Number num} (st : Store num) (date : string) :
  let day := Spec.sales_on date (salesStorage.getAll st) in
  let summary := salesStorage.getDailySummary date st in
  (∀ s, s ∈ day ↔ s ∈ salesStorage.getAll st ∧ s_date s = date)
  ∧ ds_totalSales summary = Spec.num_sum (s_total <$> day)
  ∧ ds_totalTransactions summary = length day
  ∧ ds_totalItems summary
    = Spec.num_sum ((λ s, Spec.num_sum (ci_quantity <$> s_items s)) <$> day)
  ∧ (ExactAdd num →
     ds_totalItems summary = Spec.num_sum (ci_quantity <$> Spec.lineItems day))
  ∧ (length day = 0 → ds_averageTransaction summary = num_zero)
  ∧ (0 < length day →
     ds_averageTransaction summary
     = (ds_totalSales summary / num_of_nat (ds_totalTransactions summary))%num).
Proof.
  intros day summary. subst summary. unfold salesStorage.getDailySummary. simpl.
  fold (Spec.sales_on date (salesStorage.getAll st)). fold day.
  assert (Hitems :
    foldl (λ sum s,
             sum + foldl (λ itemSum item, itemSum + ci_quantity item) num_zero (s_items s))%num
          num_zero day
    = Spec.num_sum ((λ s, Spec.num_sum (ci_quantity <$> s_items s)) <$> day)).
  { unfold Spec.num_sum. rewrite <- foldl_sum. apply foldl_sum_ext.
    intros s. apply foldl_sum. }
  split_and!.
  - intros s. unfold day, Spec.sales_on. rewrite list_elem_of_filter. tauto.
  - apply foldl_sum.
  - done.
  - exact Hitems.
  - intros Hexact. rewrite Hitems. symmetry. apply num_sum_concat.
  - intros Hlen. case_decide; [lia|done].
  - intros Hlen. case_decide; [done|lia].
Qed.


Lemma sum_list_insert {B : Type} (f : B → nat) (l : list B) i x y :
  l !! i = Some x → f y = f x + 1 →
  sum_list (f <$> <[i := y]> l) = sum_list (f <$> l) + 1.
Proof.
  intros Hi Hy. revert i Hi. induction l as [|z l IH]; intros [|i] Hi; simplify_eq/=.
  - lia.
  - erewrite IH by done. lia.
Qed.

(** ** The daily breakdown *)

Section DailyBreakdown.
Context `{Number num}.
Variable localeCompare : string → string → comparison.

Lemma Map_get_lookup {K V : Type} `{EqDecision K} (k : K) (m : list (K * V)) i kv :
  Map_get k m = Some (i, kv) → m !! i = Some kv ∧ kv.1 = k.
Proof. intros (Hi & Hk & _)%list_find_found. done. Qed.

(** Every sale adds one transaction to the entries of [dailyData]. *)
Lemma dailyData_sale_transactions (m : list (string * DailyAcc num)) (sale : Sale num) :
  sum_list ((da_transactions ∘ snd) <$> Reports.dailyData_sale m sale)
  = sum_list ((da_transactions ∘ snd) <$> m) + 1.
Proof.
  unfold Reports.dailyData_sale.
  destruct (Map_get _ m) as [[i [k e]]|] eqn:Hget.
  - apply Map_get_lookup in Hget as [Hi _].
    by eapply sum_list_insert.
  - unfold Map_set_new. rewrite fmap_app, sum_list_with_app. simpl. lia.
Qed.

Lemma dailyData_transactions (sales : list (Sale num)) (m : list (string * DailyAcc num)) :
  sum_list ((da_transactions ∘ snd) <$> foldl Reports.dailyData_sale m sales)
  = sum_list ((da_transactions ∘ snd) <$> m) + length sales.
Proof.
  revert m. induction sales as [|sale sales IH]; intros m; simpl; [lia|].
  rewrite IH, dailyData_sale_transactions. lia.
Qed.

Lemma dailyBreakdown_perm (sales : list (Sale num)) :
  Reports.dailyBreakdown_of localeCompare sales
  ≡ₚ (λ '(date, data),
        mkDailyRow date (da_sales data) (da_transactions data) (da_items data))
     <$> foldl Reports.dailyData_sale [] sales.
Proof. apply Array_sort_perm. Qed.

Lemma dailyBreakdown_transactions (sales : list (Sale num)) :
  sum_list (dr_transactions <$> Reports.dailyBreakdown_of localeCompare sales)
  = length sales.
Proof.
  rewrite dailyBreakdown_perm, <- list_fmap_compose.
  erewrite (list_fmap_ext _ (da_transactions ∘ snd)); [|by intros ? [??]].
  by rewrite dailyData_transactions.
Qed.
End DailyBreakdown.

Section DailyBreakdownExact.
Context `{ExactAdd num}.
Variable localeCompare : string → string → comparison.

(** Every sale adds its total to the entries of [dailyData]. *)
Lemma dailyData_sale_sales (m : list (string * DailyAcc num)) (sale : Sale num) :
  Spec.num_sum ((da_sales ∘ snd) <$> Reports.dailyData_sale m sale)
  = (Spec.num_sum ((da_sales ∘ snd) <$> m) + s_total sale)%num.
Proof.
  unfold Reports.dailyData_sale.
  destruct (Map_get _ m) as [[i [k e]]|] eqn:Hget.
  - apply Map_get_lookup in Hget as [Hi _].
    by eapply num_sum_insert.
  - unfold Map_set_new. rewrite fmap_app. exact (num_sum_snoc _ _).
Qed.

Lemma dailyData_sales (sales : list (Sale num)) (m : list (string * DailyAcc num)) :
  Spec.num_sum ((da_sales ∘ snd) <$> foldl Reports.dailyData_sale m sales)
  = foldl (λ sum sale, sum + s_total sale)%num
          (Spec.num_sum ((da_sales ∘ snd) <$> m)) sales.
Proof.
  revert m. induction sales as [|sale sales IH]; intros m; simpl; [done|].
  by rewrite IH, dailyData_sale_sales.
Qed.

Lemma dailyBreakdown_sales (sales : list (Sale num)) :
  Spec.num_sum (dr_sales <$> Reports.dailyBreakdown_of localeCompare sales)
  = foldl (λ sum sale, sum + s_total sale)%num num_zero sales.
Proof.
  erewrite num_sum_perm; [|by rewrite dailyBreakdown_perm].
  rewrite <- list_fmap_compose.
  erewrite (list_fmap_ext _ (da_sales ∘ snd)); [|by intros ? [??]].
  by rewrite dailyData_sales.
Qed.
End DailyBreakdownExact.


(** Exact integers have the laws of exact arithmetic. *)
#[export] Instance Z_ExactAdd : ExactAdd Z.
Proof. split; simpl; intros; lia. Qed.



(** ** Grouping by first occurrence *)

Section Distinct.
Lemma elem_of_distinct (l : list string) x : x ∈ Spec.distinct l ↔ x ∈ l.
Proof.
  induction l as [|y l IH]; simpl; [done|].
  rewrite !elem_of_cons, list_elem_of_filter, IH.
  destruct (decide (x = y)); tauto.
Qed.

Lemma NoDup_distinct (l : list string) : NoDup (Spec.distinct l).
Proof.
  induction l as [|y l IH]; simpl; [constructor|].
  apply NoDup_cons. split.
  - rewrite list_elem_of_filter. by intros [? _].
  - by apply NoDup_filter.
Qed.

Lemma distinct_snoc (l : list string) x :
  Spec.distinct (l ++ [x])
  = if decide (x ∈ l) then Spec.distinct l else Spec.distinct l ++ [x].
Proof.
  induction l as [|y l IH]; simpl; [done|].
  rewrite IH. destruct (decide (x ∈ l)) as [Hin|Hin].
  - rewrite decide_True by (by right). done.
  - rewrite filter_app. destruct (decide (x = y)) as [->|Hne].
    + rewrite decide_True by left. rewrite filter_cons_False by (by intros ?).
      by rewrite filter_nil, app_nil_r.
    + rewrite decide_False by (rewrite elem_of_cons; tauto).
      by rewrite filter_cons_True, filter_nil by done.
Qed.
End Distinct.

(** ** The top products *)

Section TopProducts.
Context `{Number num}.
Variable products : list (Product num).

Abbreviation to_top :=
  (λ '(productId, data),
     mkTopProduct productId (pa_name data) (pa_quantity data) (pa_revenue data)).
Abbreviation name_of := (Spec.name_amended products).

Lemma foldl_concat {B C D : Type} (f : B → C → B) (g : D → list C) (l : list D) (a : B) :
  foldl (λ m x, foldl f m (g x)) a l = foldl f a (concat (g <$> l)).
Proof.
  revert a. induction l as [|x l IH]; intros a; simpl; [done|].
  by rewrite IH, foldl_app.
Qed.

Lemma or_string_name (item : CartItem num) :
  or_string (p_name <$> (snd <$> list_find (λ p, p_id p = ci_productId item) products))
            (ci_name item)
  = name_of item.
Proof.
  unfold Spec.name_amended, or_string.
  destruct (list_find _ products) as [[i p]|]; simpl; [|done].
  destruct (decide (p_name p = "")) as [Hname|Hname].
  - by rewrite Hname.
  - by apply String.eqb_neq in Hname as ->.
Qed.

Lemma num_sum1_snoc (l : list num) (x : num) :
  l ≠ [] → Spec.num_sum1 (l ++ [x]) = (Spec.num_sum1 l + x)%num.
Proof. destruct l as [|y l]; [done|]. intros _. simpl. by rewrite foldl_snoc. Qed.

(** The report line of a product that the new line item is not about
    does not change. *)
Lemma group_of_snoc_other (items : list (CartItem num)) (item : CartItem num) productId :
  ci_productId item ≠ productId →
  Spec.group_of name_of (items ++ [item]) productId = Spec.group_of name_of items productId.
Proof.
  intros Hne. unfold Spec.group_of.
  by rewrite filter_app, filter_cons_False, filter_nil, app_nil_r by done.
Qed.

(** The first line item of a product opens its report line. *)
Lemma group_of_snoc_new (items : list (CartItem num)) (item : CartItem num) :
  ci_productId item ∉ ci_productId <$> items →
  Spec.group_of name_of (items ++ [item]) (ci_productId item)
  = mkTopProduct (ci_productId item) (name_of item) (ci_quantity item) (ci_total item).
Proof.
  intros Hnew. unfold Spec.group_of.
  rewrite filter_app, filter_cons_True, filter_nil by done.
  assert (filter (λ i, ci_productId i = ci_productId item) items = []) as ->; [|done].
  apply elem_of_nil_inv. intros i [Hi Hin]%list_elem_of_filter.
  apply Hnew. rewrite <- Hi. by apply list_elem_of_fmap_2.
Qed.

(** A further line item of a product adds to its report line. *)
Lemma group_of_snoc_old (items : list (CartItem num)) (item : CartItem num) :
  ci_productId item ∈ ci_productId <$> items →
  let old := Spec.group_of name_of items (ci_productId item) in
  Spec.group_of name_of (items ++ [item]) (ci_productId item)
  = mkTopProduct (ci_productId item) (tp_productName old)
                 (tp_quantity old + ci_quantity item)%num
                 (tp_revenue old + ci_total item)%num.
Proof.
  intros (first & Hid & Hin)%list_elem_of_fmap. simpl. unfold Spec.group_of.
  rewrite filter_app, filter_cons_True, filter_nil by done.
  assert (Hgroup : filter (λ i, ci_productId i = ci_productId item) items ≠ []).
  { intros Hnil. by eapply (filter_nil_not_elem_of _ _ first); [exact Hnil|..]. }
  destruct (filter _ items) as [|g group] eqn:Hfilter; [done|].
  rewrite !fmap_app. simpl. by rewrite !foldl_snoc.
Qed.

(** The Map that the loops fill holds, entry for entry, the grouping the
    specification describes. *)
Lemma productSales_grouped (items : list (CartItem num)) :
  to_top <$> foldl (Reports.productSales_item products) [] items
  = Spec.grouped name_of items.
Proof.
  induction items as [|item items IH] using rev_ind; [done|].
  rewrite foldl_snoc. unfold Spec.grouped in *. rewrite fmap_app. simpl.
  set (m := foldl (Reports.productSales_item products) [] items) in *.
  assert (Hkeys : m.*1 = Spec.distinct (ci_productId <$> items)).
  { apply (f_equal (fmap tp_productId)) in IH.
    rewrite <- !list_fmap_compose in IH.
    rewrite (list_fmap_ext _ id (Spec.distinct _)) in IH by done.
    rewrite list_fmap_id in IH. rewrite <- IH.
    apply list_fmap_ext. by intros ? [??]. }
  rewrite distinct_snoc. unfold Reports.productSales_item.
  destruct (Map_get _ m) as [[i [k e]]|] eqn:Hget.
  - apply list_find_found in Hget as (Hi & Hk & Hlt). simpl in Hk. subst k.
    assert (Hdi : Spec.distinct (ci_productId <$> items) !! i = Some (ci_productId item)).
    { rewrite <- Hkeys, list_lookup_fmap, Hi. done. }
    assert (Hin : ci_productId item ∈ ci_productId <$> items).
    { apply elem_of_distinct. by eapply list_elem_of_lookup_2. }
    rewrite decide_True by done.
    rewrite list_fmap_insert, IH.
    apply list_eq. intros j. destruct (decide (i = j)) as [<-|Hij].
    + rewrite list_lookup_insert_eq by (rewrite length_fmap; by eapply lookup_lt_Some).
      rewrite list_lookup_fmap, Hdi. simpl. f_equal.
      rewrite group_of_snoc_old by done.
      assert (Hold : to_top (ci_productId item, e)
                     = Spec.group_of name_of items (ci_productId item)).
      { apply (f_equal (.!! i)) in IH.
        rewrite !list_lookup_fmap, Hi, Hdi in IH. by simplify_eq/=. }
      rewrite <- Hold. done.
    + rewrite list_lookup_insert_ne by done.
      rewrite !list_lookup_fmap.
      destruct (Spec.distinct (ci_productId <$> items) !! j) as [id'|] eqn:Hj; [|done].
      simpl. f_equal. symmetry. apply group_of_snoc_other.
      intros <-. apply Hij. by eapply NoDup_lookup; [apply NoDup_distinct|..].
  - assert (Hnew : ci_productId item ∉ ci_productId <$> items).
    { rewrite <- elem_of_distinct, <- Hkeys.
      apply list_find_None in Hget. rewrite Forall_forall in Hget.
      intros ([k e] & Hk & Hin)%list_elem_of_fmap. by eapply Hget. }
    rewrite decide_False by done.
    unfold Map_set_new. rewrite !fmap_app, IH. simpl.
    rewrite or_string_name, group_of_snoc_new by done. f_equal.
    apply list_fmap_ext. intros j id' Hj. symmetry. apply group_of_snoc_other.
    intros <-. apply Hnew, elem_of_distinct. by eapply list_elem_of_lookup_2.
Qed.

Lemma productSales_of_grouped (sales : list (Sale num)) :
  to_top <$> Reports.productSales_of products sales
  = Spec.grouped name_of (Spec.lineItems sales).
Proof.
  unfold Reports.productSales_of, Spec.lineItems.
  rewrite (foldl_concat (Reports.productSales_item products) s_items).
  apply productSales_grouped.
Qed.
End TopProducts.

(** ** Sorting by revenue *)

Section SortByRevenue.
Context `{Number num}.
Implicit Types a b c x y z : TopProduct num.

(** The entries that are being sorted, ordered consistently. *)
Variable entries : list (TopProduct num).
Hypothesis Hentries : Spec.consistent entries.

Abbreviation after := (λ a b : TopProduct num, (num_zero <? tp_revenue b - tp_revenue a)%num).
Abbreviation not_below := (λ a b : TopProduct num, Spec.below a b = false).

Lemma after_below a b : a ∈ entries → b ∈ entries → after a b = Spec.below a b.
Proof. intros Ha Hb. by destruct (Hentries a b b) as (? & _). Qed.

Lemma below_irrefl a : a ∈ entries → Spec.below a a = false.
Proof. intros Ha. by destruct (Hentries a a a) as (_ & ? & _). Qed.

Lemma below_trans a b c :
  a ∈ entries → b ∈ entries → c ∈ entries →
  Spec.below a b = true → Spec.below b c = true → Spec.below a c = true.
Proof. intros Ha Hb Hc. by destruct (Hentries a b c) as (_ & _ & ? & _). Qed.

Lemma not_below_trans a b c :
  a ∈ entries → b ∈ entries → c ∈ entries →
  Spec.below a b = false → Spec.below b c = false → Spec.below a c = false.
Proof. intros Ha Hb Hc. by destruct (Hentries a b c) as (_ & _ & _ & ?). Qed.

Lemma below_asym a b :
  a ∈ entries → b ∈ entries → Spec.below a b = true → Spec.below b a = false.
Proof.
  intros Ha Hb Hab. destruct (Spec.below b a) eqn:Hba; [|done].
  pose proof (below_trans _ _ _ Ha Hb Ha Hab Hba) as Haa.
  by rewrite below_irrefl in Haa.
Qed.

Lemma sort_insert_sorted x l :
  x ∈ entries → l ⊆ entries →
  StronglySorted not_below l → StronglySorted not_below (sort_insert after x l).
Proof.
  intros Hx. induction l as [|y l IH]; simpl; intros Hl Hsorted.
  - repeat constructor.
  - apply StronglySorted_inv in Hsorted as [Hsl Hy].
    assert (Hyin : y ∈ entries) by (apply Hl; left).
    assert (Hlin : l ⊆ entries) by (intros z Hz; apply Hl; by right).
    rewrite after_below by done.
    destruct (Spec.below y x) eqn:Hyx.
    + constructor; [by constructor|]. constructor; [by apply below_asym|].
      rewrite Forall_forall in *. intros z Hz. specialize (Hy z Hz). simpl in Hy.
      destruct (Spec.below x z) eqn:Hxz; [|done].
      pose proof (below_trans y x z Hyin Hx (Hlin z Hz) Hyx Hxz). congruence.
    + constructor; [by apply IH|].
      rewrite sort_insert_perm. by constructor.
Qed.

Lemma Array_sort_sorted l :
  l ⊆ entries → StronglySorted not_below (Array_sort after l).
Proof.
  induction l as [|x l IH] using rev_ind; intros Hl; [constructor|].
  rewrite Array_sort_snoc. apply sort_insert_sorted.
  - apply Hl. apply elem_of_app. right. by left.
  - intros z Hz. apply Hl. rewrite Array_sort_perm in Hz.
    apply elem_of_app. by left.
  - apply IH. intros z Hz. apply Hl. apply elem_of_app. by left.
Qed.

(** An entry whose revenue is below that of [x] does not tie with what
    [x] ties with. *)
Lemma below_not_tie a x z :
  a ∈ entries → x ∈ entries → z ∈ entries →
  Spec.tie a x → Spec.below z x = true → ¬ Spec.tie a z.
Proof.
  intros Ha Hx Hz [Hxa Hax] Hzx [Hza Haz].
  pose proof (not_below_trans z a x Hz Ha Hx Hza Hax). congruence.
Qed.

(** Inserting keeps the new entry behind the entries it ties with. *)
Lemma sort_insert_stable a x l :
  a ∈ entries → x ∈ entries → l ⊆ entries →
  StronglySorted not_below l →
  filter (Spec.tie a) (sort_insert after x l) = filter (Spec.tie a) (l ++ [x]).
Proof.
  intros Ha Hx. induction l as [|y l IH]; simpl; intros Hl Hsorted; [done|].
  apply StronglySorted_inv in Hsorted as [Hsl Hy].
  assert (Hyin : y ∈ entries) by (apply Hl; left).
  assert (Hlin : l ⊆ entries) by (intros z Hz; apply Hl; by right).
  rewrite after_below by done.
  destruct (Spec.below y x) eqn:Hyx.
  - change (y :: l ++ [x]) with ((y :: l) ++ [x]). rewrite filter_app.
    destruct (decide (Spec.tie a x)) as [Htie|Htie].
    + assert (Hnone : filter (Spec.tie a) (y :: l) = []).
      { apply elem_of_nil_inv. intros z [Hz Hin]%list_elem_of_filter.
        eapply (below_not_tie a x z); [done|done|by apply Hl|done| |done].
        apply elem_of_cons in Hin as [->|Hin]; [done|].
        rewrite Forall_forall in Hy. specialize (Hy z Hin). simpl in Hy.
        destruct (Spec.below z x) eqn:Hzx; [done|].
        pose proof (not_below_trans y z x Hyin (Hlin z Hin) Hx Hy Hzx). congruence. }
      rewrite (filter_cons_True _ x (y :: l)) by done. rewrite Hnone.
      by rewrite filter_cons_True by done.
    + rewrite (filter_cons_False _ x) by done.
      by rewrite (filter_cons_False _ x), filter_nil, app_nil_r by done.
  - rewrite !filter_cons, IH by done. done.
Qed.

Lemma Array_sort_stable a l :
  a ∈ entries → l ⊆ entries →
  filter (Spec.tie a) (Array_sort after l) = filter (Spec.tie a) l.
Proof.
  intros Ha. induction l as [|x l IH] using rev_ind; intros Hl; [done|].
  assert (Hlin : l ⊆ entries).
  { intros z Hz. apply Hl, elem_of_app. by left. }
  rewrite Array_sort_snoc, sort_insert_stable.
  - by rewrite !filter_app, IH.
  - done.
  - apply Hl, elem_of_app. right. by left.
  - intros z Hz. rewrite Array_sort_perm in Hz. by apply Hlin.
  - by apply Array_sort_sorted.
Qed.

(** The sort of [generateReport] produces the descending, stable order. *)
Lemma sort_by_revenue : Spec.sorted_desc_stable entries (Array_sort after entries).
Proof.
  split_and!.
  - apply Array_sort_perm.
  - by apply Array_sort_sorted.
  - intros a Ha. by apply Array_sort_stable.
Qed.
End SortByRevenue.




(** The specification's login scenario, on the two default users. *)
Lemma C7_findByCredentials_exact_witness :
  userStorage.findByCredentials "admin" "wrong" Scenario.staff = None
  ∧ userStorage.findByCredentials "nosuchuser" "x" Scenario.staff = None
  ∧ is_Some (userStorage.findByCredentials "admin" "admin123" Scenario.staff).
Proof.
  split_and!; [reflexivity|reflexivity|].
  pose proof (C7_findByCredentials_exact Scenario.staff "admin" "admin123") as (_ & Hiff & _).
  apply Hiff. eexists. split.
  - apply list_elem_of_lookup. exists 0. reflexivity.
  - by split_and!.
Defined.

Lemma C10_update_merges_patch_witness :
  list_find (λ u, u_id u = "u1") (userStorage.getAll Scenario.staff)
  = Some (0, mkUser "u1" "admin" "admin123" admin Scenario.opened true)
  ∧ ∃ u', userStorage.update "u1" Scenario.renumbered Scenario.staff
          = (true, userStorage.save (<[0 := u']> (userStorage.getAll Scenario.staff))
                                    Scenario.staff)
          ∧ u_id u' = "root".
Proof.
  split; [reflexivity|].
  pose proof (C10_update_merges_patch Scenario.staff "u1" Scenario.opened) as [Husers _].
  destruct (Husers Scenario.renumbered 0 _ eq_refl) as (u' & Hupdate & Hid & _).
  by exists u'.
Defined.

(** The second day of the three-sale ledger: two sales of 16.8 each. *)
Lemma C8_getDailySummary_aggregates_witness :
  let summary := salesStorage.getDailySummary "2024-01-02" Scenario.ledger in
  0 < length (Spec.sales_on "2024-01-02" (salesStorage.getAll Scenario.ledger))
  ∧ ds_averageTransaction summary
    = (ds_totalSales summary / num_of_nat (ds_totalTransactions summary))%num
  ∧ ds_totalSales summary = 33.6%float
  ∧ ds_totalTransactions summary = 2
  ∧ ds_totalItems summary = 2%float
  ∧ ds_averageTransaction summary = 16.8%float.
Proof.
  assert (Hday : 0 < length (Spec.sales_on "2024-01-02"
                               (salesStorage.getAll Scenario.ledger))).
  { vm_compute. lia. }
  pose proof (C8_getDailySummary_aggregates Scenario.ledger "2024-01-02")
    as (_ & _ & _ & _ & _ & _ & Haverage).
  split_and!; [exact Hday|exact (Haverage Hday)|reflexivity..].
Defined.

(** * Further properties *)

(** ** Deleting *)

Section FilterFacts.
Context {A : Type} (P : A → Prop) `{∀ x, Decision (P x)}.

Lemma filter_length_eq (l : list A) : length (filter P l) = length l → filter P l = l.
Proof.
  induction l as [|x l IH]; [done|].
  rewrite filter_cons. destruct (decide (P x)); simpl.
  - intros Hlen. f_equal. apply IH. lia.
  - intros Hlen. pose proof (length_filter P l). lia.
Qed.

Lemma filter_length_lt (l : list A) :
  length (filter P l) ≠ length l ↔ ∃ x, x ∈ l ∧ ¬ P x.
Proof.
  split.
  - induction l as [|x l IH]; [done|].
    rewrite filter_cons. destruct (decide (P x)); simpl.
    + intros Hlen. destruct IH as (y & Hy & HPy); [lia|].
      exists y. split; [by right|done].
    + intros _. exists x. split; [by left|done].
  - intros (x & Hx & HPx) Hlen. pose proof (length_filter_lt P l x Hx HPx). lia.
Qed.
End FilterFacts.

(** X1. [delete] of either repository returns [true] exactly when a
    stored record has the identifier.  It removes every record with that
    identifier, not only the first, and keeps all others in their order;
    when it returns [false] the store is unchanged. *)
Theorem X1_delete_removes_all `{Number num} (st : Store num) (id : string) :
  let users := userStorage.delete id st in
  let products := productStorage.delete id st in
  ((users.1 = true ↔ ∃ u, u ∈ userStorage.getAll st ∧ u_id u = id)
   ∧ userStorage.getAll users.2 = filter (λ u, u_id u ≠ id) (userStorage.getAll st)
   ∧ (∀ u, u ∈ userStorage.getAll users.2 → u_id u ≠ id)
   ∧ (users.1 = false → users.2 = st)
   ∧ productStorage.getAll users.2 = productStorage.getAll st)
  ∧ ((products.1 = true ↔ ∃ p, p ∈ productStorage.getAll st ∧ p_id p = id)
     ∧ productStorage.getAll products.2
       = filter (λ p, p_id p ≠ id) (productStorage.getAll st)
     ∧ (∀ p, p ∈ productStorage.getAll products.2 → p_id p ≠ id)
     ∧ (products.1 = false → products.2 = st)
     ∧ userStorage.getAll products.2 = userStorage.getAll st).
Proof.
  intros users products. subst users products.
  unfold userStorage.delete, productStorage.delete. split.
  - assert (Hfilter : userStorage.getAll
                        (if decide (length (filter (λ u, u_id u ≠ id) (userStorage.getAll st))
                                    = length (userStorage.getAll st))
                         then (false, st)
                         else (true, userStorage.save
                                       (filter (λ u, u_id u ≠ id) (userStorage.getAll st)) st)).2
                      = filter (λ u, u_id u ≠ id) (userStorage.getAll st)).
    { case_decide as Hlen; [|done]. simpl. symmetry. by apply filter_length_eq. }
    split_and!.
    + case_decide as Hlen; simpl.
      * split; [done|]. intros (u & Hu & Hid).
        assert (length (filter (λ u, u_id u ≠ id) (userStorage.getAll st))
                ≠ length (userStorage.getAll st)); [|done].
        apply filter_length_lt. exists u. split; [done|]. by intros ?.
      * split; [|done]. intros _.
        apply filter_length_lt in Hlen as (u & Hu & Hid).
        exists u. split; [done|]. by destruct (decide (u_id u = id)).
    + exact Hfilter.
    + intros u. rewrite Hfilter. by intros [? _]%list_elem_of_filter.
    + by case_decide.
    + by case_decide.
  - assert (Hfilter : productStorage.getAll
                        (if decide (length (filter (λ p, p_id p ≠ id)
                                              (productStorage.getAll st))
                                    = length (productStorage.getAll st))
                         then (false, st)
                         else (true, productStorage.save
                                       (filter (λ p, p_id p ≠ id)
                                          (productStorage.getAll st)) st)).2
                      = filter (λ p, p_id p ≠ id) (productStorage.getAll st)).
    { case_decide as Hlen; [|done]. simpl. symmetry. by apply filter_length_eq. }
    split_and!.
    + case_decide as Hlen; simpl.
      * split; [done|]. intros (p & Hp & Hid).
        assert (length (filter (λ p, p_id p ≠ id) (productStorage.getAll st))
                ≠ length (productStorage.getAll st)); [|done].
        apply filter_length_lt. exists p. split; [done|]. by intros ?.
      * split; [|done]. intros _.
        apply filter_length_lt in Hlen as (p & Hp & Hid).
        exists p. split; [done|]. by destruct (decide (p_id p = id)).
    + exact Hfilter.
    + intros p. rewrite Hfilter. by intros [? _]%list_elem_of_filter.
    + by case_decide.
    + by case_decide.
Qed.

(** ** Identifiers *)

Section IdFacts.
Context {A B : Type} (f : A → B).

Lemma NoDup_fmap_filter (P : A → Prop) `{∀ x, Decision (P x)} (l : list A) :
  NoDup (f <$> l) → NoDup (f <$> filter P l).
Proof.
  induction l as [|x l IH]; [done|].
  rewrite fmap_cons, NoDup_cons. intros [Hx Hl].
  rewrite filter_cons. destruct (decide (P x)); [|by apply IH].
  rewrite fmap_cons, NoDup_cons. split; [|by apply IH].
  intros (y & Hy & [_ Hin]%list_elem_of_filter)%list_elem_of_fmap.
  apply Hx. rewrite Hy. by apply list_elem_of_fmap_2.
Qed.

Lemma fmap_insert_same (l : list A) i x y :
  l !! i = Some x → f y = f x → f <$> <[i := y]> l = f <$> l.
Proof.
  intros Hi Hf. rewrite list_fmap_insert, Hf.
  apply list_insert_id. by rewrite list_lookup_fmap, Hi.
Qed.
End IdFacts.

(** The first record with an identifier is still the first one after it
    has been replaced by a record with the same identifier. *)
Lemma list_find_insert_same {A : Type} (P : A → Prop) `{∀ x, Decision (P x)}
    (l : list A) i x y :
  list_find P l = Some (i, x) → P y → list_find P (<[i := y]> l) = Some (i, y).
Proof.
  intros (Hi & HP & Hleast)%list_find_Some HPy. apply list_find_Some. split_and!.
  - apply list_lookup_insert_eq. by eapply lookup_lt_Some.
  - done.
  - intros j z Hj Hlt. rewrite list_lookup_insert_ne in Hj by lia. by eapply Hleast.
Qed.


(** ** Logging in *)

(** X3. After [userStorage.add], [findByCredentials] finds whom it found
    before; if it found no one, it finds the new user exactly when the
    credentials are the new user's and the new user is active.  So a user
    added with the credentials of an earlier active user never logs in as
    themself. *)
Theorem X3_findByCredentials_after_add {num : Type} (st : Store num)
    (newId now : string) (user : NewUser) (username password : string) :
  userStorage.findByCredentials username password (userStorage.add newId now user st).2
  = match userStorage.findByCredentials username password st with
    | Some u => Some u
    | None =>
        if decide (nu_username user = username ∧ nu_password user = password
                   ∧ nu_isActive user = true)
        then Some (userStorage.add newId now user st).1
        else None
    end.
Proof.
  unfold userStorage.findByCredentials, userStorage.add. cbn [fst snd].
  change (userStorage.getAll (userStorage.save ?l st)) with l.
  set (P := λ u : User, u_username u = username ∧ u_password u = password ∧ u_isActive u).
  destruct (list_find P (userStorage.getAll st)) as [[i u]|] eqn:Hfind.
  - by rewrite (list_find_app_l _ _ _ _ _ Hfind).
  - rewrite (list_find_app_r _ _ _ Hfind). simpl.
    unfold P at 1. simpl.
    destruct (nu_isActive user); repeat case_decide; simpl in *; try done;
      exfalso; intuition congruence.
Qed.

(** ** Default data *)

Section DefaultData.
Context `{Number num}.
Implicit Type st : Store num.

Lemma addProducts_products ids times k (l : list (NewProduct num)) st :
  length (productStorage.getAll (defaults.addProducts ids times k l st))
  = length (productStorage.getAll st) + length l.
Proof.
  revert k st. induction l as [|x l IH]; intros k st; simpl; [lia|].
  rewrite IH. unfold productStorage.add. cbn [snd].
  rewrite getAll_save, length_app. simpl. lia.
Qed.

Lemma addProducts_prefix ids times k (l : list (NewProduct num)) st :
  productStorage.getAll st
  `prefix_of` productStorage.getAll (defaults.addProducts ids times k l st).
Proof.
  revert k st. induction l as [|x l IH]; intros k st; simpl; [done|].
  etrans; [|apply IH]. unfold productStorage.add. cbn [snd].
  rewrite getAll_save. by apply prefix_app_r.
Qed.

Lemma addProducts_others ids times k (l : list (NewProduct num)) st :
  pos_users (defaults.addProducts ids times k l st) = pos_users st
  ∧ pos_sales (defaults.addProducts ids times k l st) = pos_sales st
  ∧ pos_settings (defaults.addProducts ids times k l st) = pos_settings st
  ∧ pos_current_user (defaults.addProducts ids times k l st) = pos_current_user st.
Proof.
  revert k st. induction l as [|x l IH]; intros k st; [done|].
  cbn [defaults.addProducts].
  destruct (IH (S k) (productStorage.add (ids k) (times k) x st).2) as (-> & -> & -> & ->).
  done.
Qed.

Lemma initializeDefaultData_users ids times st :
  userStorage.getAll (defaults.initializeDefaultData ids times st)
  = if decide (length (userStorage.getAll st) = 0)
    then [mkUser (ids 0) "admin" "admin123" admin (times 0) true;
          mkUser (ids 1) "cashier" "cashier123" cashier (times 1) true]
    else userStorage.getAll st.
Proof.
  unfold defaults.initializeDefaultData.
  destruct (decide (length (userStorage.getAll st) = 0)) as [Hnil|Hsome].
  - apply nil_length_inv in Hnil.
    case_decide; unfold userStorage.getAll in *;
      [destruct (addProducts_others ids times 2 defaults.sampleProducts
                   (userStorage.add (ids 1) (times 1)
                      (mkNewUser "cashier" "cashier123" cashier true)
                      (userStorage.add (ids 0) (times 0)
                         (mkNewUser "admin" "admin123" admin true) st).2).2)
         as (-> & _)|];
      simpl; unfold userStorage.getAll; by rewrite Hnil.
  - case_decide; [|done]. unfold userStorage.getAll.
    by destruct (addProducts_others ids times 0 defaults.sampleProducts st) as (-> & _).
Qed.
End DefaultData.

Section DefaultDataMore.
Context `{Number num}.
Implicit Type st : Store num.

Lemma initializeDefaultData_products ids times st :
  length (productStorage.getAll (defaults.initializeDefaultData ids times st))
  = if decide (length (productStorage.getAll st) = 0) then 5
    else length (productStorage.getAll st).
Proof.
  unfold defaults.initializeDefaultData.
  destruct (decide (length (userStorage.getAll st) = 0)); cbn zeta beta iota.
  - set (st1 := (userStorage.add _ _ _ (userStorage.add _ _ _ st).2).2).
    assert (Hst1 : productStorage.getAll st1 = productStorage.getAll st) by done.
    rewrite Hst1. case_decide as Hlen.
    + by rewrite addProducts_products, Hst1, Hlen.
    + by rewrite Hst1.
  - case_decide as Hlen; [|done]. by rewrite addProducts_products, Hlen.
Qed.

Lemma initializeDefaultData_others ids times st :
  pos_sales (defaults.initializeDefaultData ids times st) = pos_sales st
  ∧ pos_settings (defaults.initializeDefaultData ids times st) = pos_settings st
  ∧ pos_current_user (defaults.initializeDefaultData ids times st) = pos_current_user st.
Proof.
  unfold defaults.initializeDefaultData.
  destruct (decide (length (userStorage.getAll st) = 0)); cbn zeta beta iota;
    case_decide; try done;
    match goal with
    | |- context [defaults.addProducts ?i ?t ?k ?l ?s] =>
        destruct (addProducts_others i t k l s) as (_ & -> & -> & ->)
    end; done.
Qed.
End DefaultDataMore.

(** X4. [initializeDefaultData] leaves a store that has users and has
    products, and running it again changes nothing.  It never touches a
    user list or a product list that is not empty, nor the sales, the
    settings or the session.  On a store without users it creates the two
    default accounts, and the default administrator can log in. *)
Theorem X4_initializeDefaultData_once `{Number num} (ids times ids' times' : nat → string)
    (st : Store num) :
  let st' := defaults.initializeDefaultData ids times st in
  (userStorage.getAll st' ≠ [] ∧ productStorage.getAll st' ≠ [])
  ∧ defaults.initializeDefaultData ids' times' st' = st'
  ∧ (userStorage.getAll st ≠ [] → userStorage.getAll st' = userStorage.getAll st)
  ∧ (productStorage.getAll st ≠ [] → productStorage.getAll st' = productStorage.getAll st)
  ∧ (userStorage.getAll st = [] →
     u_username <$> userStorage.getAll st' = ["admin"; "cashier"]
     ∧ ∃ u, userStorage.findByCredentials "admin" "admin123" st' = Some u
            ∧ u_role u = admin ∧ u_id u = ids 0)
  ∧ (productStorage.getAll st = [] → length (productStorage.getAll st') = 5)
  ∧ (salesStorage.getAll st' = salesStorage.getAll st
     ∧ settingsStorage.get st' = settingsStorage.get st
     ∧ authStorage.getCurrentUser st' = authStorage.getCurrentUser st).
Proof.
  intros st'.
  assert (Husers : userStorage.getAll st' ≠ []).
  { unfold st'. rewrite initializeDefaultData_users. case_decide as Hlen; [done|].
    intros Hnil. by rewrite Hnil in Hlen. }
  assert (Hproducts : productStorage.getAll st' ≠ []).
  { intros Hnil. apply (f_equal length) in Hnil.
    unfold st' in Hnil. rewrite initializeDefaultData_products in Hnil.
    case_decide; simpl in Hnil; lia. }
  split_and!.
  - done.
  - done.
  - unfold defaults.initializeDefaultData at 1.
    rewrite decide_False by (by destruct (userStorage.getAll st')).
    cbn zeta beta iota.
    by rewrite decide_False by (by destruct (productStorage.getAll st')).
  - intros Hsome. unfold st'. rewrite initializeDefaultData_users.
    by rewrite decide_False by (by destruct (userStorage.getAll st)).
  - intros Hsome. unfold st', defaults.initializeDefaultData.
    destruct (decide (length (userStorage.getAll st) = 0)); cbn zeta beta iota.
    + set (st1 := (userStorage.add _ _ _ (userStorage.add _ _ _ st).2).2).
      assert (Hst1 : productStorage.getAll st1 = productStorage.getAll st) by done.
      rewrite Hst1.
      by rewrite decide_False by (by destruct (productStorage.getAll st)).
    + by rewrite decide_False by (by destruct (productStorage.getAll st)).
  - intros Hnil. unfold userStorage.findByCredentials, st'.
    rewrite initializeDefaultData_users, Hnil. simpl. split; [done|].
    eexists. split; [reflexivity|done].
  - intros Hnil. unfold st'. by rewrite initializeDefaultData_products, Hnil.
  - unfold salesStorage.getAll, st'.
    by destruct (initializeDefaultData_others ids times st) as (-> & _).
  - unfold settingsStorage.get, st'.
    by destruct (initializeDefaultData_others ids times st) as (_ & -> & _).
  - unfold authStorage.getCurrentUser, st'.
    by destruct (initializeDefaultData_others ids times st) as (_ & _ & ->).
Qed.

(** ** The session *)

Section SessionFacts.
Context {num : Type}.
Implicit Type st : Store num.

Lemma findByCredentials_Some username password st u :
  userStorage.findByCredentials username password st = Some u →
  u ∈ userStorage.getAll st
  ∧ u_username u = username ∧ u_password u = password ∧ u_isActive u = true.
Proof.
  unfold userStorage.findByCredentials.
  destruct (list_find _ _) as [[i v]|] eqn:Hfind; [|done].
  intros [= ->]. apply list_find_found in Hfind as (Hi & (? & ? & Hactive) & _).
  split_and!; [by eapply list_elem_of_lookup_2|done|done|].
  by destruct (u_isActive u).
Qed.

Lemma findByCredentials_None username password st :
  userStorage.findByCredentials username password st = None →
  ∀ u, u ∈ userStorage.getAll st →
       ¬ (u_username u = username ∧ u_password u = password ∧ u_isActive u = true).
Proof.
  unfold userStorage.findByCredentials.
  destruct (list_find _ _) as [[i v]|] eqn:Hfind; [done|].
  intros _ u Hu (? & ? & Hactive).
  eapply list_find_None in Hfind. rewrite Forall_forall in Hfind.
  apply (Hfind u Hu). split_and!; [done|done|]. by rewrite Hactive.
Qed.
End SessionFacts.

(** X5. [login] succeeds exactly when a stored user is active and has the
    user name and the password.  A failed login leaves the provider's
    state and the storage as they were.  A successful one puts the same
    user, a stored active user with these credentials, into the state and
    under the session key, and changes nothing else of the storage.
    After [logout] no one is logged in, as an administrator or otherwise,
    and the storage is what it was before the login, without a session. *)
Theorem X5_login_logout {num : Type} (username password : string)
    (s : AuthContext.Session (num := num)) :
  let r := AuthContext.login username password s in
  (r.1 = true
   ↔ ∃ u, u ∈ userStorage.getAll (AuthContext.storage s)
          ∧ u_username u = username ∧ u_password u = password ∧ u_isActive u = true)
  ∧ (r.1 = false → r.2 = s)
  ∧ (r.1 = true →
     ∃ u, AuthContext.state_user r.2 = Some u
          ∧ authStorage.getCurrentUser (AuthContext.storage r.2) = Some u
          ∧ u ∈ userStorage.getAll (AuthContext.storage s)
          ∧ u_username u = username ∧ u_password u = password ∧ u_isActive u = true
          ∧ AuthContext.isLoggedIn r.2 = true
          ∧ (AuthContext.isAdmin r.2 = true ↔ u_role u = admin))
  ∧ (pos_users (AuthContext.storage r.2) = pos_users (AuthContext.storage s)
     ∧ pos_products (AuthContext.storage r.2) = pos_products (AuthContext.storage s)
     ∧ pos_sales (AuthContext.storage r.2) = pos_sales (AuthContext.storage s)
     ∧ pos_settings (AuthContext.storage r.2) = pos_settings (AuthContext.storage s))
  ∧ (AuthContext.logout r.2
     = AuthContext.mkSession None (remove_current_user (AuthContext.storage s))
     ∧ AuthContext.isLoggedIn (AuthContext.logout r.2) = false
     ∧ AuthContext.isAdmin (AuthContext.logout r.2) = false
     ∧ authStorage.isLoggedIn (AuthContext.storage (AuthContext.logout r.2)) = false).
Proof.
  intros r. subst r. unfold AuthContext.login.
  destruct (userStorage.findByCredentials username password (AuthContext.storage s))
    as [u|] eqn:Hfind; cbn [fst snd].
  - pose proof (findByCredentials_Some _ _ _ _ Hfind) as (Hu & Hname & Hpass & Hactive).
    split_and!; try done.
    + split; [|done]. intros _. by exists u.
    + intros _. exists u. split_and!; try done.
      unfold AuthContext.isAdmin. simpl. by destruct (u_role u).
  - split_and!; try done.
    split; [done|]. intros (u & Hu & Hcreds).
    by destruct (findByCredentials_None _ _ _ Hfind u Hu).
Qed.

(** X6. Mounting the provider restores whatever user is stored under the
    session key, without looking at the user list: the state becomes that
    user, or stays as it was when no session is stored.  No operation of
    the Users repository touches the session key, so the session of a
    user outlives the deletion of the user, although no stored record
    has the identifier any more and no login can return it. *)
Theorem X6_session_outlives_user `{Number num} (ids times : nat → string)
    (x : option User) (u : User) (st : Store num) :
  (AuthContext.state_user (AuthContext.mount ids times (AuthContext.mkSession x st))
   = match authStorage.getCurrentUser st with
     | Some currentUser => Some currentUser
     | None => x
     end)
  ∧ (authStorage.getCurrentUser
       (AuthContext.storage (AuthContext.mount ids times (AuthContext.mkSession x st)))
     = authStorage.getCurrentUser st)
  ∧ (∀ id updates newId now user,
       authStorage.getCurrentUser (userStorage.delete id st).2 = authStorage.getCurrentUser st
       ∧ authStorage.getCurrentUser (userStorage.update id updates st).2
         = authStorage.getCurrentUser st
       ∧ authStorage.getCurrentUser (userStorage.add newId now user st).2
         = authStorage.getCurrentUser st)
  ∧ let deleted := (userStorage.delete (u_id u) (authStorage.setCurrentUser u st)).2 in
    AuthContext.state_user (AuthContext.mount ids times (AuthContext.mkSession x deleted))
    = Some u
    ∧ (∀ v, v ∈ userStorage.getAll deleted → u_id v ≠ u_id u)
    ∧ (∀ username password,
         userStorage.findByCredentials username password deleted ≠ Some u).
Proof.
  assert (Hmount : ∀ y (st0 : Store num),
    AuthContext.state_user (AuthContext.mount ids times (AuthContext.mkSession y st0))
    = match authStorage.getCurrentUser st0 with
      | Some currentUser => Some currentUser
      | None => y
      end
    ∧ authStorage.getCurrentUser
        (AuthContext.storage (AuthContext.mount ids times (AuthContext.mkSession y st0)))
      = authStorage.getCurrentUser st0).
  { intros y st0. unfold AuthContext.mount, authStorage.getCurrentUser. cbn [AuthContext.storage].
    destruct (initializeDefaultData_others ids times st0) as (_ & _ & Hsession).
    rewrite Hsession. by destruct (pos_current_user st0). }
  assert (Hdelete : ∀ id (st0 : Store num),
    authStorage.getCurrentUser (userStorage.delete id st0).2
    = authStorage.getCurrentUser st0).
  { intros id st0. unfold userStorage.delete. by case_decide. }
  assert (Hfilter : ∀ id (st0 : Store num) v,
    v ∈ userStorage.getAll (userStorage.delete id st0).2 → u_id v ≠ id).
  { intros id st0 v. unfold userStorage.delete. case_decide as Hlen; simpl.
    - apply filter_length_eq in Hlen. rewrite <- Hlen.
      by intros [? _]%list_elem_of_filter.
    - by intros [? _]%list_elem_of_filter. }
  split_and!.
  - apply Hmount.
  - apply Hmount.
  - intros id updates newId now user. split_and!.
    + apply Hdelete.
    + unfold userStorage.update. by destruct (list_find _ _) as [[??]|].
    + done.
  - intros deleted. split_and!.
    + destruct (Hmount x deleted) as [-> _]. unfold deleted. by rewrite Hdelete.
    + intros v. apply Hfilter.
    + intros username password Hfound.
      apply findByCredentials_Some in Hfound as (Hu & _).
      by apply Hfilter in Hu.
Qed.

(** ** Low stock *)

Section FilterMore.
Context {A : Type} (P Q : A → Prop) `{∀ x, Decision (P x)} `{∀ x, Decision (Q x)}.

Lemma filter_sublist_impl (l : list A) :
  (∀ x, x ∈ l → P x → Q x) → filter P l `sublist_of` filter Q l.
Proof.
  induction l as [|x l IH]; intros HPQ; [done|].
  assert (filter P l `sublist_of` filter Q l) as Hl.
  { apply IH. intros y Hy. apply HPQ. by right. }
  rewrite !filter_cons. destruct (decide (P x)) as [HP|HP].
  - rewrite decide_True by (apply HPQ; [by left|done]). by constructor.
  - destruct (decide (Q x)); [by constructor|done].
Qed.

Lemma filter_ext_in (l : list A) :
  (∀ x, x ∈ l → P x ↔ Q x) → filter P l = filter Q l.
Proof.
  induction l as [|x l IH]; intros HPQ; [done|].
  rewrite !filter_cons, IH by (intros y Hy; apply HPQ; by right).
  destruct (decide (P x)) as [HP|HP].
  - by rewrite decide_True by (by apply HPQ; [left|]).
  - rewrite decide_False; [done|]. intros HQ. apply HP. by apply HPQ; [left|].
Qed.
End FilterMore.

(** X7. Every low-stock alert is for a stored product that is active and
    whose stock is at most its minimum, copies its identifier, name and
    two stock figures, and is critical exactly when the stock equals
    zero; an inactive product gives no alert.  The alerts follow the
    order of the stored products.  On the dashboard the number of
    low-stock items is at most the number of active products, which is
    at most the number of products, and the day's transactions are the
    number of stored sales of that day. *)
Theorem X7_low_stock_alerts `{NumberOps num} (today : string) (st : Store num) :
  let alerts := productAlerts.getLowStockAlerts st in
  let stats := Dashboard.loadDashboardData today st in
  (∀ a, a ∈ alerts →
        ∃ p, p ∈ productStorage.getAll st
             ∧ p_isActive p = true ∧ (p_stock p <=? p_minStock p)%num = true
             ∧ al_productId a = p_id p ∧ al_productName a = p_name p
             ∧ al_currentStock a = p_stock p ∧ al_minStock a = p_minStock p)
  ∧ (∀ p, p ∈ productStorage.getAll st →
          p_isActive p = true → (p_stock p <=? p_minStock p)%num = true →
          productAlerts.alert_of p ∈ alerts)
  ∧ (∀ a, a ∈ alerts →
          (al_currentStock a <=? al_minStock a)%num = true
          ∧ (al_severity a = critical ↔ (al_currentStock a =? num_zero)%num = true))
  ∧ al_productId <$> alerts `sublist_of` p_id <$> productStorage.getAll st
  ∧ (lowStockItems stats = alerts
     ∧ length (lowStockItems stats) ≤ activeProducts stats
     ∧ activeProducts stats ≤ totalProducts stats
     ∧ todayTransactions stats
       = length (Spec.sales_on today (salesStorage.getAll st))).
Proof.
  intros alerts stats. subst alerts stats.
  unfold Dashboard.loadDashboardData, productAlerts.getLowStockAlerts. cbn zeta.
  cbn [lowStockItems activeProducts totalProducts todayTransactions].
  set (low := λ p : Product num, p_isActive p && (p_stock p <=? p_minStock p)%num).
  assert (Hlow : ∀ p, low p ↔ p_isActive p = true ∧ (p_stock p <=? p_minStock p)%num = true).
  { intros p. unfold low. rewrite andb_True. by rewrite !Is_true_true. }
  split_and!.
  - intros a (p & -> & [Hp Hin]%list_elem_of_filter)%list_elem_of_fmap.
    apply Hlow in Hp as [Hactive Hstock]. exists p. by split_and!.
  - intros p Hp Hactive Hstock. apply list_elem_of_fmap_2.
    apply list_elem_of_filter. split; [|done]. by apply Hlow.
  - intros a (p & -> & [Hp Hin]%list_elem_of_filter)%list_elem_of_fmap.
    apply Hlow in Hp as [Hactive Hstock]. split; [done|].
    unfold productAlerts.alert_of. simpl.
    by destruct (p_stock p =? num_zero)%num.
  - rewrite <- list_fmap_compose.
    change (al_productId ∘ productAlerts.alert_of) with (p_id (num := num)).
    apply fmap_sublist, sublist_filter.
  - done.
  - rewrite length_fmap. apply sublist_length, filter_sublist_impl.
    intros p _ Hp. apply Hlow in Hp as [Hactive _]. by rewrite Hactive.
  - apply length_filter.
  - done.
Qed.

(** ** Searching *)

Section StringFacts.
Implicit Types s sub a b : string.

Lemma append_assoc a b s : (a +:+ b) +:+ s = a +:+ (b +:+ s).
Proof. induction a as [|c a IH]; [done|]. exact (f_equal (String c) IH). Qed.

Lemma append_empty_r s : s +:+ "" = s.
Proof. induction s as [|c s IH]; [done|]. exact (f_equal (String c) IH). Qed.

Lemma append_cons c a s : String c a +:+ s = String c (a +:+ s).
Proof. done. Qed.

Lemma prefix_cons c sub d s :
  String.prefix (String c sub) (String d s)
  = if ascii_dec c d then String.prefix sub s else false.
Proof. done. Qed.

Lemma prefix_append sub s : String.prefix sub s = true ↔ ∃ b, s = sub +:+ b.
Proof.
  revert s. induction sub as [|c sub IH]; intros s.
  - split; [|by destruct s]. intros _. by exists s.
  - destruct s as [|d s].
    + split; [done|]. by intros (b & ?).
    + rewrite prefix_cons. destruct (ascii_dec c d) as [->|Hne].
      * rewrite IH. split; intros (b & Hb); exists b.
        -- by rewrite append_cons, Hb.
        -- rewrite append_cons in Hb. by injection Hb.
      * split; [done|]. intros (b & Hb). rewrite append_cons in Hb.
        by injection Hb as -> _.
Qed.

(** [includes] is the substring test. *)
Lemma includes_spec s sub : includes s sub = true ↔ ∃ a b, s = a +:+ (sub +:+ b).
Proof.
  induction s as [|c s IH]; cbn [includes]; rewrite orb_true_iff, prefix_append.
  - split.
    + intros [(b & Hb)|?]; [|done]. by exists "", b.
    + intros (a & b & Hab). left. destruct a; [by exists b|done].
  - rewrite IH. split.
    + intros [(b & Hb)|(a & b & Hab)]; [by exists "", b|].
      exists (String c a), b. by rewrite append_cons, Hab.
    + intros (a & b & Hab). destruct a as [|d a]; [left; by exists b|].
      right. rewrite append_cons in Hab. injection Hab as _ ->. by exists a, b.
Qed.

Lemma includes_empty s : includes s "" = true.
Proof. apply includes_spec. by exists "", s. Qed.

Lemma includes_trans s sub sub' :
  includes s sub = true → includes sub sub' = true → includes s sub' = true.
Proof.
  rewrite !includes_spec. intros (a & b & ->) (a' & b' & ->).
  exists (a +:+ a'), (b' +:+ b). by rewrite !append_assoc.
Qed.
End StringFacts.

(** X8. [search] returns, in their stored order, active products only: the
    ones of which the name, the code or the category, in lower case,
    contains the query in lower case as a substring.  Queries that agree
    in lower case give the same result; a query that contains another
    (in lower case) gives a sublist of the other's result; and when the
    empty query stays empty in lower case, it returns all active
    products. *)
Theorem X8_search `{Number num} (toLowerCase : string → string) (st : Store num) :
  let search := productSearch.search toLowerCase in
  let active := filter (λ p : Product num, p_isActive p) (productStorage.getAll st) in
  (∀ query, search query st `sublist_of` active)
  ∧ (∀ query p,
       p ∈ search query st
       ↔ p ∈ productStorage.getAll st ∧ p_isActive p = true
         ∧ ∃ text, text ∈ [p_name p; p_code p; p_category p]
                   ∧ ∃ a b, toLowerCase text = a +:+ (toLowerCase query +:+ b))
  ∧ (∀ q q', toLowerCase q = toLowerCase q' → search q st = search q' st)
  ∧ (∀ q q', includes (toLowerCase q') (toLowerCase q) = true →
             search q' st `sublist_of` search q st)
  ∧ (toLowerCase "" = "" → search "" st = active).
Proof.
  intros search active. subst search active. unfold productSearch.search. cbn zeta.
  split_and!.
  - intros query. apply filter_sublist_impl. intros p _.
    by intros [? _]%andb_True.
  - intros query p. rewrite list_elem_of_filter, andb_True, !orb_True, !Is_true_true.
    rewrite !includes_spec. split.
    + intros [[Hactive Hmatch] Hp]. split_and!; [done|done|].
      destruct Hmatch as [[(a & b & Hab)|(a & b & Hab)]|(a & b & Hab)].
      * exists (p_name p). split; [by left|by exists a, b].
      * exists (p_code p). split; [by right; left|by exists a, b].
      * exists (p_category p). split; [by right; right; left|by exists a, b].
    + intros (Hp & Hactive & text & Htext & a & b & Hab).
      split; [|done]. split; [done|].
      apply elem_of_cons in Htext as [->|Htext]; [left; left; by exists a, b|].
      apply elem_of_cons in Htext as [->|Htext]; [left; right; by exists a, b|].
      apply list_elem_of_singleton in Htext as ->. right. by exists a, b.
  - intros q q' Heq. by rewrite Heq.
  - intros q q' Hincl. apply filter_sublist_impl. intros p _.
    rewrite !andb_True, !orb_True, !Is_true_true.
    intros [Hactive Hmatch]. split; [done|].
    destruct Hmatch as [[Hm|Hm]|Hm]; [left; left|left; right|right];
      by eapply includes_trans.
  - intros Hempty. rewrite Hempty. apply filter_ext_in. intros p _.
    rewrite !includes_empty. simpl. by rewrite andb_true_r.
Qed.

(** ** Date ranges *)

Section StringOrder.
Implicit Types s : string.

Lemma compare_cons c1 s1 c2 s2 :
  String.compare (String c1 s1) (String c2 s2)
  = match Ascii.compare c1 c2 with
    | Eq => String.compare s1 s2
    | Lt => Lt
    | Gt => Gt
    end.
Proof. done. Qed.

Lemma leb_refl s : String.leb s s = true.
Proof.
  unfold String.leb. induction s as [|c s IH]; [done|].
  rewrite compare_cons. unfold Ascii.compare. by rewrite N.compare_refl.
Qed.

Lemma leb_trans s1 s2 s3 :
  String.leb s1 s2 = true → String.leb s2 s3 = true → String.leb s1 s3 = true.
Proof.
  unfold String.leb. revert s2 s3.
  induction s1 as [|c1 s1 IH]; intros [|c2 s2] [|c3 s3]; try done.
  rewrite !compare_cons. unfold Ascii.compare.
  destruct (N.compare_spec (N_of_ascii c1) (N_of_ascii c2)) as [H12|H12|H12];
    destruct (N.compare_spec (N_of_ascii c2) (N_of_ascii c3)) as [H23|H23|H23];
    destruct (N.compare_spec (N_of_ascii c1) (N_of_ascii c3)) as [H13|H13|H13];
    try done; try lia.
  apply IH.
Qed.
End StringOrder.

Lemma filter_none {A : Type} (P : A → Prop) `{∀ x, Decision (P x)} (l : list A) :
  (∀ x, x ∈ l → ¬ P x) → filter P l = [].
Proof.
  induction l as [|x l IH]; intros HP; [done|].
  rewrite filter_cons_False by (apply HP; by left).
  apply IH. intros y Hy. apply HP. by right.
Qed.

Lemma getByDateRange_one_day `{Number num} (d : string) (st : Store num) :
  salesStorage.getByDateRange d d st = Spec.sales_on d (salesStorage.getAll st).
Proof.
  apply filter_ext_in. intros s _.
  rewrite andb_True, !Is_true_true. split.
  - intros [Hle Hge]. by apply String.leb_antisym.
  - intros ->. by rewrite leb_refl.
Qed.

(** X9. [getByDateRange] selects, in their stored order, the sales whose
    date lies between the two bounds, both included.  A range of one day
    gives that day's sales, as [getDailySummary] selects them; a range
    whose end precedes its start gives nothing; a range within another
    gives a sublist of what the other gives; and a sale just recorded by
    [add] is in every range that contains its date. *)
Theorem X9_getByDateRange `{Number num} (st : Store num) :
  (∀ start end_, salesStorage.getByDateRange start end_ st `sublist_of` salesStorage.getAll st)
  ∧ (∀ d, salesStorage.getByDateRange d d st = Spec.sales_on d (salesStorage.getAll st))
  ∧ (∀ start end_, String.leb start end_ = false →
                   salesStorage.getByDateRange start end_ st = [])
  ∧ (∀ start end_ start' end', String.leb start' start = true → String.leb end_ end' = true →
       salesStorage.getByDateRange start end_ st
       `sublist_of` salesStorage.getByDateRange start' end' st)
  ∧ (∀ start end_ d, String.leb start d = true → String.leb d end_ = true →
       Spec.sales_on d (salesStorage.getByDateRange start end_ st)
       = Spec.sales_on d (salesStorage.getAll st))
  ∧ (∀ start end_ newId now stamps sale,
       String.leb start (split_T_0 now) = true → String.leb (split_T_0 now) end_ = true →
       (salesStorage.add newId now stamps sale st).1
       ∈ salesStorage.getByDateRange start end_ (salesStorage.add newId now stamps sale st).2).
Proof.
  unfold salesStorage.getByDateRange. cbn zeta. split_and!.
  - intros start end_. apply sublist_filter.
  - intros d. apply getByDateRange_one_day.
  - intros start end_ Hlt. apply filter_none. intros s _.
    rewrite andb_True, !Is_true_true. intros [Hle Hge].
    by rewrite (leb_trans _ _ _ Hle Hge) in Hlt.
  - intros start end_ start' end' Hstart Hend. apply filter_sublist_impl. intros s _.
    rewrite !andb_True, !Is_true_true. intros [Hle Hge].
    split; by eapply leb_trans.
  - intros start end_ d Hstart Hend. unfold Spec.sales_on.
    apply list_filter_filter_l. intros s ->.
    by rewrite andb_True, !Is_true_true.
  - intros start end_ newId now stamps sale Hstart Hend.
    rewrite add_appends. apply list_elem_of_filter. split.
    + simpl. by rewrite Hstart, Hend.
    + apply elem_of_app. right. by left.
Qed.

(** X10. [generateReport] produces no report exactly for a custom period
    with an empty bound.  The report of a single day has the four totals
    of that day's [getDailySummary], so the reports page and the dashboard
    agree on today.  A report without transactions is the report of an
    empty selection: all totals are zero, the average included, and the
    three lists are empty. *)
Theorem X10_report_totals `{Number num} (localeCompare : string → string → comparison)
    (st : Store num) :
  (∀ custom start end_,
     Reports.generateReport localeCompare custom start end_ st = None
     ↔ custom = true ∧ (start = "" ∨ end_ = ""))
  ∧ (∀ custom d,
       d ≠ "" →
       ∃ r, Reports.generateReport localeCompare custom d d st = Some r
            ∧ r_totalSales r = ds_totalSales (salesStorage.getDailySummary d st)
            ∧ r_totalTransactions r = ds_totalTransactions (salesStorage.getDailySummary d st)
            ∧ r_totalItems r = ds_totalItems (salesStorage.getDailySummary d st)
            ∧ r_averageTransaction r
              = ds_averageTransaction (salesStorage.getDailySummary d st))
  ∧ (∀ custom start end_ r,
       Reports.generateReport localeCompare custom start end_ st = Some r →
       r_totalTransactions r = length (salesStorage.getByDateRange start end_ st)
       ∧ (r_totalTransactions r = 0 →
          r = mkReportData num_zero 0 num_zero num_zero [] [] [])).
Proof.
  split_and!.
  - intros custom start end_. unfold Reports.generateReport.
    destruct custom; simpl.
    + destruct (String.eqb_spec start "") as [->|Hstart]; simpl.
      { split; [auto|done]. }
      destruct (String.eqb_spec end_ "") as [->|Hend]; simpl.
      { split; [auto|done]. }
      split; [done|]. by intros [_ [?|?]].
    + split; [done|]. by intros [? _].
  - intros custom d Hd. unfold Reports.generateReport.
    apply String.eqb_neq in Hd. rewrite Hd, andb_false_r. cbn zeta.
    rewrite getByDateRange_one_day. eexists. split; [reflexivity|]. done.
  - intros custom start end_ r. unfold Reports.generateReport.
    destruct (custom && _); [done|]. cbn zeta. intros [= <-]. split; [done|].
    cbn [r_totalTransactions]. intros Hnil%nil_length_inv. by rewrite Hnil.
Qed.

(** ** Grouping in a Map *)

(** The loops of [generateReport] that fill a [Map] all have one shape:
    the entry of the element's key is replaced by its update, or a new
    entry is appended when the key has none.  [step] is any function of
    this shape. *)
Section MapFold.
Context {K V X : Type} `{EqDecision K}.
Variables (key : X → K) (init : X → V) (upd : V → X → V).
Variable step : list (K * V) → X → list (K * V).
Hypothesis step_shape : ∀ m x,
  step m x = match Map_get (key x) m with
             | Some (i, (k, e)) => <[i := (k, upd e x)]> m
             | None => Map_set_new (key x) (init x) m
             end.

Lemma Map_get_None (k : K) (m : list (K * V)) :
  Map_get k m = None → k ∉ fst <$> m.
Proof.
  intros Hnone ([k' e] & -> & Hin)%list_elem_of_fmap.
  eapply list_find_None in Hnone. rewrite Forall_forall in Hnone.
  by apply (Hnone _ Hin).
Qed.

Lemma NoDup_fst_eq (m : list (K * V)) k e e' :
  NoDup (fst <$> m) → (k, e) ∈ m → (k, e') ∈ m → e = e'.
Proof.
  intros Hnodup (i & Hi)%list_elem_of_lookup (j & Hj)%list_elem_of_lookup.
  assert (i = j) as ->.
  { eapply NoDup_lookup; [done| |].
    - by rewrite list_lookup_fmap, Hi.
    - by rewrite list_lookup_fmap, Hj. }
  congruence.
Qed.

Lemma elem_of_insert_key (m : list (K * V)) i k e v k' e' :
  NoDup (fst <$> m) → m !! i = Some (k, e) →
  (k', e') ∈ <[i := (k, v)]> m ↔ (k' = k ∧ e' = v) ∨ (k' ≠ k ∧ (k', e') ∈ m).
Proof.
  intros Hnodup Hi. split.
  - intros (j & Hj)%list_elem_of_lookup.
    destruct (decide (i = j)) as [->|Hne].
    + rewrite list_lookup_insert_eq in Hj by (by eapply lookup_lt_Some).
      left. by simplify_eq.
    + rewrite list_lookup_insert_ne in Hj by done. right.
      split; [|by eapply list_elem_of_lookup_2]. intros ->. apply Hne.
      eapply NoDup_lookup; [done| |].
      * by rewrite list_lookup_fmap, Hi.
      * by rewrite list_lookup_fmap, Hj.
  - intros [[-> ->]|[Hne (j & Hj)%list_elem_of_lookup]].
    + apply list_elem_of_lookup. exists i.
      apply list_lookup_insert_eq. by eapply lookup_lt_Some.
    + apply list_elem_of_lookup. exists j.
      rewrite list_lookup_insert_ne; [done|]. intros ->. congruence.
Qed.

Lemma holds_nil : Map_holds key init upd [] [].
Proof.
  split; [constructor|]. intros k e. split; [by intros ?%elem_of_nil|].
  by intros (x0 & rest & ? & _).
Qed.

Lemma holds_step xs m x :
  Map_holds key init upd xs m → Map_holds key init upd (xs ++ [x]) (step m x).
Proof.
  intros [Hnodup Hm]. rewrite step_shape.
  destruct (Map_get (key x) m) as [[i [k0 e0]]|] eqn:Hget.
  - apply Map_get_lookup in Hget as [Hi Hk]. simpl in Hk. subst k0.
    assert (Hold : (key x, e0) ∈ m) by (by eapply list_elem_of_lookup_2).
    split.
    { erewrite fmap_insert_same; [done|done|done]. }
    intros k e. rewrite (elem_of_insert_key _ _ _ _ _ _ _ Hnodup Hi).
    rewrite filter_app, filter_cons, filter_nil.
    destruct (decide (key x = k)) as [<-|Hne].
    + apply Hm in Hold as (x0 & rest & Hfilter & ->). rewrite Hfilter. split.
      * intros [[_ ->]|[? _]]; [|done].
        exists x0, (rest ++ [x]). by rewrite foldl_snoc.
      * intros (x0' & rest' & [= <- <-] & ->). left. by rewrite foldl_snoc.
    + rewrite app_nil_r, <- Hm. split.
      * by intros [[-> _]|[_ ?]].
      * intros Hin. right. by split; [congruence|].
  - apply Map_get_None in Hget. unfold Map_set_new. split.
    { rewrite fmap_app. apply NoDup_app. split_and!; [done| |apply NoDup_singleton].
      by intros k Hk ->%list_elem_of_singleton. }
    intros k e. rewrite elem_of_app, list_elem_of_singleton.
    rewrite filter_app, filter_cons, filter_nil.
    destruct (decide (key x = k)) as [<-|Hne].
    + assert (Hnone : filter (λ x', key x' = key x) xs = []).
      { destruct (filter _ xs) as [|x0 rest] eqn:Hfilter; [done|].
        destruct Hget. apply list_elem_of_fmap.
        exists (key x, foldl upd (init x0) rest). split; [done|].
        apply Hm. by exists x0, rest. }
      rewrite Hnone. split.
      * intros [Hin|[= ->]]; [|by exists x, []].
        destruct Hget. apply list_elem_of_fmap. by exists (key x, e).
      * intros (x0 & rest & [= <- <-] & ->). by right.
    + rewrite app_nil_r, <- Hm. split; [|by left].
      intros [?|[= ? _]]; [done|congruence].
Qed.

Lemma holds_foldl xs : Map_holds key init upd xs (foldl step [] xs).
Proof.
  induction xs as [|x xs IH] using rev_ind; [apply holds_nil|].
  rewrite foldl_snoc. by apply holds_step.
Qed.

(** Every key that occurs has an entry. *)
Lemma holds_key xs m x : Map_holds key init upd xs m → x ∈ xs → key x ∈ fst <$> m.
Proof.
  intros [_ Hm] Hx.
  destruct (filter (λ x', key x' = key x) xs) as [|x0 rest] eqn:Hfilter.
  - exfalso. by eapply (filter_nil_not_elem_of _ _ x); [exact Hfilter| |].
  - apply list_elem_of_fmap. exists (key x, foldl upd (init x0) rest).
    split; [done|]. apply Hm. by exists x0, rest.
Qed.

(** The updates of one entry are as many as the elements of its key. *)
Lemma holds_count (c : V → nat) xs m k e :
  (∀ x, c (init x) = 1) → (∀ v x, c (upd v x) = c v + 1) →
  Map_holds key init upd xs m → (k, e) ∈ m → c e = length (filter (λ x, key x = k) xs).
Proof.
  intros Hinit Hupd [_ Hm] (x0 & rest & -> & ->)%Hm. simpl.
  induction rest as [|x rest IH] using rev_ind; [apply Hinit|].
  rewrite foldl_snoc, Hupd, IH, length_app. simpl. lia.
Qed.

(** Every element adds one update, whatever its key. *)
Lemma fold_count (c : V → nat) xs m :
  (∀ x, c (init x) = 1) → (∀ v x, c (upd v x) = c v + 1) →
  sum_list ((c ∘ snd) <$> foldl step m xs) = sum_list ((c ∘ snd) <$> m) + length xs.
Proof.
  intros Hinit Hupd. revert m. induction xs as [|x xs IH]; intros m; simpl; [lia|].
  rewrite IH, step_shape. destruct (Map_get (key x) m) as [[i [k e]]|] eqn:Hget.
  - apply Map_get_lookup in Hget as [Hi _].
    erewrite sum_list_insert; [lia|done|]. simpl. apply Hupd.
  - unfold Map_set_new. rewrite fmap_app, sum_list_with_app. simpl.
    rewrite Hinit. lia.
Qed.
End MapFold.

(** ** Payment methods *)

Section PaymentRows.
Context `{Number num}.

Lemma paymentData_holds (sales : list (Sale num)) :
  Map_holds s_paymentMethod
    (λ sale, mkPaymentAcc 1 (s_total sale))
    (λ e sale, mkPaymentAcc (pm_count e + 1) (pm_total e + s_total sale)%num)
    sales (foldl Reports.paymentData_sale [] sales).
Proof. by apply holds_foldl. Qed.

Lemma paymentData_total (s0 : Sale num) (rest : list (Sale num)) :
  pm_total (foldl (λ e sale, mkPaymentAcc (pm_count e + 1) (pm_total e + s_total sale)%num)
                  (mkPaymentAcc 1 (s_total s0)) rest)
  = Spec.num_sum1 (s_total <$> s0 :: rest).
Proof.
  induction rest as [|s rest IH] using rev_ind; [done|].
  rewrite foldl_snoc. cbn [pm_total]. rewrite IH.
  unfold Spec.num_sum1. by rewrite !fmap_cons, fmap_app, foldl_app.
Qed.

Lemma PaymentMethod_few (l : list PaymentMethod) : NoDup l → length l ≤ 3.
Proof.
  intros Hnodup. change 3 with (length [cash; card; other]).
  apply submseteq_length, NoDup_submseteq; [done|].
  intros [] _; repeat constructor.
Qed.
End PaymentRows.

(** X11. The payment-method rows of a report are one row for each payment
    method that occurs among the sales, at most three, none twice.  The
    count of a row is the number of sales paid by its method, and is not
    zero; its total is the sum of their totals, added in their order
    starting from the first.  The counts of all rows sum to the number of
    sales, which in a report is [totalTransactions]. *)
Theorem X11_paymentMethods `{Number num} (localeCompare : string → string → comparison)
    (sales : list (Sale num)) :
  let rows := Reports.paymentMethods_of sales in
  NoDup (pr_method <$> rows)
  ∧ length rows ≤ 3
  ∧ (∀ method, method ∈ pr_method <$> rows ↔ method ∈ s_paymentMethod <$> sales)
  ∧ (∀ row, row ∈ rows →
       let paid := filter (λ sale, s_paymentMethod sale = pr_method row) sales in
       pr_count row = length paid ∧ 0 < pr_count row
       ∧ pr_total row = Spec.num_sum1 (s_total <$> paid))
  ∧ sum_list (pr_count <$> rows) = length sales
  ∧ (∀ custom start end_ (st : Store num),
       match Reports.generateReport localeCompare custom start end_ st with
       | Some r =>
           r_paymentMethods r
           = Reports.paymentMethods_of (salesStorage.getByDateRange start end_ st)
           ∧ sum_list (pr_count <$> r_paymentMethods r) = r_totalTransactions r
       | None => True
       end).
Proof.
  intros rows. subst rows. unfold Reports.paymentMethods_of.
  pose proof (paymentData_holds sales) as [Hnodup Hm].
  set (m := foldl Reports.paymentData_sale [] sales) in *.
  set (row_of := λ '(method, data), mkPaymentRow method (pm_count data) (pm_total data)).
  assert (Hmethods : pr_method <$> (row_of <$> m) = fst <$> m).
  { rewrite <- list_fmap_compose. apply list_fmap_ext. by intros ? [??]. }
  assert (Hcounts : ∀ sales' : list (Sale num),
    sum_list (pr_count <$> (row_of <$> foldl Reports.paymentData_sale [] sales'))
    = length sales').
  { intros sales'. rewrite <- list_fmap_compose.
    erewrite (list_fmap_ext _ (pm_count ∘ snd)); [|by intros ? [??]].
    by erewrite (fold_count s_paymentMethod _ _ Reports.paymentData_sale). }
  assert (Hrows : ∀ row, row ∈ row_of <$> m →
    ∃ x0 rest, filter (λ sale, s_paymentMethod sale = pr_method row) sales = x0 :: rest
               ∧ pr_count row = length (x0 :: rest)
               ∧ pr_total row = Spec.num_sum1 (s_total <$> x0 :: rest)).
  { intros row ([method e] & -> & Hin)%list_elem_of_fmap.
    unfold row_of. cbn [pr_method pr_count pr_total].
    pose proof Hin as (x0 & rest & Hfilter & ->)%Hm.
    exists x0, rest. split_and!; [done| |apply paymentData_total].
    rewrite <- Hfilter.
    eapply (holds_count s_paymentMethod _ _ pm_count); cycle 2;
      [apply (paymentData_holds sales)|exact Hin|done|done]. }
  split_and!.
  - by rewrite Hmethods.
  - rewrite <- (length_fmap pr_method), Hmethods. by apply PaymentMethod_few.
  - intros method. rewrite Hmethods. split.
    + intros ([k e] & -> & Hin)%list_elem_of_fmap.
      apply Hm in Hin as (x0 & rest & Hfilter & _). simpl.
      assert (x0 ∈ filter (λ x, s_paymentMethod x = k) sales) as [<- ?]%list_elem_of_filter
        by (rewrite Hfilter; by left).
      by apply list_elem_of_fmap_2.
    + intros (sale & -> & Hin)%list_elem_of_fmap.
      eapply (holds_key s_paymentMethod); [apply (paymentData_holds sales)|done].
  - intros row (x0 & rest & Hfilter & Hcount & Htotal)%Hrows. cbn zeta.
    rewrite Hfilter. split_and!; [done| |done]. rewrite Hcount. simpl. lia.
  - apply Hcounts.
  - intros custom start end_ st. unfold Reports.generateReport.
    destruct (custom && _); [done|]. cbn zeta. cbn [r_paymentMethods r_totalTransactions].
    split; [done|]. apply Hcounts.
Qed.

(** ** The rows of the daily breakdown *)

Section DailyRows.
Context `{Number num}.

Lemma dailyData_holds (sales : list (Sale num)) :
  Map_holds s_date
    (λ sale, mkDailyAcc (s_total sale) 1 (Reports.itemCount sale))
    (λ e sale, mkDailyAcc (da_sales e + s_total sale)%num (da_transactions e + 1)
                          (da_items e + Reports.itemCount sale)%num)
    sales (foldl Reports.dailyData_sale [] sales).
Proof. by apply holds_foldl. Qed.

Lemma dailyData_totals (s0 : Sale num) (rest : list (Sale num)) :
  let e := foldl (λ e sale, mkDailyAcc (da_sales e + s_total sale)%num
                                       (da_transactions e + 1)
                                       (da_items e + Reports.itemCount sale)%num)
                 (mkDailyAcc (s_total s0) 1 (Reports.itemCount s0)) rest in
  da_sales e = Spec.num_sum1 (s_total <$> s0 :: rest)
  ∧ da_transactions e = length (s0 :: rest)
  ∧ da_items e = Spec.num_sum1 (Reports.itemCount <$> s0 :: rest).
Proof.
  induction rest as [|s rest IH] using rev_ind; [done|].
  cbn zeta in *. rewrite foldl_snoc. cbn [da_sales da_transactions da_items].
  destruct IH as (-> & -> & ->).
  unfold Spec.num_sum1. rewrite !fmap_cons, !fmap_app, !foldl_app.
  split_and!; [done| |done]. simpl. rewrite length_app. simpl. lia.
Qed.

Lemma sales_on_getByDateRange (start end_ d : string) (st : Store num) :
  String.leb start d = true → String.leb d end_ = true →
  Spec.sales_on d (salesStorage.getByDateRange start end_ st)
  = Spec.sales_on d (salesStorage.getAll st).
Proof.
  intros Hstart Hend. apply list_filter_filter_l. intros s ->.
  by rewrite andb_True, !Is_true_true.
Qed.
End DailyRows.

(** X12. The daily breakdown has one row for each date that occurs among
    the sales, none twice.  The row of a date counts the sales of that
    date and sums their totals and their item counts, added in their
    order starting from the first.  In a report every row's date lies in
    the requested range, and its transactions are those that
    [getDailySummary] gives for that date. *)
Theorem X12_daily_rows `{Number num} (localeCompare : string → string → comparison)
    (sales : list (Sale num)) :
  let rows := Reports.dailyBreakdown_of localeCompare sales in
  NoDup (dr_date <$> rows)
  ∧ (∀ date, date ∈ dr_date <$> rows ↔ date ∈ s_date <$> sales)
  ∧ (∀ row, row ∈ rows →
       let day := Spec.sales_on (dr_date row) sales in
       dr_transactions row = length day ∧ 0 < dr_transactions row
       ∧ dr_sales row = Spec.num_sum1 (s_total <$> day)
       ∧ dr_items row = Spec.num_sum1 (Reports.itemCount <$> day))
  ∧ (∀ custom start end_ (st : Store num),
       match Reports.generateReport localeCompare custom start end_ st with
       | Some r =>
           ∀ row, row ∈ r_dailyBreakdown r →
                  String.leb start (dr_date row) = true
                  ∧ String.leb (dr_date row) end_ = true
                  ∧ dr_transactions row
                    = ds_totalTransactions (salesStorage.getDailySummary (dr_date row) st)
       | None => True
       end).
Proof.
  set (row_of := λ '(date, data),
         mkDailyRow (num := num) date (da_sales data) (da_transactions data)
                    (da_items data)).
  assert (Hdates : ∀ m : list (string * DailyAcc num), dr_date <$> (row_of <$> m) = fst <$> m).
  { intros m. rewrite <- list_fmap_compose. apply list_fmap_ext. by intros ? [??]. }
  assert (Hrows : ∀ (sales' : list (Sale num)) row,
    row ∈ Reports.dailyBreakdown_of localeCompare sales' →
    ∃ s0 rest, Spec.sales_on (dr_date row) sales' = s0 :: rest
               ∧ dr_sales row = Spec.num_sum1 (s_total <$> s0 :: rest)
               ∧ dr_transactions row = length (s0 :: rest)
               ∧ dr_items row = Spec.num_sum1 (Reports.itemCount <$> s0 :: rest)).
  { intros sales' row. rewrite dailyBreakdown_perm.
    intros ([date e] & -> & Hin)%list_elem_of_fmap.
    apply (dailyData_holds sales') in Hin as (s0 & rest & Hfilter & ->).
    exists s0, rest. split; [done|]. apply dailyData_totals. }
  intros rows. subst rows. split_and!.
  - rewrite dailyBreakdown_perm. fold row_of. rewrite Hdates.
    apply (dailyData_holds sales).
  - intros date. rewrite dailyBreakdown_perm. fold row_of. rewrite Hdates. split.
    + intros ([k e] & -> & Hin)%list_elem_of_fmap.
      apply (dailyData_holds sales) in Hin as (s0 & rest & Hfilter & _). simpl.
      assert (s0 ∈ filter (λ x, s_date x = k) sales) as [<- ?]%list_elem_of_filter
        by (rewrite Hfilter; by left).
      by apply list_elem_of_fmap_2.
    + intros (sale & -> & Hin)%list_elem_of_fmap.
      eapply (holds_key s_date); [apply (dailyData_holds sales)|done].
  - intros row (s0 & rest & Hday & Hsales & Htransactions & Hitems)%Hrows. cbn zeta.
    rewrite Hday. split_and!; [done| |done|done]. rewrite Htransactions. simpl. lia.
  - intros custom start end_ st. unfold Reports.generateReport.
    destruct (custom && _); [done|]. cbn zeta. cbn [r_dailyBreakdown].
    intros row (s0 & rest & Hday & _ & Htransactions & _)%Hrows.
    assert (s0 ∈ Spec.sales_on (dr_date row) (salesStorage.getByDateRange start end_ st))
      as [Hdate [[Hstart Hend]%andb_True ?]%list_elem_of_filter]%list_elem_of_filter
      by (rewrite Hday; by left).
    rewrite Hdate in Hstart, Hend. apply Is_true_true in Hstart, Hend.
    split_and!; [done|done|].
    rewrite Htransactions, <- Hday, sales_on_getByDateRange by done. done.
Qed.

(** ** What recording a sale changes *)

Section SaleEffectsFacts.
Context `{Number num}.
Implicit Type st : Store num.

Lemma same_but_stock_refl (p : Product num) : same_but_stock p p.
Proof. by repeat split. Qed.

Lemma same_but_stock_trans (p q r : Product num) :
  same_but_stock p q → same_but_stock q r → same_but_stock p r.
Proof. unfold same_but_stock. intros ??. split_and!; destruct_and!; congruence. Qed.

Lemma updateStock_same_but_stock st id quantity operation now :
  Forall2 (λ p p', same_but_stock p p' ∧ (p_id p ≠ id → p' = p))
          (productStorage.getAll st)
          (productStorage.getAll (productStorage.updateStock id quantity operation now st).2).
Proof.
  assert (Hrefl : Forall2 (λ p p' : Product num, same_but_stock p p' ∧ (p_id p ≠ id → p' = p))
                          (productStorage.getAll st) (productStorage.getAll st)).
  { apply Forall_Forall2_diag, Forall_forall. intros p _.
    split; [apply same_but_stock_refl|done]. }
  unfold productStorage.updateStock.
  destruct (list_find _ _) as [[i p]|] eqn:Hfind; [|done].
  destruct (_ <? _)%num; [done|]. cbn [snd]. rewrite getAll_save.
  apply list_find_found in Hfind as (Hi & Hid & _).
  match goal with
  | |- Forall2 _ _ (<[_ := ?y]> _) =>
      pose proof (Forall2_insert _ _ _ p y i Hrefl) as Hinsert
  end.
  rewrite (list_insert_id _ i p) in Hinsert by done.
  apply Hinsert. split; [by repeat split|done].
Qed.

Lemma updateStocks_same_but_stock stamps k (items : list (CartItem num)) st :
  Forall2 (λ p p', same_but_stock p p' ∧ (p_id p ∉ ci_productId <$> items → p' = p))
          (productStorage.getAll st)
          (productStorage.getAll (salesStorage.updateStocks stamps k items st)).
Proof.
  revert k st. induction items as [|item items IH]; intros k st.
  - apply Forall_Forall2_diag, Forall_forall. intros p _.
    split; [apply same_but_stock_refl|done].
  - cbn [salesStorage.updateStocks].
    eapply Forall2_trans; [|apply updateStock_same_but_stock|apply IH].
    intros p q r [Hpq Hq] [Hqr Hr]. split; [by eapply same_but_stock_trans|].
    rewrite fmap_cons, not_elem_of_cons. intros [Hne Hnotin].
    pose proof (Hq Hne) as ->. by apply Hr.
Qed.

Lemma updateStocks_preserves stamps k (items : list (CartItem num)) st :
  Forall (λ p, ¬ Spec.negative_stock p) (productStorage.getAll st) →
  Forall (λ p, ¬ Spec.negative_stock p)
         (productStorage.getAll (salesStorage.updateStocks stamps k items st)).
Proof.
  revert k st. induction items as [|item items IH]; intros k st Hall; [done|].
  cbn [salesStorage.updateStocks]. by apply IH, updateStock_preserves.
Qed.

Lemma updateStock_others st id quantity operation now :
  let st' := (productStorage.updateStock id quantity operation now st).2 in
  pos_users st' = pos_users st ∧ pos_sales st' = pos_sales st
  ∧ pos_settings st' = pos_settings st ∧ pos_current_user st' = pos_current_user st.
Proof.
  unfold productStorage.updateStock.
  destruct (list_find _ _) as [[i p]|]; [|done]. by destruct (_ <? _)%num.
Qed.

Lemma updateStocks_others stamps k (items : list (CartItem num)) st :
  let st' := salesStorage.updateStocks stamps k items st in
  pos_users st' = pos_users st ∧ pos_sales st' = pos_sales st
  ∧ pos_settings st' = pos_settings st ∧ pos_current_user st' = pos_current_user st.
Proof.
  revert k st. induction items as [|item items IH]; intros k st; [done|].
  cbn [salesStorage.updateStocks]. cbn zeta.
  destruct (IH (S k) (productStorage.updateStock (ci_productId item) (ci_quantity item)
                        op_subtract (stamps k) st).2) as (-> & -> & -> & ->).
  apply updateStock_others.
Qed.
End SaleEffectsFacts.

(** X13. Recording a sale changes of the products only stocks and update
    times: the stored products stay the same in number, order and
    identifiers, keep every other field, and a product that is not in the
    sale stays exactly as it was.  No stock below zero is introduced.
    The users, the settings and the session are untouched.  The recorded
    sale carries the given identifier and time, the date part of that
    time, and the items and total of the draft. *)
Theorem X13_sale_changes_stock_only `{Number num} (newId now : string)
    (stamps : nat → string) (sale : NewSale num) (st : Store num) :
  let r := salesStorage.add newId now stamps sale st in
  Forall2 (λ p p', same_but_stock p p'
                   ∧ (p_id p ∉ ci_productId <$> ns_items sale → p' = p))
          (productStorage.getAll st) (productStorage.getAll r.2)
  ∧ p_id <$> productStorage.getAll r.2 = p_id <$> productStorage.getAll st
  ∧ (ns_items sale = [] → productStorage.getAll r.2 = productStorage.getAll st)
  ∧ (Forall (λ p, ¬ Spec.negative_stock p) (productStorage.getAll st) →
     Forall (λ p, ¬ Spec.negative_stock p) (productStorage.getAll r.2))
  ∧ (userStorage.getAll r.2 = userStorage.getAll st
     ∧ settingsStorage.get r.2 = settingsStorage.get st
     ∧ authStorage.getCurrentUser r.2 = authStorage.getCurrentUser st)
  ∧ (s_id r.1 = newId ∧ s_timestamp r.1 = now ∧ s_date r.1 = split_T_0 now
     ∧ s_items r.1 = ns_items sale ∧ s_total r.1 = ns_total sale).
Proof.
  intros r. subst r. unfold salesStorage.add. cbn zeta. cbn [fst snd].
  change (productStorage.getAll (salesStorage.save ?l ?s)) with (productStorage.getAll s).
  pose proof (updateStocks_same_but_stock stamps 0 (ns_items sale) st) as Hsame.
  destruct (updateStocks_others stamps 0 (ns_items sale) st) as (Husers & _ & Hsettings & Hsession).
  split_and!.
  - done.
  - symmetry. apply list_eq_Forall2, Forall2_fmap.
    eapply Forall2_impl; [exact Hsame|]. by intros p p' [(-> & _) _].
  - intros Hnil. rewrite Hnil. done.
  - apply updateStocks_preserves.
  - unfold userStorage.getAll. simpl. by rewrite Husers.
  - unfold settingsStorage.get. simpl. by rewrite Hsettings.
  - unfold authStorage.getCurrentUser. simpl. by rewrite Hsession.
  - done.
  - done.
  - done.
  - done.
  - done.
Qed.

(** ** The day of a sale *)

Section DayOfSale.
Implicit Types s d rest : string.

Lemma split_T_0_cons c s :
  split_T_0 (String c s)
  = if Ascii.eqb c "T" then EmptyString else String c (split_T_0 s).
Proof. done. Qed.

Lemma split_T_0_prefix s : ∃ rest, s = split_T_0 s +:+ rest.
Proof.
  induction s as [|c s [rest IH]]; [by exists ""|].
  rewrite split_T_0_cons. destruct (Ascii.eqb c "T"); [by eexists|].
  exists rest. by rewrite append_cons, <- IH.
Qed.

Lemma split_T_0_idemp s : split_T_0 (split_T_0 s) = split_T_0 s.
Proof.
  induction s as [|c s IH]; [done|].
  rewrite split_T_0_cons. destruct (Ascii.eqb c "T") eqn:Hc; [done|].
  by rewrite split_T_0_cons, Hc, IH.
Qed.

Lemma split_T_0_append d rest :
  split_T_0 d = d → split_T_0 (d +:+ String "T" rest) = d.
Proof.
  induction d as [|c d IH]; [done|].
  rewrite append_cons, !split_T_0_cons. destruct (Ascii.eqb c "T"); [done|].
  intros [= Hd]. by rewrite IH.
Qed.
End DayOfSale.

(** X14. A sale recorded at time [now] counts for the day that is the
    text of [now] before its first ['T'] (for an ISO time
    [d ++ "T" ++ rest], the date [d]).  Recording it raises that day's
    [getDailySummary] by one transaction, by the sale's total and by its
    number of items, each added after what was there, and leaves the
    summary of every other day as it was. *)
Theorem X14_sale_counts_for_its_day `{Number num} (newId now : string)
    (stamps : nat → string) (sale : NewSale num) (st : Store num) :
  let r := salesStorage.add newId now stamps sale st in
  let before := salesStorage.getDailySummary (split_T_0 now) st in
  let after := salesStorage.getDailySummary (split_T_0 now) r.2 in
  (ds_totalTransactions after = S (ds_totalTransactions before)
   ∧ ds_totalSales after = (ds_totalSales before + ns_total sale)%num
   ∧ ds_totalItems after
     = (ds_totalItems before
        + foldl (λ itemSum item, itemSum + ci_quantity item) num_zero (ns_items sale))%num
   ∧ ds_averageTransaction after
     = (ds_totalSales after / num_of_nat (ds_totalTransactions after))%num)
  ∧ (∀ d, d ≠ split_T_0 now →
          salesStorage.getDailySummary d r.2 = salesStorage.getDailySummary d st)
  ∧ (∀ d rest, split_T_0 d = d → split_T_0 (d +:+ String "T" rest) = d)
  ∧ ((∃ rest, now = split_T_0 now +:+ rest)
     ∧ split_T_0 (split_T_0 now) = split_T_0 now).
Proof.
  intros r before after. subst r before after.
  unfold salesStorage.getDailySummary. rewrite add_appends, !filter_app.
  cbn [fst salesStorage.add]. split_and!.
  - cbn [ds_totalTransactions]. rewrite filter_cons_True by done.
    rewrite length_app. simpl. lia.
  - cbn [ds_totalSales]. rewrite filter_cons_True by done.
    by rewrite filter_nil, foldl_snoc.
  - cbn [ds_totalItems]. rewrite filter_cons_True by done.
    by rewrite filter_nil, foldl_snoc.
  - cbn [ds_averageTransaction ds_totalSales ds_totalTransactions].
    rewrite filter_cons_True by done. rewrite filter_nil.
    rewrite decide_True; [done|]. rewrite length_app. simpl. lia.
  - intros d Hd. rewrite filter_app, filter_cons_False by (simpl; congruence).
    by rewrite filter_nil, app_nil_r.
  - apply split_T_0_append.
  - apply split_T_0_prefix.
  - apply split_T_0_idemp.
Qed.

(** ** Settings, saved and read back *)

Lemma or_else_or_else (a : option JValue) (b : JValue) :
  (if truthy (or_else a b) then or_else a b else b) = or_else a b.
Proof.
  destruct a as [v|]; simpl; [destruct (truthy v) eqn:Hv; simpl|].
  - by rewrite Hv.
  - by destruct (truthy b).
  - by destruct (truthy b).
Qed.


(** ** Restoring, then backing up *)


(** ** Printing a receipt *)

Section MapInvariance.
Context {A B : Type} (f : A → A).

Lemma filter_fmap_same (P : A → Prop) `{∀ x, Decision (P x)} (l : list A) :
  (∀ x, P (f x) ↔ P x) → filter P (f <$> l) = f <$> filter P l.
Proof.
  intros HP. induction l as [|x l IH]; [done|].
  rewrite fmap_cons, !filter_cons, IH. destruct (decide (P x)) as [Hx|Hx].
  - by rewrite decide_True by (by apply HP).
  - rewrite decide_False; [done|]. by rewrite HP.
Qed.

Lemma foldl_fmap_same (g : B → A → B) (b : B) (l : list A) :
  (∀ b x, g b (f x) = g b x) → foldl g b (f <$> l) = foldl g b l.
Proof.
  intros Hg. revert b. induction l as [|x l IH]; intros b; [done|].
  simpl. by rewrite Hg, IH.
Qed.
End MapInvariance.


(** ** The products page *)

Section UpdateFacts.
Context `{Number num}.
Implicit Type st : Store num.

(** [update] replaces one record by its merge with the patch and leaves
    the others. *)
Lemma productStorage_update_pointwise st id updates now :
  Forall2 (λ p p', p' = p ∨ (p_id p = id ∧ p' = productStorage.merge p updates now))
          (productStorage.getAll st)
          (productStorage.getAll (productStorage.update id updates now st).2).
Proof.
  assert (Hrefl : Forall2 (λ p p' : Product num,
                             p' = p ∨ (p_id p = id ∧ p' = productStorage.merge p updates now))
                          (productStorage.getAll st) (productStorage.getAll st)).
  { apply Forall_Forall2_diag, Forall_forall. intros p _. by left. }
  unfold productStorage.update.
  destruct (list_find _ _) as [[i p]|] eqn:Hfind; [|done].
  cbn [snd]. rewrite getAll_save.
  apply list_find_found in Hfind as (Hi & Hid & _).
  pose proof (Forall2_insert _ _ _ p (productStorage.merge p updates now) i Hrefl) as Hinsert.
  rewrite (list_insert_id _ i p) in Hinsert by done.
  apply Hinsert. by right.
Qed.

Lemma userStorage_update_pointwise st id updates :
  Forall2 (λ u u', u' = u ∨ (u_id u = id ∧ u' = userStorage.merge u updates))
          (userStorage.getAll st)
          (userStorage.getAll (userStorage.update id updates st).2).
Proof.
  assert (Hrefl : Forall2 (λ u u' : User,
                             u' = u ∨ (u_id u = id ∧ u' = userStorage.merge u updates))
                          (userStorage.getAll st) (userStorage.getAll st)).
  { apply Forall_Forall2_diag, Forall_forall. intros u _. by left. }
  unfold userStorage.update.
  destruct (list_find _ _) as [[i u]|] eqn:Hfind; [|done].
  cbn [snd].
  change (userStorage.getAll (userStorage.save ?l st)) with l.
  apply list_find_found in Hfind as (Hi & Hid & _).
  pose proof (Forall2_insert _ _ _ u (userStorage.merge u updates) i Hrefl) as Hinsert.
  rewrite (list_insert_id _ i u) in Hinsert by done.
  apply Hinsert. by right.
Qed.

Lemma productStorage_update_others st id updates now :
  let st' := (productStorage.update id updates now st).2 in
  pos_users st' = pos_users st ∧ pos_sales st' = pos_sales st
  ∧ pos_settings st' = pos_settings st ∧ pos_current_user st' = pos_current_user st.
Proof. unfold productStorage.update. by destruct (list_find _ _) as [[i p]|]. Qed.
End UpdateFacts.


(** ** The users page *)

(** X19. On the users page the delete and the status buttons do nothing
    when pressed on the logged-in user's own row.  Pressed on another
    row they never remove or change a record that has the logged-in
    user's identifier, so a logged-in user who is stored and active can
    still log in afterwards.  Without confirmation nothing is deleted;
    with no one logged in there is no guard.  Neither button touches
    products, sales, settings or the session. *)
Theorem X19_own_account_guard {num : Type} (c user : User) (confirmed : bool)
    (st : Store num) :
  let del := UsersPage.handleDeleteUser (Some c) confirmed user st in
  let tog := UsersPage.toggleUserStatus (Some c) user st in
  (u_id user = u_id c → del = st ∧ tog = st)
  ∧ (∀ u, u ∈ userStorage.getAll st → u_id u = u_id c →
          u ∈ userStorage.getAll del ∧ u ∈ userStorage.getAll tog)
  ∧ (c ∈ userStorage.getAll st → u_isActive c = true →
     is_Some (userStorage.findByCredentials (u_username c) (u_password c) del)
     ∧ is_Some (userStorage.findByCredentials (u_username c) (u_password c) tog))
  ∧ (UsersPage.handleDeleteUser (Some c) false user st = st
     ∧ UsersPage.handleDeleteUser None false user st = st
     ∧ ∀ u, u ∈ userStorage.getAll (UsersPage.handleDeleteUser None true user st) →
            u_id u ≠ u_id user)
  ∧ (∀ st', st' ∈ [del; tog] →
            pos_products st' = pos_products st ∧ pos_sales st' = pos_sales st
            ∧ pos_settings st' = pos_settings st
            ∧ pos_current_user st' = pos_current_user st).
Proof.
  intros del tog.
  assert (Hkept : ∀ u, u ∈ userStorage.getAll st → u_id u = u_id c →
                       u ∈ userStorage.getAll del ∧ u ∈ userStorage.getAll tog).
  { intros u Hu Hid. subst del tog.
    unfold UsersPage.handleDeleteUser, UsersPage.toggleUserStatus. simpl.
    case_decide as Hown; [done|].
    assert (Hne : u_id u ≠ u_id user) by (intros Heq; apply Hown; congruence).
    split.
    - destruct confirmed; [|done]. unfold userStorage.delete.
      case_decide; [done|]. simpl. by apply list_elem_of_filter.
    - apply list_elem_of_lookup in Hu as [i Hi].
      destruct (Forall2_lookup_l _ _ _ _ _
                  (userStorage_update_pointwise st (u_id user)
                     (mkUserPatch None None None None None (Some (negb (u_isActive user)))))
                  Hi) as (u' & Hu' & [->|[? _]]); [|done].
      by eapply list_elem_of_lookup_2. }
  split_and!.
  - intros Hid. subst del tog.
    unfold UsersPage.handleDeleteUser, UsersPage.toggleUserStatus. simpl.
    by rewrite !decide_True by congruence.
  - exact Hkept.
  - intros Hc Hactive. destruct (Hkept c Hc eq_refl) as [Hdel Htog].
    unfold userStorage.findByCredentials.
    split; apply fmap_is_Some, list_find_is_Some; exists c;
      (split; [done|]); by rewrite Hactive.
  - unfold UsersPage.handleDeleteUser. simpl. by case_decide.
  - done.
  - intros u. unfold UsersPage.handleDeleteUser.
    rewrite decide_False by done. unfold userStorage.delete.
    case_decide as Hlen; simpl.
    + apply filter_length_eq in Hlen. rewrite <- Hlen.
      by intros [? _]%list_elem_of_filter.
    + by intros [? _]%list_elem_of_filter.
  - intros st' Hst'. subst del tog.
    unfold UsersPage.handleDeleteUser, UsersPage.toggleUserStatus in Hst'. simpl in Hst'.
    case_decide.
    + apply elem_of_cons in Hst' as [->|Hst']; [done|].
      by apply list_elem_of_singleton in Hst' as ->.
    + apply elem_of_cons in Hst' as [->|Hst'].
      * destruct confirmed; [|done]. unfold userStorage.delete. by case_decide.
      * apply list_elem_of_singleton in Hst' as ->.
        unfold userStorage.update. by destruct (list_find _ _) as [[??]|].
Qed.

Section UniqueNames.
Context {A : Type}.

Lemma NoDup_insert_fresh (l : list A) i x y :
  NoDup l → l !! i = Some y → x ∉ l → NoDup (<[i := x]> l).
Proof.
  intros Hnodup Hi Hx.
  rewrite insert_take_drop by (by eapply lookup_lt_Some).
  rewrite <- (take_drop_middle l i y Hi) in Hnodup, Hx.
  apply NoDup_app in Hnodup as (Htake & Hdisjoint & [_ Hdrop]%NoDup_cons).
  apply not_elem_of_app in Hx as [Hx1 [_ Hx2]%not_elem_of_cons].
  apply NoDup_app. split_and!; [done| |by apply NoDup_cons].
  intros z Hz [->|Hz']%elem_of_cons; [done|].
  apply (Hdisjoint z Hz). by right.
Qed.

Lemma NoDup_fmap_unique {B : Type} (f : A → B) (l : list A) x y :
  NoDup (f <$> l) → x ∈ l → y ∈ l → f x = f y → x = y.
Proof.
  intros Hnodup (i & Hi)%list_elem_of_lookup (j & Hj)%list_elem_of_lookup Hf.
  assert (i = j) as ->; [|congruence].
  eapply NoDup_lookup; [done| |].
  - by rewrite list_lookup_fmap, Hi.
  - by rewrite list_lookup_fmap, Hj, Hf.
Qed.
End UniqueNames.

(** X20. Submitting the user form keeps user names unique, provided the
    page's copy of the user list is the stored one, identifiers are
    unique and the edited user is a stored one.  A form without user
    name, a new user without password, and a password that differs from
    its confirmation change nothing; nor does a new user whose name is
    taken.  An accepted new user is appended with the form's fields; an
    accepted edit rewrites the edited user's record with the form's name,
    role and status, and with the form's password unless that is empty.
    Products, sales, settings and the session are never touched. *)
Theorem X20_usernames_stay_unique {num : Type} (newId now : string) (formData : UserForm)
    (editingUser : option User) (st : Store num) :
  let users := userStorage.getAll st in
  let st' := UsersPage.handleSubmit newId now formData editingUser users st in
  (NoDup (u_username <$> users) → NoDup (u_id <$> users) →
   (∀ e, editingUser = Some e → e ∈ users) →
   NoDup (u_username <$> userStorage.getAll st'))
  ∧ (f_username formData = ""
     ∨ (editingUser = None ∧ f_password formData = "")
     ∨ (f_password formData ≠ "" ∧ f_password formData ≠ f_confirmPassword formData)
     ∨ (editingUser = None ∧ f_username formData ∈ u_username <$> users) →
     st' = st)
  ∧ (editingUser = None → f_username formData ≠ "" → f_password formData ≠ "" →
     f_password formData = f_confirmPassword formData →
     f_username formData ∉ u_username <$> users →
     userStorage.getAll st'
     = users ++ [mkUser newId (f_username formData) (f_password formData)
                        (f_role formData) now (f_isActive formData)])
  ∧ (∀ e i, editingUser = Some e →
            list_find (λ u, u_id u = u_id e) users = Some (i, e) →
            f_username formData ≠ "" →
            f_password formData = "" ∨ f_password formData = f_confirmPassword formData →
            (u_username e = f_username formData
             ∨ ∀ u, u ∈ users → u_username u = f_username formData → u_id u = u_id e) →
            userStorage.getAll st'
            = <[i := mkUser (u_id e) (f_username formData)
                            (if decide (f_password formData = "") then u_password e
                             else f_password formData)
                            (f_role formData) (u_createdAt e) (f_isActive formData)]> users)
  ∧ (pos_products st' = pos_products st ∧ pos_sales st' = pos_sales st
     ∧ pos_settings st' = pos_settings st ∧ pos_current_user st' = pos_current_user st).
Proof.
  intros users st'. subst st'. unfold UsersPage.handleSubmit.
  set (userData := mkUserPatch None (Some (f_username formData)) _ (Some (f_role formData))
                               None (Some (f_isActive formData))).
  set (taken := λ e : User, u_username e ≠ f_username formData
                 ∧ is_Some (list_find (λ u, u_username u = f_username formData
                                            ∧ u_id u ≠ u_id e) users)).
  split_and!.
  - intros Hnames Hids Hediting.
    case_decide; [done|]. case_decide; [done|]. case_decide; [done|].
    destruct editingUser as [e|].
    + case_decide as Htaken; [done|].
      unfold userStorage.update. fold users.
      destruct (list_find (λ u, u_id u = u_id e) users) as [[i e']|] eqn:Hfind; [|done].
      cbn [snd]. change (userStorage.getAll (userStorage.save ?l st)) with l.
      apply list_find_found in Hfind as (Hi & Hid & _).
      assert (e' = e) as ->.
      { eapply (NoDup_fmap_unique u_id); [exact Hids| | |done].
        - by eapply list_elem_of_lookup_2.
        - by apply Hediting. }
      rewrite list_fmap_insert.
      change (u_username (userStorage.merge e userData)) with (f_username formData).
      destruct (decide (u_username e = f_username formData)) as [Hsame|Hchanged].
      * rewrite <- Hsame, list_insert_id; [done|]. by rewrite list_lookup_fmap, Hi.
      * eapply NoDup_insert_fresh; [done|by rewrite list_lookup_fmap, Hi|].
        intros (u & Hname & Hu)%list_elem_of_fmap. apply Htaken. split; [done|].
        apply list_find_is_Some. exists u. split; [done|]. split; [done|].
        intros Hid'. apply Hchanged.
        by rewrite <- (NoDup_fmap_unique u_id users u e Hids Hu (Hediting e eq_refl) Hid').
    + case_decide as Htaken; [done|]. cbn [snd userStorage.add].
      change (userStorage.getAll (userStorage.save ?l st)) with l. fold users.
      rewrite fmap_app. apply NoDup_app. split_and!; [done| |apply NoDup_singleton].
      intros name (u & -> & Hu)%list_elem_of_fmap Hname%list_elem_of_singleton.
      apply Htaken, list_find_is_Some. by exists u.
  - intros [Hname|[[-> Hpass]|[[Hpass Hconfirm]|[-> Htaken]]]].
    + by rewrite decide_True.
    + case_decide; [done|]. by rewrite decide_True.
    + case_decide; [done|]. case_decide; [done|]. by rewrite decide_True.
    + case_decide; [done|]. case_decide; [done|]. case_decide; [done|].
      rewrite decide_True; [done|]. apply list_find_is_Some.
      apply list_elem_of_fmap in Htaken as (u & Hname & Hu). by exists u.
  - intros -> Hname Hpass Hconfirm Hfree.
    rewrite decide_False by done. rewrite decide_False by (by intros [_ ?]).
    rewrite decide_False by (by intros [_ ?]).
    rewrite decide_False; [done|].
    intros (u & Hu & Hname')%list_find_is_Some. apply Hfree.
    apply list_elem_of_fmap. by exists u.
  - intros e i -> Hfind Hname Hpass Hfree.
    rewrite decide_False by done. rewrite decide_False by (by intros [? _]).
    rewrite decide_False by (intros [? ?]; by destruct Hpass).
    rewrite decide_False.
    2: { intros [Hchanged (u & Hu & Hname' & Hid)%list_find_is_Some].
         destruct Hfree as [?|Hfree]; [done|]. by apply Hid, Hfree. }
    unfold userStorage.update. fold users. rewrite Hfind. cbn [snd].
    change (userStorage.getAll (userStorage.save ?l st)) with l. f_equal.
    unfold userStorage.merge, userData. simpl. by case_decide.
  - destruct editingUser; repeat case_decide; try done;
      unfold userStorage.update;
      by destruct (list_find (λ u, u_id u = _) (userStorage.getAll st)) as [[??]|].
  - destruct editingUser; repeat case_decide; try done;
      unfold userStorage.update;
      by destruct (list_find (λ u, u_id u = _) (userStorage.getAll st)) as [[??]|].
  - destruct editingUser; repeat case_decide; try done;
      unfold userStorage.update;
      by destruct (list_find (λ u, u_id u = _) (userStorage.getAll st)) as [[??]|].
  - destruct editingUser; repeat case_decide; try done;
      unfold userStorage.update;
      by destruct (list_find (λ u, u_id u = _) (userStorage.getAll st)) as [[??]|].
Qed.

(** ** The cart *)

(** X21. A cart line is identified by its product and variant.
    [removeFromCart] removes the lines of a product and variant and keeps
    the others in order.  [updateCartQuantity] with a quantity of zero or
    less removes them; otherwise it keeps every line in place and gives
    the lines of the product and variant the quantity and, as total, price
    times quantity.  [addToCart] of a product and variant not yet in the
    cart appends a line with quantity 1 and the price as total, which
    raises the subtotal by that price; for one in the cart it updates the
    first such line's quantity plus one.  All three keep the lines of a
    cart distinct, and an emptied cart has subtotal 0. *)
Theorem X21_cart_lines `{NumberOps num} (cart : list (CartItem num)) :
  let key := λ item : CartItem num, (ci_productId item, ci_variantId item) in
  (∀ productId variantId,
     let cart' := POS.removeFromCart productId variantId cart in
     ((productId, variantId) ∉ key <$> cart')
     ∧ cart' `sublist_of` cart
     ∧ (∀ item, item ∈ cart → key item ≠ (productId, variantId) → item ∈ cart')
     ∧ ((productId, variantId) ∉ key <$> cart → cart' = cart))
  ∧ (∀ productId quantity variantId,
       let cart' := POS.updateCartQuantity productId quantity variantId cart in
       ((quantity <=? num_zero)%num = true →
        cart' = POS.removeFromCart productId variantId cart)
       ∧ ((quantity <=? num_zero)%num = false →
          Forall2 (λ item item',
                     key item' = key item ∧ ci_name item' = ci_name item
                     ∧ ci_price item' = ci_price item
                     ∧ (key item = (productId, variantId) →
                        ci_quantity item' = quantity
                        ∧ ci_total item' = (ci_price item * quantity)%num)
                     ∧ (key item ≠ (productId, variantId) → item' = item))
                  cart cart'))
  ∧ (∀ product variantId,
       let cart' := POS.addToCart product variantId cart in
       ((p_id product, variantId) ∉ key <$> cart →
        ∃ line, cart' = cart ++ [line]
                ∧ key line = (p_id product, variantId)
                ∧ ci_quantity line = num_one ∧ ci_total line = ci_price line
                ∧ (variantId = None →
                   ci_price line = p_price product ∧ ci_name line = p_name product)
                ∧ POS.calculateSubtotal cart'
                  = (POS.calculateSubtotal cart + ci_price line)%num)
       ∧ (∀ i line,
            list_find (λ item, key item = (p_id product, variantId)) cart = Some (i, line) →
            cart' = POS.updateCartQuantity (p_id product) (ci_quantity line + num_one)%num
                                           variantId cart))
  ∧ (NoDup (key <$> cart) →
     (∀ productId variantId, NoDup (key <$> POS.removeFromCart productId variantId cart))
     ∧ (∀ productId quantity variantId,
          NoDup (key <$> POS.updateCartQuantity productId quantity variantId cart))
     ∧ (∀ product variantId, NoDup (key <$> POS.addToCart product variantId cart)))
  ∧ POS.calculateSubtotal (POS.clearCart cart) = num_zero.
Proof.
  intros key.
  assert (Hkey : ∀ (item : CartItem num) productId variantId,
            (ci_productId item = productId ∧ ci_variantId item = variantId)
            ↔ key item = (productId, variantId)).
  { intros item productId variantId. unfold key. split; [by intros [-> ->]|by intros [= -> ->]]. }
  assert (Hupdate : ∀ productId quantity variantId,
            (quantity <=? num_zero)%num = false →
            Forall2 (λ item item',
                       key item' = key item ∧ ci_name item' = ci_name item
                       ∧ ci_price item' = ci_price item
                       ∧ (key item = (productId, variantId) →
                          ci_quantity item' = quantity
                          ∧ ci_total item' = (ci_price item * quantity)%num)
                       ∧ (key item ≠ (productId, variantId) → item' = item))
                    cart (POS.updateCartQuantity productId quantity variantId cart)).
  { intros productId quantity variantId Hpos. unfold POS.updateCartQuantity. rewrite Hpos.
    apply Forall2_fmap_r, Forall_Forall2_diag, Forall_forall. intros item _.
    unfold compose. cbv beta. case_decide as Hitem; rewrite Hkey in Hitem; by split_and!. }
  assert (Hremove : ∀ productId variantId,
            NoDup (key <$> cart) →
            NoDup (key <$> POS.removeFromCart productId variantId cart)).
  { intros productId variantId Hnodup. by apply NoDup_fmap_filter. }
  assert (Hupdate' : ∀ productId quantity variantId,
            NoDup (key <$> cart) →
            NoDup (key <$> POS.updateCartQuantity productId quantity variantId cart)).
  { intros productId quantity variantId Hnodup.
    destruct (quantity <=? num_zero)%num eqn:Hpos.
    - unfold POS.updateCartQuantity. rewrite Hpos. by apply Hremove.
    - replace (key <$> POS.updateCartQuantity productId quantity variantId cart)
        with (key <$> cart); [done|].
      apply list_eq_Forall2, Forall2_fmap.
      eapply Forall2_impl; [by apply Hupdate|]. by intros item item' (-> & _). }
  assert (Hfind : ∀ (product : Product num) variantId,
            list_find (λ item, ci_productId item = p_id product ∧ ci_variantId item = variantId)
                      cart
            = list_find (λ item, key item = (p_id product, variantId)) cart).
  { intros product variantId. apply list_find_ext. intros item. apply Hkey. }
  split_and!.
  - intros productId variantId cart'. subst cart'. unfold POS.removeFromCart. split_and!.
    + intros (item & Hitem & [Hne _]%list_elem_of_filter)%list_elem_of_fmap.
      apply Hne. by apply Hkey.
    + apply sublist_filter.
    + intros item Hin Hne. apply list_elem_of_filter. split; [|done]. by rewrite Hkey.
    + intros Hnotin. apply filter_length_eq.
      destruct (decide (length (filter (λ item, ¬ (ci_productId item = productId
                                                   ∧ ci_variantId item = variantId)) cart)
                        = length cart)) as [?|Hlen]; [done|].
      apply filter_length_lt in Hlen as (item & Hin & Hitem).
      destruct Hnotin. apply list_elem_of_fmap. exists item. split; [|done].
      symmetry. apply Hkey. by destruct (decide (ci_productId item = productId
                                                  ∧ ci_variantId item = variantId)).
  - intros productId quantity variantId cart'. subst cart'. split.
    + intros Hpos. unfold POS.updateCartQuantity. by rewrite Hpos.
    + apply Hupdate.
  - intros product variantId cart'. subst cart'. unfold POS.addToCart. cbn zeta.
    rewrite Hfind. split.
    + intros Hnew.
      destruct (list_find _ cart) as [[i line]|] eqn:Hline.
      { apply list_find_found in Hline as (Hi & Hline & _).
        destruct Hnew. apply list_elem_of_fmap. exists line.
        split; [done|by eapply list_elem_of_lookup_2]. }
      eexists. split; [reflexivity|]. split_and!; try done.
      * intros ->. destruct (p_variants product) as [variants|]; [|done].
        destruct (list_find _ variants) as [[j v]|] eqn:Hv; [|done].
        by apply list_find_found in Hv as (_ & ? & _).
      * unfold POS.calculateSubtotal. by rewrite foldl_snoc.
    + intros i line Hline. rewrite Hline.
      apply list_find_found in Hline as (_ & [= <- _] & _). done.
  - intros Hnodup. split_and!.
    + intros productId variantId. by apply Hremove.
    + intros productId quantity variantId. by apply Hupdate'.
    + intros product variantId. unfold POS.addToCart. cbn zeta. rewrite Hfind.
      destruct (list_find _ cart) as [[i line]|] eqn:Hline; [by apply Hupdate'|].
      rewrite fmap_app. apply NoDup_app. split_and!; [done| |apply NoDup_singleton].
      intros k (item & -> & Hin)%list_elem_of_fmap Hk%list_elem_of_singleton.
      eapply list_find_None in Hline. rewrite Forall_forall in Hline.
      by apply (Hline item Hin).
  - done.
Qed.

(** ** Clearing all data *)

(** X22. Clearing all data and reloading the page gives the same store
    whatever was stored before: the two default accounts and the five
    sample products, with the identifiers and times of the seven calls
    in their order, no sales, the default settings and no session.  No
    one is logged in, and the default administrator can log in. *)
Theorem X22_clear_and_reload `{Number num} (ids times : nat → string) (st : Store num) :
  let s := AuthContext.mount ids times (AuthContext.mkSession None (clear st)) in
  AuthContext.storage s
  = AuthContext.storage
      (AuthContext.mount ids times (AuthContext.mkSession None empty_store))
  ∧ AuthContext.state_user s = None
  ∧ authStorage.isLoggedIn (AuthContext.storage s) = false
  ∧ userStorage.getAll (AuthContext.storage s)
    = [mkUser (ids 0) "admin" "admin123" admin (times 0) true;
       mkUser (ids 1) "cashier" "cashier123" cashier (times 1) true]
  ∧ (λ p, (p_id p, p_code p, p_createdAt p, p_isActive p))
      <$> productStorage.getAll (AuthContext.storage s)
    = [(ids 2, "COKE500", times 2, true); (ids 3, "LM-PC", times 3, true);
       (ids 4, "SF-CRACK", times 4, true); (ids 5, "SG-SOAP", times 5, true);
       (ids 6, "C2-GT", times 6, true)]
  ∧ salesStorage.getAll (AuthContext.storage s) = []
  ∧ settingsStorage.get (AuthContext.storage s) = settingsStorage.defaults
  ∧ (∃ r, AuthContext.login "admin" "admin123" s = (true, r)
          ∧ AuthContext.isAdmin r = true
          ∧ (u_id <$> AuthContext.state_user r) = Some (ids 0))
  ∧ (AuthContext.login "cashier" "cashier123" s).1 = true
  ∧ (∀ password, password ≠ "admin123" →
                 (AuthContext.login "admin" password s).1 = false).
Proof.
  intros s. subst s. split_and!; try done.
  - by eexists.
  - intros password Hpassword. unfold AuthContext.login, userStorage.findByCredentials.
    simpl. by rewrite decide_False by (by intros (_ & ? & _)).
Qed.

(** ** Routing *)

(** X23. From every route, for every session, at most two redirects lead
    to a page, so there is no redirect loop.  The page reached is the
    login page or the not-found page when no one is logged in, the
    point-of-sale page or the not-found page for a cashier, and never the
    login page for an administrator; an administrator's routes all render
    their own page.  Every entry of the navigation bar of a logged-in
    user renders without a redirect. *)
Theorem X23_routes {num : Type} (s : AuthContext.Session (num := num)) (route : Route) :
  (∃ page,
     App.resolve 2 route s = Some page
     ∧ match u_role <$> AuthContext.state_user s with
       | None => page = page_Login ∨ page = page_NotFound
       | Some cashier => page = page_POS ∨ page = page_NotFound
       | Some admin => page ≠ page_Login
       end)
  ∧ (u_role <$> AuthContext.state_user s = Some admin →
     route ≠ route_login → route ≠ route_root → ∃ page, App.AppRoutes route s = Render page)
  ∧ (u_role <$> AuthContext.state_user s = Some cashier →
     ∀ page, App.AppRoutes route s = Render page → page = page_POS ∨ page = page_NotFound)
  ∧ (AuthContext.state_user s = None →
     ∀ page, App.AppRoutes route s = Render page → page = page_Login ∨ page = page_NotFound)
  ∧ (AuthContext.isLoggedIn s = true →
     ∀ item, item ∈ App.navigation s → ∃ page, App.AppRoutes item s = Render page).
Proof.
  destruct s as [[[id username password [] createdAt isActive]|] st].
  - split_and!.
    + destruct route; eexists; (split; [reflexivity|]); simpl; auto; discriminate.
    + intros _ Hlogin Hroot. destruct route; try done; by eexists.
    + intros [=].
    + intros [=].
    + intros _ item Hitem. unfold App.navigation in Hitem. simpl in Hitem.
      repeat (apply elem_of_cons in Hitem as [->|Hitem]; [by eexists|]).
      by apply elem_of_nil in Hitem.
  - split_and!.
    + destruct route; eexists; (split; [reflexivity|]); simpl; auto.
    + intros [=].
    + intros _ page. destruct route; intros [= <-]; auto.
    + intros [=].
    + intros _ item Hitem. unfold App.navigation in Hitem. simpl in Hitem.
      repeat (apply elem_of_cons in Hitem as [->|Hitem]; [by eexists|]).
      by apply elem_of_nil in Hitem.
  - split_and!.
    + destruct route; eexists; (split; [reflexivity|]); simpl; auto.
    + intros [=].
    + intros [=].
    + intros _ page. destruct route; intros [= <-]; auto.
    + intros [=].
Qed.

(** ** The login page *)

(** X24. The login page refuses an empty user name or password without
    consulting the stored users: the session stays as it was, even when
    a stored active user has exactly these credentials.  Otherwise it
    reports no error exactly when a stored active user has the
    credentials, and an error leaves the session as it was.  After a
    login without error the page's effect navigates to a route that
    renders at once: the dashboard for an administrator, the point of
    sale for a cashier.  On the default data both demo logins
    succeed. *)
Theorem X24_login_page `{Number num} (username password : string)
    (s : AuthContext.Session (num := num)) :
  let r := LoginPage.handleSubmit username password s in
  (username = "" ∨ password = "" → r.1 ≠ None ∧ r.2 = s)
  ∧ (r.1 = None
     ↔ username ≠ "" ∧ password ≠ ""
       ∧ ∃ u, u ∈ userStorage.getAll (AuthContext.storage s)
              ∧ u_username u = username ∧ u_password u = password ∧ u_isActive u = true)
  ∧ (r.1 ≠ None → r.2 = s)
  ∧ (r.1 = None →
     ∃ u route page,
       AuthContext.state_user r.2 = Some u
       ∧ LoginPage.redirect r.2 = Some route
       ∧ App.AppRoutes route r.2 = Render page
       ∧ page = match u_role u with admin => page_Dashboard | cashier => page_POS end)
  ∧ (∀ ids times role,
       userStorage.getAll (AuthContext.storage s) = [] →
       (LoginPage.handleSubmit (LoginPage.handleDemoLogin role).1
          (LoginPage.handleDemoLogin role).2 (AuthContext.mount ids times s)).1 = None).
Proof.
  intros r. subst r.
  assert (Hdemo : ∀ ids times role,
            userStorage.getAll (AuthContext.storage s) = [] →
            (LoginPage.handleSubmit (LoginPage.handleDemoLogin role).1
               (LoginPage.handleDemoLogin role).2 (AuthContext.mount ids times s)).1 = None).
  { intros ids times role Hnone.
    set (st' := defaults.initializeDefaultData ids times (AuthContext.storage s)).
    assert (Hstorage : AuthContext.storage (AuthContext.mount ids times s) = st').
    { unfold AuthContext.mount. fold st'. by destruct (authStorage.getCurrentUser st'). }
    assert (Husers : userStorage.getAll st'
                     = [mkUser (ids 0) "admin" "admin123" admin (times 0) true;
                        mkUser (ids 1) "cashier" "cashier123" cashier (times 1) true]).
    { unfold st'. by rewrite initializeDefaultData_users, Hnone. }
    destruct role; unfold LoginPage.handleSubmit; simpl;
      unfold AuthContext.login, userStorage.findByCredentials;
      by rewrite Hstorage, Husers. }
  unfold LoginPage.handleSubmit.
  destruct (decide (username = "" ∨ password = "")) as [Hempty|Hfull].
  { split_and!; try done.
    split; [done|]. intros (? & ? & _). by destruct Hempty. }
  assert (Hname : username ≠ "") by (intros ->; apply Hfull; by left).
  assert (Hpass : password ≠ "") by (intros ->; apply Hfull; by right).
  unfold AuthContext.login.
  destruct (userStorage.findByCredentials username password (AuthContext.storage s))
    as [u|] eqn:Hfind; cbn [fst snd].
  - pose proof (findByCredentials_Some _ _ _ _ Hfind) as (Hu & Hu1 & Hu2 & Hactive).
    split_and!; try done.
    + split; [|done]. intros _. split_and!; [done|done|]. by exists u.
    + intros _. exists u.
      destruct u as [id name pass [] created active].
      * exists route_admin, page_Dashboard. by split_and!.
      * exists route_cashier, page_POS. by split_and!.
  - split_and!; try done.
    split; [done|]. intros (_ & _ & u & Hu & Hcreds).
    by destruct (findByCredentials_None _ _ _ Hfind u Hu).
Qed.

(** ** Checkout *)

(** X25. [processSale] does nothing when no user is logged in, and nothing
    when the payment is in cash and less than the total.  In every other
    case it records one sale and empties the cart, whatever the amount
    paid by card or otherwise and whatever the stock: the sale is
    appended to the ledger and kept as the last sale; its items are the
    cart, its total is the subtotal plus the tax on it, its cashier is
    the user, its change is zero unless paid in cash.  The products keep
    their identifiers, no stock below zero is introduced, and users,
    settings and the session are untouched. *)
Theorem X25_processSale `{NumberOps num} (max0 : num → num) (user : option User)
    (paymentMethod : PaymentMethod) (taxRate paid : num) (newId now : string)
    (stamps : nat → string) (t : Checkout.Till (num := num)) :
  let t' := Checkout.processSale max0 user paymentMethod taxRate paid newId now stamps t in
  let total := Checkout.calculateTotal taxRate (Checkout.cart t) in
  let refused := bool_decide (paymentMethod = cash) && (paid <? total)%num in
  (user = None ∨ refused = true → t' = t)
  ∧ (paymentMethod ≠ cash → refused = false)
  ∧ (∀ cashier, user = Some cashier → refused = false →
       ∃ sale,
         Checkout.lastSale t' = Some sale
         ∧ Checkout.cart t' = []
         ∧ salesStorage.getAll (Checkout.store t')
           = salesStorage.getAll (Checkout.store t) ++ [sale]
         ∧ (s_id sale = newId ∧ s_date sale = split_T_0 now
            ∧ s_items sale = Checkout.cart t
            ∧ s_subtotal sale = POS.calculateSubtotal (Checkout.cart t)
            ∧ s_tax sale = (s_subtotal sale * taxRate)%num
            ∧ s_total sale = (s_subtotal sale + s_tax sale)%num
            ∧ s_total sale = total
            ∧ s_amountPaid sale = paid
            ∧ s_cashierId sale = u_id cashier
            ∧ s_receiptPrinted sale = false)
         ∧ (paymentMethod ≠ cash → s_change sale = num_zero)
         ∧ (paymentMethod = cash → s_change sale = max0 (paid - total)%num
                                   ∧ (paid <? s_total sale)%num = false))
  ∧ (p_id <$> productStorage.getAll (Checkout.store t')
     = p_id <$> productStorage.getAll (Checkout.store t)
     ∧ (Forall (λ p, ¬ Spec.negative_stock p) (productStorage.getAll (Checkout.store t)) →
        Forall (λ p, ¬ Spec.negative_stock p) (productStorage.getAll (Checkout.store t')))
     ∧ userStorage.getAll (Checkout.store t') = userStorage.getAll (Checkout.store t)
     ∧ settingsStorage.get (Checkout.store t') = settingsStorage.get (Checkout.store t)
     ∧ authStorage.getCurrentUser (Checkout.store t')
       = authStorage.getCurrentUser (Checkout.store t)).
Proof.
  intros t' total refused. subst t' refused. unfold Checkout.processSale. cbn zeta.
  fold total.
  destruct user as [cashier|]; [|by split_and!; try done; destruct paymentMethod].
  destruct (bool_decide (paymentMethod = cash) && (paid <? total)%num) eqn:Hrefused.
  { split_and!; try done. intros Hne. by rewrite bool_decide_eq_false_2 in Hrefused. }
  set (draft := mkNewSale _ _ _ _ _ _ _ _ _ _ _).
  pose proof (updateStocks_same_but_stock stamps 0 (ns_items draft) (Checkout.store t))
    as Hsame.
  destruct (updateStocks_others stamps 0 (ns_items draft) (Checkout.store t))
    as (Husers & _ & Hsettings & Hsession).
  assert (Hadd : ∀ st, (let '(sale, st') := salesStorage.add newId now stamps draft st in
                        Checkout.mkTill (POS.clearCart (Checkout.cart t)) (Some sale) st')
                       = Checkout.mkTill [] (Some (salesStorage.add newId now stamps draft st).1)
                                         (salesStorage.add newId now stamps draft st).2)
    by done.
  rewrite Hadd. cbn [Checkout.store Checkout.cart Checkout.lastSale].
  split_and!.
  - by intros [?|?].
  - intros Hne. by destruct paymentMethod.
  - intros ? [= <-] _. eexists. split; [reflexivity|]. split_and!; try done.
    + intros Hne. simpl. by rewrite bool_decide_eq_false_2.
    + intros ->. simpl. split; [done|].
      by rewrite bool_decide_eq_true_2 in Hrefused.
  - unfold salesStorage.add. cbn [snd].
    change (productStorage.getAll (salesStorage.save ?l ?s)) with (productStorage.getAll s).
    symmetry. apply list_eq_Forall2, Forall2_fmap.
    eapply Forall2_impl; [exact Hsame|]. by intros p p' [(-> & _) _].
  - unfold salesStorage.add. cbn [snd].
    change (productStorage.getAll (salesStorage.save ?l ?s)) with (productStorage.getAll s).
    apply updateStocks_preserves.
  - unfold salesStorage.add, userStorage.getAll. simpl.
    unfold draft in Husers. simpl in Husers. by rewrite Husers.
  - unfold salesStorage.add, settingsStorage.get. simpl.
    unfold draft in Hsettings. simpl in Hsettings. by rewrite Hsettings.
  - unfold salesStorage.add, authStorage.getCurrentUser. simpl.
    unfold draft in Hsession. simpl in Hsession. by rewrite Hsession.
Qed.

(** ** Product codes *)

(** X26. Submitting the product form with an empty name, code, category
    or price changes nothing.  A new product is stored with the code in
    upper case, unless a product of the page's list has that code: then
    nothing is stored, so creating products keeps codes distinct.
    Editing is not checked: the edited product gets the form's code, name
    and numbers whatever the other products are, so giving it the code of
    another product leaves two products with one code. *)
Theorem X26_product_codes `{Number num} (toUpperCase : string → string) (newId now : string)
    (formData : ProductForm) (price stock minStock : num) (st : Store num) :
  let products := productStorage.getAll st in
  let submit editing :=
    ProductFormPage.handleSubmit toUpperCase newId now formData price stock minStock
                                 editing products st in
  let code := toUpperCase (pf_code formData) in
  let complete :=
    pf_name formData ≠ "" ∧ pf_code formData ≠ "" ∧ pf_category formData ≠ ""
    ∧ pf_price formData ≠ "" in
  (pf_name formData = "" ∨ pf_code formData = "" ∨ pf_category formData = ""
   ∨ pf_price formData = "" → ∀ editing, submit editing = st)
  ∧ (code ∈ p_code <$> products → submit None = st)
  ∧ (complete → code ∉ p_code <$> products →
     productStorage.getAll (submit None)
     = products ++ [mkProduct newId (pf_name formData) code (pf_category formData) price
                              stock minStock None (pf_isActive formData) now now])
  ∧ (NoDup (p_code <$> products) → NoDup (p_code <$> productStorage.getAll (submit None)))
  ∧ (∀ i e, complete →
            list_find (λ p, p_id p = p_id e) products = Some (i, e) →
            ∃ p', productStorage.getAll (submit (Some e)) = <[i := p']> products
                  ∧ p_code p' = code ∧ p_name p' = pf_name formData
                  ∧ p_price p' = price ∧ p_stock p' = stock ∧ p_minStock p' = minStock
                  ∧ p_id p' = p_id e ∧ p_createdAt p' = p_createdAt e
                  ∧ p_variants p' = p_variants e ∧ p_updatedAt p' = now)
  ∧ (∀ i j e other, complete → i ≠ j →
            list_find (λ p, p_id p = p_id e) products = Some (i, e) →
            products !! j = Some other → p_code other = code →
            ¬ NoDup (p_code <$> productStorage.getAll (submit (Some e)))).
Proof.
  intros products submit code complete. subst submit complete.
  unfold ProductFormPage.handleSubmit. fold products code.
  assert (Hedit : ∀ i e,
            list_find (λ p, p_id p = p_id e) products = Some (i, e) →
            ∀ patch, productStorage.getAll (productStorage.update (p_id e) patch now st).2
                     = <[i := productStorage.merge e patch now]> products).
  { intros i e Hfind patch. by rewrite (productStorage_update_found _ _ _ _ _ _ Hfind). }
  split_and!.
  - intros Hempty editing. by rewrite decide_True.
  - intros Htaken. case_decide; [done|]. rewrite decide_True; [done|].
    apply list_find_is_Some. apply list_elem_of_fmap in Htaken as (p & Hcode & Hp).
    by exists p.
  - intros (Hname & Hcode & Hcategory & Hprice) Hfree.
    rewrite decide_False by tauto. rewrite decide_False; [done|].
    intros (p & Hp & Hpcode)%list_find_is_Some. apply Hfree.
    apply list_elem_of_fmap. by exists p.
  - intros Hcodes. case_decide; [done|]. case_decide as Htaken; [done|].
    unfold productStorage.add. cbn [snd]. rewrite getAll_save, fmap_app. fold products.
    apply NoDup_app. split_and!; [done| |apply NoDup_singleton].
    intros c (p & -> & Hp)%list_elem_of_fmap Hc%list_elem_of_singleton.
    apply Htaken, list_find_is_Some. by exists p.
  - intros i e (Hname & Hcode & Hcategory & Hprice) Hfind.
    rewrite decide_False by tauto. rewrite (Hedit i e Hfind).
    eexists. split; [reflexivity|]. by split_and!.
  - intros i j e other (Hname & Hcode & Hcategory & Hprice) Hij Hfind Hj Hother.
    rewrite decide_False by tauto. rewrite (Hedit i e Hfind). intros Hnodup.
    apply Hij. eapply NoDup_lookup; [exact Hnodup| |].
    + rewrite list_lookup_fmap, list_lookup_insert_eq; [reflexivity|].
      by apply list_find_found in Hfind as (_ & _ & ?).
    + rewrite list_lookup_fmap, list_lookup_insert_ne by done.
      rewrite Hj. simpl. by rewrite Hother.
Qed.

(** * The properties at work *)

(** Each lemma below applies one of the properties above to a concrete
    store and discharges its premises by evaluation. *)

Lemma X1_delete_removes_all_witness :
  (userStorage.delete "u9" Scenario.staff).1 = false
  ∧ (userStorage.delete "u9" Scenario.staff).2 = Scenario.staff
  ∧ (userStorage.delete "u2" Scenario.staff).1 = true
  ∧ userStorage.getAll (userStorage.delete "u2" Scenario.staff).2 = [Shop.admin_user].
Proof.
  pose proof (X1_delete_removes_all Scenario.staff "u9") as Habsent.
  pose proof (X1_delete_removes_all Scenario.staff "u2") as Hpresent.
  cbv zeta in Habsent, Hpresent.
  destruct Habsent as ((_ & _ & _ & Hsame & _) & _).
  destruct Hpresent as ((_ & Hfilter & _) & _).
  split_and!; [reflexivity|apply Hsame; reflexivity|reflexivity|].
  rewrite Hfilter. reflexivity.
Defined.


Lemma X4_initializeDefaultData_once_witness :
  userStorage.getAll (empty_store (num := float)) = []
  ∧ productStorage.getAll (empty_store (num := float)) = []
  ∧ u_username <$> userStorage.getAll Shop.opened = ["admin"; "cashier"]
  ∧ length (productStorage.getAll Shop.opened) = 5
  ∧ defaults.initializeDefaultData Shop.times Shop.ids Shop.opened = Shop.opened.
Proof.
  pose proof (X4_initializeDefaultData_once Shop.ids Shop.times Shop.times Shop.ids
                (empty_store (num := float))) as Hthm.
  cbv zeta in Hthm. destruct Hthm as (_ & Hagain & _ & _ & Husers & Hproducts & _).
  split_and!; [reflexivity|reflexivity| | |exact Hagain].
  - apply (Husers eq_refl).
  - apply (Hproducts eq_refl).
Defined.

Lemma X5_login_logout_witness :
  (AuthContext.login "admin" "admin123" (AuthContext.mkSession None Scenario.staff)).1 = true
  ∧ ∃ u, AuthContext.state_user
           (AuthContext.login "admin" "admin123"
              (AuthContext.mkSession None Scenario.staff)).2 = Some u
         ∧ u_username u = "admin" ∧ u_isActive u = true.
Proof.
  pose proof (X5_login_logout "admin" "admin123" (AuthContext.mkSession None Scenario.staff))
    as Hthm.
  cbv zeta in Hthm. destruct Hthm as (_ & _ & Hlogin & _).
  split; [reflexivity|].
  destruct (Hlogin eq_refl) as (u & Hstate & _ & _ & Hname & _ & Hactive & _).
  exists u. split_and!; assumption.
Defined.

Lemma X7_low_stock_alerts_witness :
  (λ a, (al_productId a, al_severity a)) <$> productAlerts.getLowStockAlerts Scenario.shelf
  = [("p1", low); ("p2", critical)]
  ∧ ∀ a, a ∈ productAlerts.getLowStockAlerts Scenario.shelf →
         (al_currentStock a <=? al_minStock a)%num = true.
Proof.
  pose proof (X7_low_stock_alerts "2024-01-01" Scenario.shelf) as Hthm.
  cbv zeta in Hthm. destruct Hthm as (_ & _ & Hlow & _).
  split; [vm_compute; reflexivity|].
  intros a Ha. apply (Hlow a Ha).
Defined.

Lemma X8_search_witness :
  Shop.toLowerCase "" = ""
  ∧ productSearch.search Shop.toLowerCase "" Shop.opened
    = filter (λ p : Product float, p_isActive p) (productStorage.getAll Shop.opened)
  ∧ includes (Shop.toLowerCase "BEV") (Shop.toLowerCase "e") = true
  ∧ productSearch.search Shop.toLowerCase "BEV" Shop.opened
    `sublist_of` productSearch.search Shop.toLowerCase "e" Shop.opened
  ∧ p_code <$> productSearch.search Shop.toLowerCase "BEV" Shop.opened
    = ["COKE500"; "C2-GT"].
Proof.
  pose proof (X8_search Shop.toLowerCase Shop.opened) as Hthm.
  cbv zeta in Hthm. destruct Hthm as (_ & _ & _ & Hnarrow & Hempty).
  split_and!; [reflexivity| |reflexivity| |vm_compute; reflexivity].
  - apply Hempty. reflexivity.
  - apply Hnarrow. reflexivity.
Defined.

Lemma X9_getByDateRange_witness :
  String.leb "2024-01-02" "2024-01-01" = false
  ∧ salesStorage.getByDateRange "2024-01-02" "2024-01-01" Scenario.ledger = []
  ∧ String.leb "2024-01-01" "2024-01-02" = true
  ∧ Spec.sales_on "2024-01-02"
      (salesStorage.getByDateRange "2024-01-01" "2024-01-02" Scenario.ledger)
    = Spec.sales_on "2024-01-02" (salesStorage.getAll Scenario.ledger)
  ∧ s_id <$> salesStorage.getByDateRange "2024-01-02" "2024-01-02" Scenario.ledger
    = ["s2"; "s3"].
Proof.
  destruct (X9_getByDateRange Scenario.ledger) as (_ & _ & Hinverted & _ & Hday & _).
  split_and!; [reflexivity| |reflexivity| |vm_compute; reflexivity].
  - apply Hinverted. reflexivity.
  - apply Hday; reflexivity.
Defined.

Lemma X10_report_totals_witness :
  "2024-01-02" ≠ ""
  ∧ ∃ r, Reports.generateReport String.compare false "2024-01-02" "2024-01-02"
           Scenario.ledger = Some r
         ∧ r_totalTransactions r = 2
         ∧ r_totalSales r
           = ds_totalSales (salesStorage.getDailySummary "2024-01-02" Scenario.ledger).
Proof.
  destruct (X10_report_totals String.compare Scenario.ledger) as (_ & Hday & _).
  assert (Hdate : "2024-01-02" ≠ "") by discriminate.
  split; [exact Hdate|].
  destruct (Hday false "2024-01-02" Hdate) as (r & Hr & Hsales & Htransactions & _).
  exists r. split_and!; [exact Hr| |exact Hsales].
  rewrite Htransactions. vm_compute. reflexivity.
Defined.

Lemma X11_paymentMethods_witness :
  (λ row, (pr_method row, pr_count row))
    <$> Reports.paymentMethods_of (salesStorage.getAll Scenario.ledger)
  = [(cash, 3)]
  ∧ ∀ row, row ∈ Reports.paymentMethods_of (salesStorage.getAll Scenario.ledger) →
           0 < pr_count row.
Proof.
  pose proof (X11_paymentMethods String.compare (salesStorage.getAll Scenario.ledger)) as Hthm.
  cbv zeta in Hthm. destruct Hthm as (_ & _ & _ & Hrows & _).
  split; [vm_compute; reflexivity|].
  intros row Hrow. destruct (Hrows row Hrow) as (_ & Hcount & _). exact Hcount.
Defined.

Lemma X12_daily_rows_witness :
  (λ row, (dr_date row, dr_transactions row))
    <$> Reports.dailyBreakdown_of String.compare (salesStorage.getAll Scenario.ledger)
  = [("2024-01-01", 1); ("2024-01-02", 2)]
  ∧ ∀ row, row ∈ Reports.dailyBreakdown_of String.compare
                   (salesStorage.getAll Scenario.ledger) →
           dr_transactions row
           = length (Spec.sales_on (dr_date row) (salesStorage.getAll Scenario.ledger)).
Proof.
  pose proof (X12_daily_rows String.compare (salesStorage.getAll Scenario.ledger)) as Hthm.
  cbv zeta in Hthm. destruct Hthm as (_ & _ & Hrows & _).
  split; [vm_compute; reflexivity|].
  intros row Hrow. destruct (Hrows row Hrow) as (Hcount & _). exact Hcount.
Defined.

Lemma X13_sale_changes_stock_only_witness :
  Forall (λ p, ¬ Spec.negative_stock p) (productStorage.getAll Scenario.shelf)
  ∧ Forall (λ p, ¬ Spec.negative_stock p)
           (productStorage.getAll
              (salesStorage.add "s1" "2024-01-01T09:00:00.000Z" Scenario.stamps
                 Scenario.oversold Scenario.shelf).2)
  ∧ p_stock <$> productStorage.getAll
                  (salesStorage.add "s1" "2024-01-01T09:00:00.000Z" Scenario.stamps
                     Scenario.oversold Scenario.shelf).2
    = [2%float; 0%float].
Proof.
  pose proof (X13_sale_changes_stock_only "s1" "2024-01-01T09:00:00.000Z" Scenario.stamps
                Scenario.oversold Scenario.shelf) as Hthm.
  cbv zeta in Hthm. destruct Hthm as (_ & _ & _ & Hkeeps & _).
  assert (Hshelf : Forall (λ p, ¬ Spec.negative_stock p)
                          (productStorage.getAll Scenario.shelf)).
  { repeat (constructor; [intros Hneg; vm_compute in Hneg; discriminate Hneg|]).
    constructor. }
  split_and!; [exact Hshelf|exact (Hkeeps Hshelf)|vm_compute; reflexivity].
Defined.

Lemma X14_sale_counts_for_its_day_witness :
  split_T_0 "2024-01-02" = "2024-01-02"
  ∧ split_T_0 ("2024-01-02" +:+ String "T" "09:00:00.000Z") = "2024-01-02"
  ∧ "2024-01-01" ≠ split_T_0 "2024-01-02T10:00:00.000Z"
  ∧ salesStorage.getDailySummary "2024-01-01" Scenario.ledger
    = salesStorage.getDailySummary "2024-01-01" Scenario.day2a.
Proof.
  pose proof (X14_sale_counts_for_its_day "s3" "2024-01-02T10:00:00.000Z" Scenario.stamps
                (Scenario.checkout [Scenario.line Scenario.noodles 1]) Scenario.day2a)
    as Hthm.
  cbv zeta in Hthm. destruct Hthm as (_ & Hother & Hsplit & _).
  assert (Hdate : "2024-01-01" ≠ split_T_0 "2024-01-02T10:00:00.000Z")
    by (vm_compute; discriminate).
  split_and!; [reflexivity| |exact Hdate|].
  - apply Hsplit. reflexivity.
  - apply (Hother "2024-01-01" Hdate).
Defined.




Lemma X19_own_account_guard_witness :
  Shop.admin_user ∈ userStorage.getAll Scenario.staff
  ∧ u_isActive Shop.admin_user = true
  ∧ UsersPage.handleDeleteUser (Some Shop.admin_user) true Shop.admin_user Scenario.staff
    = Scenario.staff
  ∧ Shop.admin_user
    ∈ userStorage.getAll
        (UsersPage.handleDeleteUser (Some Shop.admin_user) true Shop.cashier_user
           Scenario.staff)
  ∧ is_Some (userStorage.findByCredentials "admin" "admin123"
               (UsersPage.toggleUserStatus (Some Shop.admin_user) Shop.cashier_user
                  Scenario.staff)).
Proof.
  pose proof (X19_own_account_guard Shop.admin_user Shop.admin_user true Scenario.staff)
    as Hown.
  pose proof (X19_own_account_guard Shop.admin_user Shop.cashier_user true Scenario.staff)
    as Hother.
  cbv zeta in Hown, Hother.
  destruct Hown as (Hguard & _). destruct Hother as (_ & Hkept & Hlogin & _).
  assert (Hadmin : Shop.admin_user ∈ userStorage.getAll Scenario.staff) by (by left).
  split_and!; [exact Hadmin|reflexivity| | |].
  - apply (Hguard eq_refl).
  - apply (Hkept Shop.admin_user Hadmin eq_refl).
  - apply (Hlogin Hadmin eq_refl).
Defined.

Lemma X20_usernames_stay_unique_witness :
  NoDup (u_username <$> userStorage.getAll Scenario.staff)
  ∧ NoDup (u_id <$> userStorage.getAll Scenario.staff)
  ∧ Shop.cashier_user ∈ userStorage.getAll Scenario.staff
  ∧ NoDup (u_username
             <$> userStorage.getAll
                   (UsersPage.handleSubmit "u3" Scenario.opened Shop.rename
                      (Some Shop.cashier_user) (userStorage.getAll Scenario.staff)
                      Scenario.staff))
  ∧ u_username
      <$> userStorage.getAll
            (UsersPage.handleSubmit "u3" Scenario.opened Shop.rename
               (Some Shop.cashier_user) (userStorage.getAll Scenario.staff) Scenario.staff)
    = ["admin"; "till"].
Proof.
  pose proof (X20_usernames_stay_unique "u3" Scenario.opened Shop.rename
                (Some Shop.cashier_user) Scenario.staff) as Hthm.
  cbv zeta in Hthm. destruct Hthm as (Hunique & _).
  assert (Hnames : NoDup (u_username <$> userStorage.getAll Scenario.staff)).
  { apply (bool_decide_unpack _). vm_compute. exact I. }
  assert (Hids : NoDup (u_id <$> userStorage.getAll Scenario.staff)).
  { apply (bool_decide_unpack _). vm_compute. exact I. }
  assert (Hcashier : Shop.cashier_user ∈ userStorage.getAll Scenario.staff)
    by (right; by left).
  split_and!; [exact Hnames|exact Hids|exact Hcashier| |vm_compute; reflexivity].
  apply (Hunique Hnames Hids). intros e [= <-]. exact Hcashier.
Defined.

Lemma X21_cart_lines_witness :
  NoDup ((λ item : CartItem float, (ci_productId item, ci_variantId item)) <$> Shop.cart)
  ∧ NoDup ((λ item : CartItem float, (ci_productId item, ci_variantId item))
             <$> POS.addToCart Scenario.cola None Shop.cart)
  ∧ (λ item, (ci_productId item, ci_quantity item, ci_total item))
      <$> POS.addToCart Scenario.cola None Shop.cart
    = [("p1", 3%float, 75%float); ("p2", 1%float, 15%float)]
  ∧ (λ item, (ci_productId item, ci_quantity item, ci_total item))
      <$> POS.addToCart Scenario.crackers None Shop.cart
    = [("p1", 2%float, 50%float); ("p2", 1%float, 15%float); ("p3", 1%float, 12%float)].
Proof.
  pose proof (X21_cart_lines Shop.cart) as Hthm.
  cbv zeta in Hthm. destruct Hthm as (_ & _ & _ & Hdistinct & _).
  assert (Hcart : NoDup ((λ item : CartItem float, (ci_productId item, ci_variantId item))
                           <$> Shop.cart)).
  { apply (bool_decide_unpack _). vm_compute. exact I. }
  destruct (Hdistinct Hcart) as (_ & _ & Hadd).
  split_and!; [exact Hcart|apply Hadd|vm_compute; reflexivity|vm_compute; reflexivity].
Defined.

Lemma X22_clear_and_reload_witness :
  "admin" ≠ "admin123"
  ∧ (AuthContext.login "admin" "admin"
       (AuthContext.mount Shop.ids Shop.times
          (AuthContext.mkSession None (clear Scenario.ledger)))).1 = false.
Proof.
  pose proof (X22_clear_and_reload Shop.ids Shop.times Scenario.ledger) as Hthm.
  cbv zeta in Hthm. destruct Hthm as (_ & _ & _ & _ & _ & _ & _ & _ & _ & Hrefused).
  assert (Hpassword : "admin" ≠ "admin123") by discriminate.
  split; [exact Hpassword|]. apply (Hrefused "admin" Hpassword).
Defined.

Lemma X23_routes_witness :
  AuthContext.isLoggedIn (AuthContext.mkSession (Some Shop.cashier_user) Scenario.staff) = true
  ∧ App.resolve 2 route_admin_users
      (AuthContext.mkSession (Some Shop.cashier_user) Scenario.staff) = Some page_POS
  ∧ ∀ item, item ∈ App.navigation
                     (AuthContext.mkSession (Some Shop.cashier_user) Scenario.staff) →
            ∃ page, App.AppRoutes item
                      (AuthContext.mkSession (Some Shop.cashier_user) Scenario.staff)
                    = Render page.
Proof.
  destruct (X23_routes (AuthContext.mkSession (Some Shop.cashier_user) Scenario.staff)
              route_admin_users) as (_ & _ & _ & _ & Hnavigation).
  split_and!; [reflexivity|reflexivity|].
  apply Hnavigation. reflexivity.
Defined.

Lemma X24_login_page_witness :
  userStorage.getAll (AuthContext.storage
                        (AuthContext.mkSession None (empty_store (num := float)))) = []
  ∧ (LoginPage.handleSubmit "cashier" "cashier123"
       (AuthContext.mount Shop.ids Shop.times
          (AuthContext.mkSession None (empty_store (num := float))))).1 = None
  ∧ (LoginPage.handleSubmit "cashier" ""
       (AuthContext.mount Shop.ids Shop.times
          (AuthContext.mkSession None (empty_store (num := float))))).1 ≠ None.
Proof.
  pose proof (X24_login_page "cashier" ""
                (AuthContext.mount Shop.ids Shop.times
                   (AuthContext.mkSession None (empty_store (num := float))))) as Hempty.
  pose proof (X24_login_page "" ""
                (AuthContext.mkSession None (empty_store (num := float)))) as Hdemo.
  cbv zeta in Hempty, Hdemo.
  destruct Hempty as (Hrefused & _). destruct Hdemo as (_ & _ & _ & _ & Hdemo).
  split_and!; [reflexivity| |].
  - apply (Hdemo Shop.ids Shop.times cashier). reflexivity.
  - apply Hrefused. right. reflexivity.
Defined.

Lemma X25_processSale_witness :
  let till := Checkout.mkTill Shop.cart None Scenario.shelf in
  let pay paymentMethod paid :=
    Checkout.processSale Shop.max0 (Some Shop.cashier_user) paymentMethod 0.12%float paid
                         "s1" "2024-01-01T09:00:00.000Z" Scenario.stamps till in
  Checkout.calculateTotal 0.12%float Shop.cart = 72.8%float
  ∧ pay cash 70%float = till
  ∧ card ≠ cash
  ∧ s_id <$> salesStorage.getAll (Checkout.store (pay card 0%float)) = ["s1"]
  ∧ Forall (λ p, ¬ Spec.negative_stock p)
           (productStorage.getAll (Checkout.store (pay card 0%float)))
  ∧ (p_stock <$> productStorage.getAll (Checkout.store (pay cash 100%float)),
     s_change <$> Checkout.lastSale (pay cash 100%float))
    = ([3%float; 0%float], Some 27.200000000000003%float).
Proof.
  cbv zeta.
  pose proof (X25_processSale Shop.max0 (Some Shop.cashier_user) cash 0.12%float 70%float
                "s1" "2024-01-01T09:00:00.000Z" Scenario.stamps
                (Checkout.mkTill Shop.cart None Scenario.shelf)) as Hcash.
  pose proof (X25_processSale Shop.max0 (Some Shop.cashier_user) card 0.12%float 0%float
                "s1" "2024-01-01T09:00:00.000Z" Scenario.stamps
                (Checkout.mkTill Shop.cart None Scenario.shelf)) as Hcard.
  cbv zeta in Hcash, Hcard.
  destruct Hcash as (Hrefused & _). destruct Hcard as (_ & _ & _ & _ & Hkeeps & _).
  assert (Hshelf : Forall (λ p, ¬ Spec.negative_stock p)
                          (productStorage.getAll Scenario.shelf)).
  { repeat (constructor; [intros Hneg; vm_compute in Hneg; discriminate Hneg|]).
    constructor. }
  split_and!; [vm_compute; reflexivity| |discriminate|vm_compute; reflexivity|
               |vm_compute; reflexivity].
  - apply Hrefused. right. vm_compute. reflexivity.
  - apply (Hkeeps Hshelf).
Defined.

Lemma X6_session_outlives_user_witness :
  u_id <$> userStorage.getAll
             (userStorage.delete "u2"
                (authStorage.setCurrentUser Shop.cashier_user Scenario.staff)).2
  = ["u1"]
  ∧ AuthContext.state_user
      (AuthContext.mount Shop.ids Shop.times
         (AuthContext.mkSession None
            (userStorage.delete "u2"
               (authStorage.setCurrentUser Shop.cashier_user Scenario.staff)).2))
    = Some Shop.cashier_user
  ∧ userStorage.findByCredentials "cashier" "cashier123"
      (userStorage.delete "u2"
         (authStorage.setCurrentUser Shop.cashier_user Scenario.staff)).2
    ≠ Some Shop.cashier_user.
Proof.
  pose proof (X6_session_outlives_user Shop.ids Shop.times None Shop.cashier_user
                Scenario.staff) as Hthm.
  cbv zeta in Hthm. destruct Hthm as (_ & _ & _ & Hrestored & _ & Hlogin).
  split_and!; [reflexivity|exact Hrestored|apply Hlogin].
Defined.


Lemma X26_product_codes_witness :
  let submit editing :=
    ProductFormPage.handleSubmit Shop.toUpperCase "id7" "2024-01-02T08:00:00.000Z"
      (mkProductForm "Pancit Canton" "coke500" "Instant Noodles" "15" true)
      15%float 100%float 20%float editing (productStorage.getAll Shop.opened) Shop.opened in
  NoDup (p_code <$> productStorage.getAll Shop.opened)
  ∧ Shop.toUpperCase "coke500" = "COKE500"
  ∧ submit None = Shop.opened
  ∧ p_code <$> productStorage.getAll (submit (head (drop 1 (productStorage.getAll Shop.opened))))
    = ["COKE500"; "COKE500"; "SF-CRACK"; "SG-SOAP"; "C2-GT"]
  ∧ ¬ NoDup (p_code
               <$> productStorage.getAll
                     (submit (head (drop 1 (productStorage.getAll Shop.opened))))).
Proof.
  cbv zeta.
  pose proof (X26_product_codes Shop.toUpperCase "id7" "2024-01-02T08:00:00.000Z"
                (mkProductForm "Pancit Canton" "coke500" "Instant Noodles" "15" true)
                15%float 100%float 20%float Shop.opened) as Hthm.
  cbv zeta in Hthm. destruct Hthm as (_ & Htaken & _ & _ & _ & Hduplicate).
  split_and!; [|reflexivity| |vm_compute; reflexivity|].
  - apply (bool_decide_unpack _). vm_compute. exact I.
  - apply Htaken. vm_compute. by left.
  - eapply (Hduplicate 1 0); [by split_and!|done|reflexivity|reflexivity|reflexivity].
Defined.
